(** * LatticeBoltzmann: the parallel simulation engine of [Lattice.cpp]

    A shallow embedding of [LatticeBoltzmann::Lattice] (file
    [LatticeBoltzmann/Lattice.cpp]) and the properties of its
    initialisation, work partitioning, barrier protocol, kernel dispatch
    and results extraction.

    Conventions.
    - C++ [int] / [unsigned int] values are integers in [Z]; the
      conversions [static_cast<int>] and the [unsigned] wrap-around are the
      functions [to_int] and [to_uint].
    - [double] is IEEE binary64, i.e. Rocq's primitive [float].
    - An Eigen matrix is its two extents and its coefficient function; only
      the coefficients inside the extents are meaningful.
    - A [for] loop over an integer range is [for_range]; its body is a state
      transformer.
    - A critical section (a block run under [std::lock_guard] /
      [std::unique_lock]) is one atomic transition; a
      [condition_variable::wait(lk, pred)] is a transition that is enabled
      only when [pred] holds. *)

From Stdlib Require Import ZArith Lia Bool List PrimFloat.
From stdpp Require Import base list.

Local Open Scope Z_scope.
Set Warnings "-inexact-float".

(** ** Machine integers *)

Definition INT_MAX : Z := 2 ^ 31 - 1.
Definition UINT_MOD : Z := 2 ^ 32.

(** [static_cast<int>(z)]: reduction into [-2^31, 2^31). *)
Definition to_int (z : Z) : Z := (z + 2 ^ 31) mod UINT_MOD - 2 ^ 31.

(** Conversion to [unsigned int]: reduction into [0, 2^32). *)
Definition to_uint (z : Z) : Z := z mod UINT_MOD.

(** ** Loops *)

(** [for (int i = lo; i < hi; ++i) s = body i s]. *)
Definition for_range {St : Type} (lo hi : Z) (body : Z -> St -> St) (s : St) : St :=
  foldl (fun acc i => body i acc) s (seqZ lo (hi - lo)).

(** ** Enumerations of [Lattice.h] *)

Inductive ResultsTypes := Density | Speed | Vorticity.
Inductive BoundaryConditions := BounceBack | Periodic.

Definition BoundaryConditions_eqb (a b : BoundaryConditions) : bool :=
  match a, b with
  | BounceBack, BounceBack | Periodic, Periodic => true
  | _, _ => false
  end.

(** ** Matrices *)

Record Matrix (A : Type) := mkMatrix {
  rows : Z;
  cols : Z;
  coeff : Z -> Z -> A
}.
Arguments mkMatrix {A}.
Arguments rows {A}.
Arguments cols {A}.
Arguments coeff {A}.

(** [m(i, j) = v]. *)
Definition set_coeff {A} (m : Matrix A) (i j : Z) (v : A) : Matrix A :=
  mkMatrix (rows m) (cols m)
    (fun i' j' => if (i' =? i) && (j' =? j) then v else coeff m i' j').

(** [Matrix(r, c)] with every coefficient built by the default constructor. *)
Definition Matrix_new {A} (r c : Z) (d : A) : Matrix A :=
  mkMatrix r c (fun _ _ => d).

(** [Matrix<double,...>::Zero(r, c)]. *)
Definition Matrix_Zero (r c : Z) : Matrix float :=
  mkMatrix r c (fun _ _ => 0%float).

(** ** Cells *)

(** Modelled from the spec: the class [Cell] is declared in a header that is
    not part of the sources at hand.  A cell holds 9 ordered scalar
    distribution values, its member [density]. *)
Record Cell := mkCell { density : list float }.

(** The braced initialiser [{ 0, 0, 0, 0, 0, 0, 0, 0, 0 }]. *)
Definition zero_density : list float :=
  [0; 0; 0; 0; 0; 0; 0; 0; 0]%float.

(** [c.density = d]. *)
Definition set_density (d : list float) (c : Cell) : Cell := mkCell d.

(** ** The [Lattice] object *)

(** The members that the functions of [Lattice.cpp] below read or write.
    The inlet and outlet settings, which only [DealWithInletOutlet] uses,
    are left out. *)
Record Lattice := mkLattice {
  resultsType : ResultsTypes;
  boundaryConditions : BoundaryConditions;
  simulate : bool;
  refreshSteps : Z;
  accelX : float;
  useAccelX : bool;
  tau : float;
  numThreads : Z;
  processed : Z;
  wakeup : list bool;
  latticeObstacles : Matrix bool;
  lattice : Matrix Cell;
  results : Matrix float
}.

Definition with_simulate (b : bool) (L : Lattice) : Lattice :=
  mkLattice (resultsType L) (boundaryConditions L) b (refreshSteps L)
    (accelX L) (useAccelX L) (tau L) (numThreads L) (processed L) (wakeup L)
    (latticeObstacles L) (lattice L) (results L).

Definition with_processed (p : Z) (L : Lattice) : Lattice :=
  mkLattice (resultsType L) (boundaryConditions L) (simulate L) (refreshSteps L)
    (accelX L) (useAccelX L) (tau L) (numThreads L) p (wakeup L)
    (latticeObstacles L) (lattice L) (results L).

Definition with_wakeup (w : list bool) (L : Lattice) : Lattice :=
  mkLattice (resultsType L) (boundaryConditions L) (simulate L) (refreshSteps L)
    (accelX L) (useAccelX L) (tau L) (numThreads L) (processed L) w
    (latticeObstacles L) (lattice L) (results L).

Definition with_lattice (m : Matrix Cell) (L : Lattice) : Lattice :=
  mkLattice (resultsType L) (boundaryConditions L) (simulate L) (refreshSteps L)
    (accelX L) (useAccelX L) (tau L) (numThreads L) (processed L) (wakeup L)
    (latticeObstacles L) m (results L).

Definition with_results (r : Matrix float) (L : Lattice) : Lattice :=
  mkLattice (resultsType L) (boundaryConditions L) (simulate L) (refreshSteps L)
    (accelX L) (useAccelX L) (tau L) (numThreads L) (processed L) (wakeup L)
    (latticeObstacles L) (lattice L) r.

(** ** Member functions of [Cell] and the per-cell kernel

    [Cell]'s member functions and the two kernel routines called by
    [Lattice::CollideAndStream] are defined in headers that are not part of
    the sources at hand.  They are parameters of the development. *)

Class CellMethods := {
  (** [Cell()], the value a freshly built [CellLattice] holds everywhere *)
  Cell_default : Cell;
  (** [Cell::Init()] *)
  Cell_Init : Cell -> Cell;
  (** [Cell::Density()] *)
  Cell_Density : Cell -> float;
  (** [Cell::Velocity()], a [std::pair<double, double>] *)
  Cell_Velocity : Cell -> float * float
}.

(** The calls a worker issues during one pass over its columns, with their
    actual arguments in the order of the source. *)
Inductive Call :=
| CollideAndStreamCell
    (x y : Z) (ShouldCollide xInsideBoundaryOrUseAccel useAccel : bool)
    (LatticeRowsMinusOne LatticeRows LatticeColsMinusOne LatticeCols : Z)
    (accelXtau tauArg : float)
| DealWithInletOutlet
    (startCol endCol LatticeRows LatticeCols
     LatticeRowsMinusOne LatticeColsMinusOne : Z).

Class KernelMethods := {
  (** the effect of one call on the pair (current grid, work grid); the
      object is passed for the configuration the routine reads *)
  run_call : Lattice -> Call -> Matrix Cell * Matrix Cell ->
             Matrix Cell * Matrix Cell
}.

(** ** [Lattice::Init] *)

Section Init.
Context `{CellMethods}.

(** The body of the two nested loops, lines 39-42. *)
Definition Init_cell (L : Lattice) (i j : Z) (m : Matrix Cell) : Matrix Cell :=
  if coeff (latticeObstacles L) i j
     || (negb (BoundaryConditions_eqb Periodic (boundaryConditions L))
         && ((i =? 0) || (i =? rows m - 1)))
  then set_coeff m i j (set_density zero_density (coeff m i j))
  else set_coeff m i j (Cell_Init (coeff m i j)).

Definition Init (L : Lattice) : Lattice :=
  let obstacles := latticeObstacles L in
  let L1 := with_results (Matrix_Zero (rows obstacles) (cols obstacles)) L in
  let L2 := with_lattice
              (Matrix_new (rows obstacles) (cols obstacles) Cell_default) L1 in
  with_lattice
    (for_range 0 (cols (lattice L2))
       (fun j m => for_range 0 (rows m) (fun i m' => Init_cell L2 i j m') m)
       (lattice L2))
    L2.

End Init.

(** ** [Lattice::GetResults] *)

Section GetResults.
Context `{CellMethods}.

Local Open Scope float_scope.

(** Loop body of [case Density], line 171. *)
Definition GetResults_Density (lat : Matrix Cell) (i j : Z)
    (res : Matrix float) : Matrix float :=
  set_coeff res i j (Cell_Density (coeff lat i j)).

(** Loop body of [case Speed], lines 177-178. *)
Definition GetResults_Speed (lat : Matrix Cell) (i j : Z)
    (res : Matrix float) : Matrix float :=
  let res0 := Cell_Velocity (coeff lat i j) in
  set_coeff res i j (sqrt (fst res0 * fst res0 + snd res0 * snd res0)).

(** The three velocities read at cell [(i, j)], lines 185-188. *)
Definition Vorticity_v (lat : Matrix Cell) (i j : Z) : float * float :=
  Cell_Velocity (coeff lat i j).

Definition Vorticity_vx (lat : Matrix Cell) (i j : Z) : float * float :=
  if (i <? rows lat - 1)%Z then Cell_Velocity (coeff lat (i + 1)%Z j)
  else Cell_Velocity (coeff lat 0%Z j).

Definition Vorticity_vy (bc : BoundaryConditions) (lat : Matrix Cell)
    (i j : Z) : float * float :=
  if (0 <? j)%Z then Cell_Velocity (coeff lat i (j - 1)%Z)
  else if BoundaryConditions_eqb bc Periodic
       then Cell_Velocity (coeff lat i (cols lat - 1)%Z)
       else (0, 0).

(** Loop body of [case Vorticity], lines 185-190. *)
Definition GetResults_Vorticity (bc : BoundaryConditions) (lat : Matrix Cell)
    (i j : Z) (res : Matrix float) : Matrix float :=
  let v := Vorticity_v lat i j in
  let vx := Vorticity_vx lat i j in
  let vy := Vorticity_vy bc lat i j in
  set_coeff res i j ((snd vy - snd v) - (fst vx - fst v)).

Definition GetResults (L : Lattice) : Lattice :=
  let lat := lattice L in
  let body :=
    match resultsType L with
    | Density => GetResults_Density lat
    | Speed => GetResults_Speed lat
    | Vorticity => GetResults_Vorticity (boundaryConditions L) lat
    end in
  with_results
    (for_range 0%Z (cols lat)
       (fun j res => for_range 0%Z (rows lat) (fun i res' => body i j res') res)
       (results L))
    L.

End GetResults.

(** The vorticity the specification describes: both neighbour lookups wrap
    under [Periodic] and contribute a zero velocity at the domain edge under
    [BounceBack].  This definition follows the specification's words; the
    code is [GetResults_Vorticity]. *)
Definition Vorticity_spec `{CellMethods} (bc : BoundaryConditions)
    (lat : Matrix Cell) (i j : Z) : float :=
  let v := Cell_Velocity (coeff lat i j) in
  let vx :=
    if i <? rows lat - 1 then Cell_Velocity (coeff lat (i + 1) j)
    else match bc with
         | Periodic => Cell_Velocity (coeff lat 0 j)
         | BounceBack => (0, 0)%float
         end in
  let vy :=
    if 0 <? j then Cell_Velocity (coeff lat i (j - 1))
    else match bc with
         | Periodic => Cell_Velocity (coeff lat i (cols lat - 1))
         | BounceBack => (0, 0)%float
         end in
  ((snd vy - snd v) - (fst vx - fst v))%float.

(** ** The barrier: [WakeUp], [SignalMoreData], [WaitForData], [WaitForWork] *)

(** Outcome of a call that may wait on a condition variable: the call
    returns with a new state, or its predicate is false and the caller stays
    blocked, or it indexes a vector out of bounds (no defined behaviour). *)
Inductive Wait (A : Type) :=
| Returns (a : A)
| Blocks
| OutOfBounds.
Arguments Returns {A}.
Arguments Blocks {A}.
Arguments OutOfBounds {A}.

(** [v[i]] for a [std::vector]. *)
Definition vector_at {A} (v : list A) (i : Z) : option A :=
  if 0 <=? i then v !! Z.to_nat i else None.

(** [v[i] = x] for an index inside the vector. *)
Definition vector_set {A} (v : list A) (i : Z) (x : A) : list A :=
  <[Z.to_nat i := x]> v.

(** Lines 45-53; the loop runs under [lock_guard lk(mw)]. *)
Definition WakeUp (L : Lattice) : Lattice :=
  with_wakeup
    (for_range 0 (Z.of_nat (length (wakeup L)))
       (fun i w => vector_set w i true) (wakeup L))
    L.

(** Lines 55-61; the increment runs under [unique_lock lk(mp)]. *)
Definition SignalMoreData (L : Lattice) : Lattice :=
  with_processed (to_int (processed L + 1)) L.

(** Lines 63-69: [cvp.wait(lk, pred)] then [processed = 0], under [mp]. *)
Definition WaitForData (L : Lattice) : Wait Lattice :=
  if processed L =? to_int (numThreads L)
  then Returns (with_processed 0 L)
  else Blocks.

(** Lines 71-76: [cvw.wait(lk, pred)] then [wakeup[tid] = false], under [mw]. *)
Definition WaitForWork (tid : Z) (L : Lattice) : Wait Lattice :=
  match vector_at (wakeup L) tid with
  | Some true => Returns (with_wakeup (vector_set (wakeup L) tid false) L)
  | Some false => Blocks
  | None => OutOfBounds
  end.

(** ** [Lattice::CollideAndStream]: one worker thread *)

(** Where a worker is in lines 95-119. *)
Inductive WorkerPc :=
| WNotAThread              (* a default-constructed [std::thread] *)
| WWaitForWork             (* line 97, inside [WaitForWork(tid)] *)
| WTestSimulate            (* line 98, about to read [simulate] *)
| WPass                    (* lines 104-116 *)
| WSignal (leaving : bool) (* line 100 ([leaving]) or line 118 *)
| WFinished.               (* after the [break] of line 101 *)

(** A worker: its arguments, the constants of lines 85-93 and its position. *)
Record Worker := mkWorker {
  w_tid : Z;
  w_startCol : Z;
  w_endCol : Z;
  w_LatticeRows : Z;
  w_LatticeCols : Z;
  w_accelXtau : float;
  w_ShouldCollideAtUpDownBoundary : bool;
  w_pc : WorkerPc
}.

Definition with_pc (pc : WorkerPc) (w : Worker) : Worker :=
  mkWorker (w_tid w) (w_startCol w) (w_endCol w) (w_LatticeRows w)
    (w_LatticeCols w) (w_accelXtau w) (w_ShouldCollideAtUpDownBoundary w) pc.

Definition not_a_thread : Worker :=
  mkWorker 0 0 0 0 0 0%float false WNotAThread.

(** Lines 82-93: entry of [CollideAndStream(tid, latticeW, startCol, endCol)]. *)
Definition CollideAndStream_entry (L : Lattice) (tid startCol endCol : Z)
    : Worker :=
  mkWorker tid startCol endCol
    (to_int (rows (lattice L))) (to_int (cols (lattice L)))
    (accelX L * tau L)%float
    (BoundaryConditions_eqb Periodic (boundaryConditions L))
    WWaitForWork.

(** Lines 104-116: the calls of one pass, in order. *)
Definition pass_calls (L : Lattice) (w : Worker) : list Call :=
  let LatticeRows := w_LatticeRows w in
  let LatticeRowsMinusOne := to_int (LatticeRows - 1) in
  let LatticeCols := w_LatticeCols w in
  let LatticeColsMinusOne := to_int (LatticeCols - 1) in
  let ShouldCollideAtUpDownBoundary := w_ShouldCollideAtUpDownBoundary w in
  for_range (w_startCol w) (w_endCol w)
    (fun x calls =>
       let xInsideBoundaryOrUseAccel :=
         useAccelX L || ((0 <? x) && (x <? LatticeColsMinusOne)) in
       let cell y flag :=
         CollideAndStreamCell x y flag xInsideBoundaryOrUseAccel (useAccelX L)
           LatticeRowsMinusOne LatticeRows LatticeColsMinusOne LatticeCols
           (w_accelXtau w) (tau L) in
       let calls0 := calls ++ [cell 0 ShouldCollideAtUpDownBoundary] in
       let calls1 :=
         for_range 1 LatticeRowsMinusOne
           (fun y calls' => calls' ++ [cell y true]) calls0 in
       calls1 ++ [cell LatticeRowsMinusOne ShouldCollideAtUpDownBoundary])
    []
  ++ [DealWithInletOutlet (w_startCol w) (w_endCol w) LatticeRows LatticeCols
        LatticeRowsMinusOne LatticeColsMinusOne].

(** The [CollideAndStreamCell] calls of a pass. *)
Definition is_cell_call (c : Call) : bool :=
  match c with CollideAndStreamCell _ _ _ _ _ _ _ _ _ _ _ => true | _ => false end.

(** Column, row and up/down-boundary collide flag of a kernel call. *)
Definition cell_flag (c : Call) : option (Z * Z * bool) :=
  match c with
  | CollideAndStreamCell x y flag _ _ _ _ _ _ _ _ => Some (x, y, flag)
  | DealWithInletOutlet _ _ _ _ _ _ => None
  end.

(** ** [Lattice::Simulate]: the thread spawning loop, lines 134-140 *)

Definition spawn_threads (L : Lattice) : list Worker :=
  let workStride := to_int (Z.quot (cols (lattice L)) (numThreads L)) in
  fst
    (for_range 0 (to_int (numThreads L))
       (fun t '(theThreads, strideStart) =>
          let endStride := to_int (strideStart + workStride) in
          (vector_set theThreads t
             (CollideAndStream_entry L t strideStart
                (if t =? to_int (to_uint (numThreads L - 1))
                 then to_int (cols (lattice L))
                 else endStride)),
           endStride))
       (replicate (Z.to_nat (numThreads L)) not_a_thread, 0)).

(** [std::thread::joinable()]: the object holds a thread. *)
Definition joinable (w : Worker) : bool :=
  match w_pc w with
  | WNotAThread => false
  | _ => true
  end.

(** The column range [[startCol, endCol)] handed to worker [t], if any. *)
Definition assigned_range (threads : list Worker) (t : Z) : option (Z * Z) :=
  match vector_at threads t with
  | Some w =>
      match w_pc w with
      | WNotAThread => None
      | _ => Some (w_startCol w, w_endCol w)
      end
  | None => None
  end.

(** ** [Lattice::Simulate]: the controller and the running system *)

(** Where the controller is in lines 143-158. *)
Inductive ControllerPc :=
| CWakeUp          (* line 145 *)
| CWaitForData     (* line 146, inside [WaitForData()] *)
| CTestSimulate    (* line 147 *)
| CSwap            (* line 149 *)
| CRefresh         (* lines 152-153, then [++step] *)
| CFinalWakeUp     (* line 156 *)
| CJoin (t : Z)    (* lines 157-158, about to test [t < numThreads] *)
| CReturned.

(** The state shared by the controller and the workers while [Simulate]
    runs: the object, the local [latticeWork], the thread vector and the
    loop counter [step]. *)
Record System := mkSystem {
  this : Lattice;
  latticeWork : Matrix Cell;
  theThreads : list Worker;
  step : Z;
  ctl : ControllerPc
}.

(** What one atomic transition does. *)
Inductive Event :=
| CtlWakeUp
| CtlWaitForData
| CtlBreak
| CtlContinue
| CtlSwap
| CtlGetResults
| CtlNoResults
| CtlJoin (t : Z)
| CtlReturn
| WrkWaitForWork (tid : Z)
| WrkStop (tid : Z)
| WrkGo (tid : Z)
| WrkPass (tid : Z)
| WrkSignalMoreData (tid : Z) (leaving : bool)
| UserStop.

(** The events of the thread that runs [Simulate]. *)
Definition controller_event (e : Event) : bool :=
  match e with
  | CtlWakeUp | CtlWaitForData | CtlBreak | CtlContinue | CtlSwap
  | CtlGetResults | CtlNoResults | CtlJoin _ | CtlReturn => true
  | _ => false
  end.

(** The thread id a worker's event carries. *)
Definition event_tid (e : Event) : option Z :=
  match e with
  | WrkWaitForWork tid | WrkStop tid | WrkGo tid | WrkPass tid
  | WrkSignalMoreData tid _ => Some tid
  | _ => None
  end.

(** The events of worker [tid] in a sequence of events. *)
Definition worker_events (tid : Z) (es : list Event) : list Event :=
  List.filter
    (fun e => match event_tid e with Some t => t =? tid | None => false end) es.

(** Who moves: the thread running [Simulate], the worker held by
    [theThreads[t]], or the user clearing [simulate]. *)
Inductive Actor :=
| Controller
| Work (t : nat)
| User.

(** The test of line 152; [None] when [step % refreshSteps] divides by 0. *)
Definition refresh_due (L : Lattice) (k : Z) : option bool :=
  if 2000 <? k then
    if to_uint (refreshSteps L) =? 0 then None
    else Some (k mod to_uint (refreshSteps L) =? 0)
  else Some false.

Section Simulate.
Context `{CellMethods} `{KernelMethods}.

(** Lines 125-132: the object and the work grid when the spawning loop
    begins. *)
Definition Simulate_setup (L : Lattice) : Lattice * Matrix Cell :=
  let L1 := Init L in
  let work := Matrix_new (rows (lattice L1)) (cols (lattice L1)) Cell_default in
  let L2 := with_processed 0 L1 in
  let L3 := with_wakeup
              (resize (Z.to_nat (numThreads L2)) false (wakeup L2)) L2 in
  let L4 := with_wakeup
              (for_range 0 (numThreads L3)
                 (fun i w => vector_set w i false) (wakeup L3)) L3 in
  (L4, work).

(** Lines 125-140.  [None]: the division of line 134 is by zero. *)
Definition Simulate_start (L : Lattice) : option System :=
  let (L4, work) := Simulate_setup L in
  if numThreads L4 =? 0 then None
  else Some (mkSystem L4 work (spawn_threads L4) 0 CWakeUp).

(** The effect of a pass on the two grids. *)
Definition run_pass (L : Lattice) (calls : list Call)
    (grids : Matrix Cell * Matrix Cell) : Matrix Cell * Matrix Cell :=
  foldl (fun g c => run_call L c g) grids calls.

Definition set_thread (t : nat) (w : Worker) (s : System) : System :=
  mkSystem (this s) (latticeWork s) (<[t := w]> (theThreads s)) (step s) (ctl s).

Definition set_this (L : Lattice) (s : System) : System :=
  mkSystem L (latticeWork s) (theThreads s) (step s) (ctl s).

Definition set_ctl (pc : ControllerPc) (s : System) : System :=
  mkSystem (this s) (latticeWork s) (theThreads s) (step s) pc.

(** One transition of the worker held by [theThreads[t]], lines 95-119.
    The pass of lines 104-116 is a single transition whose effect on the two
    grids is that of its calls, in order; the properties below concern the
    synchronisation and the calls made, not the contents of the grids. *)
Definition worker_step (t : nat) (s : System) : option (Event * System) :=
  match theThreads s !! t with
  | None => None
  | Some w =>
      match w_pc w with
      | WNotAThread => None
      | WFinished => None
      | WWaitForWork =>
          match WaitForWork (w_tid w) (this s) with
          | Returns L' =>
              Some (WrkWaitForWork (w_tid w),
                    set_thread t (with_pc WTestSimulate w) (set_this L' s))
          | Blocks => None
          | OutOfBounds => None
          end
      | WTestSimulate =>
          if negb (simulate (this s))
          then Some (WrkStop (w_tid w), set_thread t (with_pc (WSignal true) w) s)
          else Some (WrkGo (w_tid w), set_thread t (with_pc WPass w) s)
      | WPass =>
          let calls := pass_calls (this s) w in
          let grids := run_pass (this s) calls (lattice (this s), latticeWork s) in
          Some (WrkPass (w_tid w),
                mkSystem (with_lattice (fst grids) (this s)) (snd grids)
                  (<[t := with_pc (WSignal false) w]> (theThreads s))
                  (step s) (ctl s))
      | WSignal leaving =>
          Some (WrkSignalMoreData (w_tid w) leaving,
                set_thread t
                  (with_pc (if leaving then WFinished else WWaitForWork) w)
                  (set_this (SignalMoreData (this s)) s))
      end
  end.

(** [lattice.swap(latticeWork)], line 149. *)
Definition swap_grids (s : System) : System :=
  mkSystem (with_lattice (latticeWork s) (this s)) (lattice (this s))
    (theThreads s) (step s) (ctl s).

(** One transition of the controller, lines 143-158. *)
Definition controller_step (s : System) : option (Event * System) :=
  match ctl s with
  | CWakeUp =>
      Some (CtlWakeUp, set_ctl CWaitForData (set_this (WakeUp (this s)) s))
  | CWaitForData =>
      match WaitForData (this s) with
      | Returns L' => Some (CtlWaitForData, set_ctl CTestSimulate (set_this L' s))
      | _ => None
      end
  | CTestSimulate =>
      if negb (simulate (this s))
      then Some (CtlBreak, set_ctl CFinalWakeUp s)
      else Some (CtlContinue, set_ctl CSwap s)
  | CSwap => Some (CtlSwap, set_ctl CRefresh (swap_grids s))
  | CRefresh =>
      match refresh_due (this s) (step s) with
      | None => None
      | Some due =>
          let L' := if due then GetResults (this s) else this s in
          Some (if due then CtlGetResults else CtlNoResults,
                mkSystem L' (latticeWork s) (theThreads s)
                  (to_uint (step s + 1)) CWakeUp)
      end
  | CFinalWakeUp =>
      Some (CtlWakeUp, set_ctl (CJoin 0) (set_this (WakeUp (this s)) s))
  | CJoin t =>
      if t <? to_uint (numThreads (this s)) then
        match vector_at (theThreads s) t with
        | None => None
        | Some w =>
            match w_pc w with
            | WNotAThread => Some (CtlJoin t, set_ctl (CJoin (to_uint (t + 1))) s)
            | WFinished => Some (CtlJoin t, set_ctl (CJoin (to_uint (t + 1))) s)
            | _ => None
            end
        end
      else Some (CtlReturn, set_ctl CReturned s)
  | CReturned => None
  end.

(** The user (another thread) clears the continue-simulation flag. *)
Definition user_step (s : System) : option (Event * System) :=
  if simulate (this s)
  then Some (UserStop, set_this (with_simulate false (this s)) s)
  else None.

Definition act (a : Actor) (s : System) : option (Event * System) :=
  match a with
  | Controller => controller_step s
  | Work t => worker_step t s
  | User => user_step s
  end.

(** Running a schedule: the events in order and the state reached, or
    [None] when some actor of the schedule cannot move at its turn. *)
Fixpoint run (sched : list Actor) (s : System) : option (list Event * System) :=
  match sched with
  | [] => Some ([], s)
  | a :: sched' =>
      match act a s with
      | None => None
      | Some (e, s') =>
          match run sched' s' with
          | None => None
          | Some (es, s'') => Some (e :: es, s'')
          end
      end
  end.

(** The events of a schedule and the state it leads to (the initial state
    when the schedule cannot be run). *)
Definition events_of (sched : list Actor) (s : System) : list Event :=
  match run sched s with
  | Some (es, _) => es
  | None => []
  end.

Definition state_after (sched : list Actor) (s : System) : System :=
  match run sched s with
  | Some (_, s') => s'
  | None => s
  end.

Definition runs (sched : list Actor) (s : System) : bool :=
  match run sched s with
  | Some _ => true
  | None => false
  end.

(** The same for a single transition. *)
Definition act_event (a : Actor) (s : System) : Event :=
  match act a s with
  | Some (e, _) => e
  | None => UserStop
  end.

Definition act_state (a : Actor) (s : System) : System :=
  match act a s with
  | Some (_, s') => s'
  | None => s
  end.

Definition acts (a : Actor) (s : System) : bool :=
  match act a s with
  | Some _ => true
  | None => false
  end.

(** The state in which [Simulate] enters its step loop, for a thread count
    other than 0. *)
Definition spawn_state (L : Lattice) : System :=
  mkSystem (fst (Simulate_setup L)) (snd (Simulate_setup L))
    (spawn_threads (fst (Simulate_setup L))) 0 CWakeUp.

(** No actor can move. *)
Definition stuck (s : System) : Prop := forall a, act a s = None.

(** [Simulate] has returned and every worker thread has ended. *)
Definition terminated (s : System) : Prop :=
  ctl s = CReturned /\
  forall t w, theThreads s !! t = Some w -> w_pc w = WFinished.

End Simulate.

(** The configuration errors the specification lists: a non-positive thread
    count, more threads than columns, an empty obstacle mask.  This
    definition follows the specification, not the code, which has no such
    test. *)
Definition configuration_error (L : Lattice) : bool :=
  (numThreads L <=? 0)
  || (cols (latticeObstacles L) <? numThreads L)
  || (rows (latticeObstacles L) <=? 0)
  || (cols (latticeObstacles L) <=? 0).

(** ** The constructor, lines 6-17 *)

Definition Lattice_new `{CellMethods} : Lattice :=
  mkLattice Density BounceBack true 10 0.015%float false 0.6%float 8 0 []
    (mkMatrix 0 0 (fun _ _ => false))
    (Matrix_new 0 0 Cell_default)
    (Matrix_Zero 0 0).

Definition with_latticeObstacles (o : Matrix bool) (L : Lattice) : Lattice :=
  mkLattice (resultsType L) (boundaryConditions L) (simulate L) (refreshSteps L)
    (accelX L) (useAccelX L) (tau L) (numThreads L) (processed L) (wakeup L)
    o (lattice L) (results L).

Definition with_boundaryConditions (bc : BoundaryConditions) (L : Lattice)
    : Lattice :=
  mkLattice (resultsType L) bc (simulate L) (refreshSteps L)
    (accelX L) (useAccelX L) (tau L) (numThreads L) (processed L) (wakeup L)
    (latticeObstacles L) (lattice L) (results L).

Definition with_resultsType (rt : ResultsTypes) (L : Lattice) : Lattice :=
  mkLattice rt (boundaryConditions L) (simulate L) (refreshSteps L)
    (accelX L) (useAccelX L) (tau L) (numThreads L) (processed L) (wakeup L)
    (latticeObstacles L) (lattice L) (results L).

Definition with_numThreads (n : Z) (L : Lattice) : Lattice :=
  mkLattice (resultsType L) (boundaryConditions L) (simulate L) (refreshSteps L)
    (accelX L) (useAccelX L) (tau L) n (processed L) (wakeup L)
    (latticeObstacles L) (lattice L) (results L).

(** ** A concrete cell for the examples *)

(** Modelled from the spec: a cell's density is the sum of its 9
    distribution values; its velocity is the first moment of the values over
    the 9 directions divided by the density, and a cell whose values are all
    zero has zero density and zero velocity.  The direction vectors and the
    rest weights, which the spec leaves open, are the usual D2Q9 ones.  This
    instance only serves to run the development on concrete lattices. *)
Module D2Q9.

Local Open Scope float_scope.

Definition ex : list float := [0; 1; 0; -1; 0; 1; -1; -1; 1].
Definition ey : list float := [0; 0; 1; 0; -1; 1; 1; -1; -1].
Definition weights : list float :=
  [4 / 9; 1 / 9; 1 / 9; 1 / 9; 1 / 9; 1 / 36; 1 / 36; 1 / 36; 1 / 36].

Definition total (l : list float) : float := foldl PrimFloat.add 0 l.

Definition Density (c : Cell) : float := total (density c).

Definition Velocity (c : Cell) : float * float :=
  let d := Density c in
  if PrimFloat.eqb d 0 then (0, 0)
  else (total (zip_with PrimFloat.mul ex (density c)) / d,
        total (zip_with PrimFloat.mul ey (density c)) / d).

Definition methods : CellMethods := {|
  Cell_default := mkCell zero_density;
  Cell_Init := fun _ => mkCell weights;
  Cell_Density := Density;
  Cell_Velocity := Velocity
|}.

(** A kernel that leaves both grids alone. *)
Definition idle_kernel : KernelMethods := {|
  run_call := fun _ _ grids => grids
|}.

(** The 4x4 obstacle mask with a single solid cell at (2,2). *)
Definition mask_4x4 : Matrix bool :=
  mkMatrix 4 4 (fun i j => (i =? 2)%Z && (j =? 2)%Z).

Definition lattice_4x4 : Lattice :=
  with_latticeObstacles mask_4x4 (@Lattice_new methods).

(** A 4x3 domain without obstacles, to be shared by 5 threads. *)
Definition config_5_threads_3_cols : Lattice :=
  with_numThreads 5
    (with_latticeObstacles (mkMatrix 4 3 (fun _ _ => false))
       (@Lattice_new methods)).

(** A cell at rest carrying one unit along direction 1: velocity (1, 0). *)
Definition moving_cell : Cell := mkCell [0; 1; 0; 0; 0; 0; 0; 0; 0].

(** A 2x1 lattice under [BounceBack] whose row 0 moves and whose row 1 is
    empty, with [Vorticity] selected. *)
Definition lattice_2x1 : Lattice :=
  with_resultsType Vorticity
    (with_results (Matrix_Zero 2 1)
       (with_lattice
          (mkMatrix 2 1
             (fun i _ => if (i =? 0)%Z then moving_cell else mkCell zero_density))
          (@Lattice_new methods))).

(** The 4x4 domain shared by 2 threads. *)
Definition two_threads : Lattice := with_numThreads 2 lattice_4x4.

(** The controller wakes the workers, worker 0 starts a pass, and the user
    stops the simulation. *)
Definition stop_during_pass : list Actor :=
  [Controller; Work 0; Work 0; User].

(** From there: worker 0 ends its pass and signals, worker 1 wakes up and
    leaves, the controller breaks out of its loop and wakes worker 0, which
    leaves, and the controller joins both. *)
Definition wind_down : list Actor :=
  [Work 0; Work 0; Work 1; Work 1; Work 1; Controller; Controller;
   Controller; Work 0; Work 0; Work 0; Controller; Controller; Controller].

(** The states of that run: at the entry of the step loop, when the user
    has stopped the simulation, and at the end. *)
Definition entered : System := @spawn_state methods two_threads.

Definition stopped : System :=
  @state_after methods idle_kernel stop_during_pass entered.

Definition wound_down : System :=
  @state_after methods idle_kernel wind_down stopped.

Definition wind_down_events : list Event :=
  @events_of methods idle_kernel wind_down stopped.

(** The first wake-up, and worker 0 returning from [WaitForWork]. *)
Definition woken : System := @state_after methods idle_kernel [Controller] entered.

Definition worker0_returned : System := @act_state methods idle_kernel (Work 0) woken.

(** The controller at line 152 in iteration 2010, with the default
    [refreshSteps] of 10. *)
Definition at_refresh : System :=
  mkSystem two_threads (Matrix_new 4 4 (mkCell zero_density)) [] 2010 CRefresh.

(** A lattice of 4 rows and 10 columns shared by 3 threads. *)
Definition lattice_4x10 : Lattice :=
  with_numThreads 3
    (with_lattice (Matrix_new 4 10 (mkCell weights)) (@Lattice_new methods)).

End D2Q9.

(** ** Loop reasoning *)

(** Invariant rule for [for_range]. *)
Lemma for_range_ind {St : Type} (P : Z -> St -> Prop) (lo hi : Z)
    (body : Z -> St -> St) (s : St) :
  lo <= hi ->
  P lo s ->
  (forall i t, lo <= i < hi -> P i t -> P (i + 1) (body i t)) ->
  P hi (for_range lo hi body s).
Proof.
  intros Hle H0 Hstep. unfold for_range.
  assert (Hgen : forall n : nat, lo + Z.of_nat n <= hi ->
            P (lo + Z.of_nat n)
              (foldl (fun acc i => body i acc) s (seqZ lo (Z.of_nat n)))).
  { induction n as [|n IH]; intros Hn.
    - replace (lo + Z.of_nat 0) with lo by lia. exact H0.
    - rewrite seqZ_S, foldl_app. simpl.
      replace (lo + Z.of_nat (S n)) with (lo + Z.of_nat n + 1) by lia.
      apply Hstep; [lia | apply IH; lia]. }
  specialize (Hgen (Z.to_nat (hi - lo))).
  rewrite Z2Nat.id in Hgen by lia.
  replace (lo + (hi - lo)) with hi in Hgen by lia.
  apply Hgen. lia.
Qed.

Lemma for_range_empty {St : Type} (lo hi : Z) (body : Z -> St -> St) (s : St) :
  hi <= lo -> for_range lo hi body s = s.
Proof.
  intros H. unfold for_range, seqZ.
  replace (Z.to_nat (hi - lo)) with 0%nat by lia. reflexivity.
Qed.

(** ** Matrices filled cell by cell *)

Lemma coeff_set_coeff {A} (m : Matrix A) (i j i' j' : Z) (v : A) :
  coeff (set_coeff m i j v) i' j' =
  if (i' =? i) && (j' =? j) then v else coeff m i' j'.
Proof. reflexivity. Qed.

(** Two nested loops, columns outside and rows inside, whose body stores at
    [(i, j)] a value [g i j] as long as that cell still has its initial
    value: afterwards every cell inside the extents holds [g i j]. *)
Lemma fill_loop {A} (r c : Z) (bound : Matrix A -> Z)
    (body : Z -> Z -> Matrix A -> Matrix A) (g : Z -> Z -> A) (m0 : Matrix A) :
  0 <= r -> 0 <= c ->
  (forall m, rows m = rows m0 -> cols m = cols m0 -> bound m = r) ->
  (forall i j m, 0 <= i < r -> 0 <= j < c ->
     rows m = rows m0 -> cols m = cols m0 ->
     coeff m i j = coeff m0 i j ->
     body i j m = set_coeff m i j (g i j)) ->
  let m' := for_range 0 c
              (fun j m => for_range 0 (bound m) (fun i m1 => body i j m1) m) m0 in
  rows m' = rows m0 /\ cols m' = cols m0 /\
  forall i j, coeff m' i j =
    if (0 <=? i) && (i <? r) && (0 <=? j) && (j <? c) then g i j
    else coeff m0 i j.
Proof.
  intros Hr Hc Hbound Hbody m'. subst m'.
  apply (for_range_ind
    (fun j m => rows m = rows m0 /\ cols m = cols m0 /\
       forall i' j', coeff m i' j' =
         if (0 <=? i') && (i' <? r) && (0 <=? j') && (j' <? j) then g i' j'
         else coeff m0 i' j')); [lia | |].
  - repeat split; try reflexivity. intros i' j'.
    destruct ((0 <=? i') && (i' <? r) && (0 <=? j') && (j' <? 0)) eqn:E;
      [lia | reflexivity].
  - intros j m Hj (Hrows & Hcols & Hco).
    rewrite (Hbound m Hrows Hcols).
    pose (Q := fun (i : Z) (m1 : Matrix A) =>
      rows m1 = rows m0 /\ cols m1 = cols m0 /\
      forall i' j', coeff m1 i' j' =
        if (0 <=? i') && (i' <? r) &&
           (((0 <=? j') && (j' <? j)) || ((j' =? j) && (i' <? i)))
        then g i' j' else coeff m0 i' j').
    assert (Hinner : Q r (for_range 0 r (fun i m1 => body i j m1) m)).
    { apply (for_range_ind Q); [lia | |]; unfold Q.
      - repeat split; try assumption. intros i' j'. rewrite Hco.
        destruct ((0 <=? i') && (i' <? r) && (0 <=? j') && (j' <? j)) eqn:E1;
        destruct ((0 <=? i') && (i' <? r) &&
                  (((0 <=? j') && (j' <? j)) || ((j' =? j) && (i' <? 0)))) eqn:E2;
          try reflexivity; lia.
      - intros i m1 Hi (Hrows1 & Hcols1 & Hco1).
        assert (Hfresh : coeff m1 i j = coeff m0 i j).
        { rewrite Hco1.
          destruct ((0 <=? i) && (i <? r) &&
                    (((0 <=? j) && (j <? j)) || ((j =? j) && (i <? i)))) eqn:E;
            [lia | reflexivity]. }
        rewrite (Hbody i j m1) by (assumption || lia).
        repeat split; try assumption. intros i' j'.
        rewrite coeff_set_coeff, Hco1.
        destruct ((i' =? i) && (j' =? j)) eqn:E0;
        destruct ((0 <=? i') && (i' <? r) &&
                  (((0 <=? j') && (j' <? j)) || ((j' =? j) && (i' <? i)))) eqn:E1;
        destruct ((0 <=? i') && (i' <? r) &&
                  (((0 <=? j') && (j' <? j)) || ((j' =? j) && (i' <? i + 1)))) eqn:E2;
          try reflexivity; try lia.
        all: f_equal; lia. }
    unfold Q in Hinner. destruct Hinner as (Hrows1 & Hcols1 & Hco1).
    repeat split; try assumption. intros i' j'. rewrite Hco1.
    destruct ((0 <=? i') && (i' <? r) &&
              (((0 <=? j') && (j' <? j)) || ((j' =? j) && (i' <? r)))) eqn:E1;
    destruct ((0 <=? i') && (i' <? r) && (0 <=? j') && (j' <? j + 1)) eqn:E2;
      try reflexivity; lia.
Qed.

(** ** [Init] *)

Section InitProperties.
Context `{CellMethods}.

(** The cells [Init] marks solid: obstacle cells and, unless the boundary
    conditions are [Periodic], the cells of the first and of the last row. *)
Definition marked_solid (L : Lattice) (i j : Z) : bool :=
  coeff (latticeObstacles L) i j
  || (negb (BoundaryConditions_eqb (boundaryConditions L) Periodic)
      && ((i =? 0) || (i =? rows (latticeObstacles L) - 1))).

(** What [Init] leaves in cell [(i, j)]. *)
Definition initial_cell (L : Lattice) (i j : Z) : Cell :=
  if marked_solid L i j then set_density zero_density Cell_default
  else Cell_Init Cell_default.

Lemma Init_lattice (L : Lattice) :
  0 <= rows (latticeObstacles L) -> 0 <= cols (latticeObstacles L) ->
  rows (lattice (Init L)) = rows (latticeObstacles L) /\
  cols (lattice (Init L)) = cols (latticeObstacles L) /\
  forall i j,
    0 <= i < rows (latticeObstacles L) -> 0 <= j < cols (latticeObstacles L) ->
    coeff (lattice (Init L)) i j = initial_cell L i j.
Proof.
  intros Hr Hc. unfold Init. cbn [lattice with_lattice with_results].
  set (r := rows (latticeObstacles L)) in *.
  set (c := cols (latticeObstacles L)) in *.
  set (m0 := Matrix_new r c Cell_default).
  set (L2 := with_lattice m0 _).
  destruct (fill_loop r c rows (fun i j m => Init_cell L2 i j m)
              (initial_cell L) m0 Hr Hc) as (Hrows & Hcols & Hco).
  - intros m Hm _. exact Hm.
  - intros i j m Hi Hj Hm _ Hfresh. unfold Init_cell, initial_cell, marked_solid.
    rewrite Hfresh, Hm. cbn. fold r.
    destruct (boundaryConditions L); cbn;
      destruct (coeff (latticeObstacles L) i j || _); reflexivity.
  - cbn [cols Matrix_new m0]. repeat split; [exact Hrows | exact Hcols |].
    intros i j Hi Hj. rewrite Hco.
    destruct ((0 <=? i) && (i <? r) && (0 <=? j) && (j <? c)) eqn:E;
      [reflexivity | lia].
Qed.

(** The extents of the lattice that [Init] builds, whatever the mask. *)
Lemma Init_extents (L : Lattice) :
  rows (lattice (Init L)) = rows (latticeObstacles L) /\
  cols (lattice (Init L)) = cols (latticeObstacles L).
Proof.
  unfold Init. cbn [lattice with_lattice with_results].
  set (r := rows (latticeObstacles L)).
  set (c := cols (latticeObstacles L)).
  set (m0 := Matrix_new r c Cell_default).
  set (L2 := with_lattice m0 _).
  pose (P := fun (_ : Z) (m : Matrix Cell) => rows m = r /\ cols m = c).
  assert (Hcell : forall i j m, P 0 m -> P 0 (Init_cell L2 i j m)).
  { intros i j m Hm. unfold Init_cell.
    destruct (coeff (latticeObstacles L2) i j || _); exact Hm. }
  assert (Hinner : forall j m, P 0 m ->
            P 0 (for_range 0 (rows m) (fun i m' => Init_cell L2 i j m') m)).
  { intros j m Hm.
    destruct (Z_le_gt_dec 0 (rows m)) as [Hle | Hgt].
    - apply (for_range_ind (fun _ m' => P 0 m')); [exact Hle | exact Hm |].
      intros i m' _ Hm'. apply Hcell. exact Hm'.
    - rewrite for_range_empty by lia. exact Hm. }
  assert (Houter : P 0 (for_range 0 (cols m0)
            (fun j m => for_range 0 (rows m)
                          (fun i m' => Init_cell L2 i j m') m) m0)).
  { destruct (Z_le_gt_dec 0 (cols m0)) as [Hle | Hgt].
    - apply (for_range_ind (fun _ m => P 0 m));
        [exact Hle | split; reflexivity |].
      intros j m _ Hm. apply Hinner. exact Hm.
    - rewrite for_range_empty by lia. split; reflexivity. }
  exact Houter.
Qed.

(** C6.  After [Init()], whatever the obstacle mask (a mask without cells
    included): the results matrix is the all-zero matrix with the extents of
    the obstacle mask, and the lattice has the extents of the mask.  For
    every cell [(i, j)] of the lattice: the 9 distribution values are
    zeroed when the obstacle mask is set at [(i, j)] or the boundary
    conditions are not [Periodic] and [i] is the first or the last row;
    every other cell is the result of [Cell::Init()] on a fresh cell; and,
    provided [Cell::Init()] does not itself produce nine zeros, the cell is
    zeroed exactly in the first case. *)
Theorem Init_postcondition (L : Lattice) :
  results (Init L) =
    Matrix_Zero (rows (latticeObstacles L)) (cols (latticeObstacles L)) /\
  rows (lattice (Init L)) = rows (latticeObstacles L) /\
  cols (lattice (Init L)) = cols (latticeObstacles L) /\
  forall i j,
    0 <= i < rows (latticeObstacles L) ->
    0 <= j < cols (latticeObstacles L) ->
    (marked_solid L i j = true ->
       density (coeff (lattice (Init L)) i j) = zero_density) /\
    (marked_solid L i j = false ->
       coeff (lattice (Init L)) i j = Cell_Init Cell_default) /\
    (density (Cell_Init Cell_default) <> zero_density ->
       (density (coeff (lattice (Init L)) i j) = zero_density <->
        marked_solid L i j = true)).
Proof.
  split; [reflexivity |].
  destruct (Init_extents L) as [Hrows Hcols].
  split; [exact Hrows |]. split; [exact Hcols |].
  intros i j Hi Hj.
  destruct (Init_lattice L) as (_ & _ & Hco); [lia | lia |].
  specialize (Hco i j Hi Hj). unfold initial_cell in Hco.
  split; [| split].
  - intros Hs. rewrite Hco, Hs. reflexivity.
  - intros Hs. rewrite Hco, Hs. reflexivity.
  - intros Hnz. split.
    + intros Hz. destruct (marked_solid L i j); [reflexivity |].
      rewrite Hco in Hz. contradiction.
    + intros Hs. rewrite Hco, Hs. reflexivity.
Qed.

End InitProperties.

(** An object whose obstacle mask has no cell (the mask of the constructor)
    while its lattice and its results are left over from a 2x3 domain. *)
Definition stale_without_mask : Lattice :=
  with_results (mkMatrix 2 3 (fun _ _ => 1%float))
    (with_lattice (Matrix_new 2 3 D2Q9.moving_cell)
       (@Lattice_new D2Q9.methods)).

(** [Init_postcondition] on the 4x4 domain with one obstacle at (2,2), at
    the obstacle cell, and on an object without mask, whose stale lattice
    and results [Init] replaces by empty ones. *)
Lemma Init_postcondition_witness :
  (0 <= 2 < rows (latticeObstacles D2Q9.lattice_4x4) /\
   0 <= 2 < cols (latticeObstacles D2Q9.lattice_4x4)) /\
  density (@Cell_Init D2Q9.methods (@Cell_default D2Q9.methods))
    <> zero_density /\
  rows (lattice (@Init D2Q9.methods D2Q9.lattice_4x4)) = 4 /\
  density (coeff (lattice (@Init D2Q9.methods D2Q9.lattice_4x4)) 2 2)
    = zero_density /\
  (density (coeff (lattice (@Init D2Q9.methods D2Q9.lattice_4x4)) 2 2)
     = zero_density <->
   marked_solid D2Q9.lattice_4x4 2 2 = true) /\
  rows (lattice stale_without_mask) = 2 /\
  rows (lattice (@Init D2Q9.methods stale_without_mask)) = 0 /\
  cols (lattice (@Init D2Q9.methods stale_without_mask)) = 0 /\
  results (@Init D2Q9.methods stale_without_mask) = Matrix_Zero 0 0.
Proof.
  assert (Hi : 0 <= 2 < rows (latticeObstacles D2Q9.lattice_4x4))
    by (cbn; lia).
  assert (Hj : 0 <= 2 < cols (latticeObstacles D2Q9.lattice_4x4))
    by (cbn; lia).
  assert (Hnz : density (@Cell_Init D2Q9.methods (@Cell_default D2Q9.methods))
                <> zero_density).
  { intros Heq.
    apply (f_equal (forallb (fun x => PrimFloat.eqb x 0%float))) in Heq.
    vm_compute in Heq. discriminate. }
  destruct (@Init_postcondition D2Q9.methods D2Q9.lattice_4x4)
    as (_ & Hrows & _ & Hcells).
  destruct (Hcells 2 2 Hi Hj) as (Hz & _ & Hiff).
  destruct (@Init_postcondition D2Q9.methods stale_without_mask)
    as (Hres0 & Hrows0 & Hcols0 & _).
  split; [split; assumption |].
  split; [assumption |].
  split; [exact Hrows |].
  split; [apply Hz; reflexivity |].
  split; [apply Hiff; assumption |].
  split; [reflexivity |].
  split; [exact Hrows0 |]. split; [exact Hcols0 | exact Hres0].
Defined.

(** ** [Simulate] begins with [Init] *)

Section SimulateEntry.
Context `{CellMethods} `{KernelMethods}.

(** [Init] reads the configuration and the obstacle mask only. *)
Lemma Init_discards (L : Lattice) (m : Matrix Cell) (r : Matrix float) :
  Init (with_lattice m (with_results r L)) = Init L.
Proof. destruct L. reflexivity. Qed.

Lemma Init_idempotent (L : Lattice) : Init (Init L) = Init L.
Proof. destruct L. reflexivity. Qed.

(** C10.  [Simulate()] calls [Init()] first, whatever the state of the
    object: the state in which the workers are spawned carries the lattice
    [Init] rebuilds from the obstacle mask and the zeroed results matrix, and
    the work grid has the extents of that lattice; the lattice and the
    results left by a previous run do not influence it; and calling [Init()]
    before [Simulate()] changes nothing. *)
Theorem Simulate_starts_with_Init (L : Lattice) :
  match Simulate_start L with
  | Some s =>
      lattice (this s) = lattice (Init L) /\
      results (this s) =
        Matrix_Zero (rows (latticeObstacles L)) (cols (latticeObstacles L)) /\
      latticeWork s =
        Matrix_new (rows (lattice (Init L))) (cols (lattice (Init L)))
          Cell_default /\
      step s = 0 /\ ctl s = CWakeUp
  | None => numThreads L = 0
  end /\
  (forall (m : Matrix Cell) (r : Matrix float),
     Simulate_start (with_lattice m (with_results r L)) = Simulate_start L) /\
  Simulate_start (Init L) = Simulate_start L.
Proof.
  split; [| split].
  - unfold Simulate_start, Simulate_setup.
    cbn [numThreads with_wakeup with_processed].
    replace (numThreads (Init L)) with (numThreads L) by (destruct L; reflexivity).
    destruct (numThreads L =? 0) eqn:E; [lia |].
    cbn. repeat split; destruct L; reflexivity.
  - intros m r. unfold Simulate_start, Simulate_setup.
    rewrite Init_discards. reflexivity.
  - unfold Simulate_start, Simulate_setup. rewrite Init_idempotent. reflexivity.
Qed.

End SimulateEntry.

(** ** Work partitioning *)

Lemma to_int_small (z : Z) : - 2 ^ 31 <= z <= INT_MAX -> to_int z = z.
Proof.
  unfold to_int, INT_MAX, UINT_MOD. intros Hz.
  rewrite Z.mod_small by lia. lia.
Qed.

Lemma to_uint_small (z : Z) : 0 <= z < UINT_MOD -> to_uint z = z.
Proof. unfold to_uint. intros Hz. apply Z.mod_small. exact Hz. Qed.

Lemma vector_at_lookup {A} (v : list A) (i : Z) :
  0 <= i -> vector_at v i = v !! Z.to_nat i.
Proof. unfold vector_at. intros Hi. destruct (0 <=? i) eqn:E; [reflexivity | lia]. Qed.

Lemma vector_at_set_eq {A} (v : list A) (i : Z) (x : A) :
  0 <= i < Z.of_nat (length v) -> vector_at (vector_set v i x) i = Some x.
Proof.
  intros Hi. rewrite vector_at_lookup by lia. unfold vector_set.
  apply list_lookup_insert_eq. lia.
Qed.

Lemma vector_at_set_ne {A} (v : list A) (i k : Z) (x : A) :
  0 <= i -> 0 <= k -> i <> k ->
  vector_at (vector_set v i x) k = vector_at v k.
Proof.
  intros Hi Hk Hne. rewrite !vector_at_lookup by lia. unfold vector_set.
  apply list_lookup_insert_ne. lia.
Qed.

Lemma length_vector_set {A} (v : list A) (i : Z) (x : A) :
  length (vector_set v i x) = length v.
Proof. apply length_insert. Qed.

(** The stride of line 134 and the closed form of the ranges. *)
Definition stride (C N : Z) : Z := C / N.

Definition range_start (C N t : Z) : Z := t * stride C N.

Definition range_end (C N t : Z) : Z :=
  if t =? N - 1 then C else (t + 1) * stride C N.

Lemma stride_bounds (C N : Z) :
  0 <= C -> 1 <= N -> 0 <= stride C N /\ N * stride C N <= C.
Proof.
  intros HC HN. unfold stride. split.
  - apply Z.div_pos; lia.
  - apply Z.mul_div_le. lia.
Qed.

Lemma range_start_bounds (C N t : Z) :
  0 <= C -> 1 <= N -> 0 <= t <= N -> 0 <= range_start C N t <= C.
Proof.
  intros HC HN Ht. unfold range_start.
  destruct (stride_bounds C N HC HN) as [H0 H1]. nia.
Qed.

Section Partition.
Variable L : Lattice.
Let C := cols (lattice L).
Let N := numThreads L.
Hypothesis HC : 0 <= C <= INT_MAX.
Hypothesis HN : 1 <= N <= INT_MAX.

Lemma workStride_eq : to_int (Z.quot C N) = stride C N.
Proof.
  rewrite Z.quot_div_nonneg by lia.
  destruct (stride_bounds C N) as [H0 H1]; [lia | lia |].
  apply to_int_small. fold (stride C N). unfold INT_MAX in *. nia.
Qed.

Lemma last_thread_eq : to_int (to_uint (N - 1)) = N - 1.
Proof.
  unfold INT_MAX in *.
  rewrite to_uint_small by (unfold UINT_MOD; lia).
  apply to_int_small. unfold INT_MAX. lia.
Qed.

(** The worker that the loop of lines 135-140 stores in [theThreads[t]]. *)
Definition spawned (t : Z) : Worker :=
  CollideAndStream_entry L t (range_start C N t) (range_end C N t).

Lemma spawn_threads_spec :
  length (spawn_threads L) = Z.to_nat N /\
  forall t, 0 <= t < N -> vector_at (spawn_threads L) t = Some (spawned t).
Proof.
  unfold spawn_threads. fold C N.
  rewrite workStride_eq, last_thread_eq.
  rewrite (to_int_small N) by (unfold INT_MAX in *; lia).
  pose (P := fun (t : Z) (st : list Worker * Z) =>
    length (fst st) = Z.to_nat N /\ snd st = range_start C N t /\
    forall k, 0 <= k < t -> vector_at (fst st) k = Some (spawned k)).
  match goal with
  | |- length (fst ?loop) = _ /\ _ => assert (Hinv : P N loop)
  end.
  { apply (for_range_ind P); [lia | |]; unfold P.
    - cbn [fst snd]. rewrite length_replicate. unfold range_start.
      split; [reflexivity | split; [lia |]]. intros k Hk. lia.
    - intros t [threads strideStart] Ht (Hlen & Hstart & Hdone).
      cbn [fst snd] in *. subst strideStart.
      assert (Hend : to_int (range_start C N t + stride C N)
                     = range_start C N (t + 1)).
      { replace (range_start C N t + stride C N) with (range_start C N (t + 1))
          by (unfold range_start; lia).
        apply to_int_small.
        pose proof (range_start_bounds C N (t + 1)). unfold INT_MAX in *. lia. }
      rewrite Hend. rewrite (to_int_small C) by (unfold INT_MAX in *; lia).
      split; [| split; [reflexivity |]].
      + rewrite length_vector_set. exact Hlen.
      + intros k Hk. destruct (Z.eq_dec k t) as [-> | Hne].
        * rewrite vector_at_set_eq by lia. unfold spawned, range_end.
          unfold range_start at 2. reflexivity.
        * rewrite vector_at_set_ne by lia. apply Hdone. lia. }
  destruct Hinv as (Hlen & _ & Hdone). split; assumption.
Qed.

End Partition.

Lemma assigned_range_spawn (L : Lattice) (t : Z) :
  0 <= cols (lattice L) <= INT_MAX ->
  1 <= numThreads L <= INT_MAX ->
  0 <= t < numThreads L ->
  assigned_range (spawn_threads L) t =
    Some (range_start (cols (lattice L)) (numThreads L) t,
          range_end (cols (lattice L)) (numThreads L) t).
Proof.
  intros HC HN Ht. unfold assigned_range.
  destruct (spawn_threads_spec L HC HN) as [_ Hth].
  rewrite (Hth t Ht). reflexivity.
Qed.

Lemma range_end_bounds (C N t : Z) :
  0 <= C -> 1 <= N -> 0 <= t < N ->
  range_start C N t <= range_end C N t <= C.
Proof.
  intros HC HN Ht. unfold range_end.
  pose proof (range_start_bounds C N t HC HN ltac:(lia)) as Hs.
  pose proof (range_start_bounds C N (t + 1) HC HN ltac:(lia)) as Hs1.
  destruct (stride_bounds C N HC HN) as [H0 H1].
  unfold range_start in *.
  destruct (t =? N - 1) eqn:E; nia.
Qed.

Lemma range_end_next (C N t : Z) :
  0 <= t < N - 1 -> range_end C N t = range_start C N (t + 1).
Proof.
  intros Ht. unfold range_end, range_start.
  destruct (t =? N - 1) eqn:E; lia.
Qed.

Lemma range_start_mono (C N t1 t2 : Z) :
  0 <= C -> 1 <= N -> 0 <= t1 <= t2 ->
  range_start C N t1 <= range_start C N t2.
Proof.
  intros HC HN Ht. unfold range_start.
  destruct (stride_bounds C N HC HN) as [H0 _]. nia.
Qed.

(** Every column belongs to the range of some worker. *)
Lemma range_cover (C N x : Z) :
  0 <= C -> 1 <= N -> 0 <= x < C ->
  exists t, 0 <= t < N /\ range_start C N t <= x < range_end C N t.
Proof.
  intros HC HN Hx.
  destruct (stride_bounds C N HC HN) as [H0 H1].
  destruct (Z_lt_le_dec x (range_start C N (N - 1))) as [Hlt | Hge].
  - (* x lies before the last range: the stride is positive *)
    assert (Hpos : 0 < stride C N) by (unfold range_start in Hlt; nia).
    exists (x / stride C N).
    pose proof (Z.mul_div_le x (stride C N) Hpos) as Hlo.
    pose proof (Z.mul_succ_div_gt x (stride C N) Hpos) as Hhi.
    assert (Hq : 0 <= x / stride C N) by (apply Z.div_pos; lia).
    assert (Hqlt : x / stride C N < N - 1).
    { unfold range_start in Hlt. nia. }
    unfold range_start, range_end.
    destruct (x / stride C N =? N - 1) eqn:E; [lia |].
    repeat split; nia.
  - exists (N - 1). unfold range_end.
    destruct (N - 1 =? N - 1) eqn:E; lia.
Qed.

(** C3.  With [C = lattice.cols()] and [N = numThreads], the spawning loop
    of [Simulate()] hands worker [t < N-1] the columns
    [[t * floor(C/N), (t+1) * floor(C/N))] and worker [N-1] the columns
    [[(N-1) * floor(C/N), C)]; for every [N >= 1] and [C >= 0] (both within
    [int]) the ranges are contiguous, pairwise disjoint, and their union is
    [[0, C)]. *)
Theorem work_partitioning (L : Lattice) :
  let C := cols (lattice L) in
  let N := numThreads L in
  let range := assigned_range (spawn_threads L) in
  0 <= C <= INT_MAX ->
  1 <= N <= INT_MAX ->
  length (spawn_threads L) = Z.to_nat N /\
  (forall t, 0 <= t < N - 1 ->
     range t = Some (t * (C / N), (t + 1) * (C / N))) /\
  range (N - 1) = Some ((N - 1) * (C / N), C) /\
  (exists b, range 0 = Some (0, b)) /\
  (forall t, 0 <= t < N - 1 ->
     exists a b c, range t = Some (a, b) /\ range (t + 1) = Some (b, c)) /\
  (forall t a b, 0 <= t < N -> range t = Some (a, b) -> 0 <= a <= b /\ b <= C) /\
  (forall t1 t2 a1 b1 a2 b2 x,
     0 <= t1 < t2 -> t2 < N ->
     range t1 = Some (a1, b1) -> range t2 = Some (a2, b2) ->
     ~ (a1 <= x < b1 /\ a2 <= x < b2)) /\
  (forall x, 0 <= x < C <->
     exists t a b, 0 <= t < N /\ range t = Some (a, b) /\ a <= x < b).
Proof.
  intros C N range HC HN.
  assert (Hrange : forall t, 0 <= t < N ->
            range t = Some (range_start C N t, range_end C N t)).
  { intros t Ht. apply assigned_range_spawn; assumption. }
  split; [apply (spawn_threads_spec L HC HN) |].
  split.
  { intros t Ht. rewrite Hrange by lia. unfold range_start, range_end, stride.
    destruct (t =? N - 1) eqn:E; [lia | reflexivity]. }
  split.
  { rewrite Hrange by lia. unfold range_start, range_end, stride.
    rewrite Z.eqb_refl. reflexivity. }
  split.
  { exists (range_end C N 0). rewrite Hrange by lia.
    unfold range_start. rewrite Z.mul_0_l. reflexivity. }
  split.
  { intros t Ht. exists (range_start C N t), (range_end C N t),
      (range_end C N (t + 1)).
    rewrite !Hrange by lia. rewrite (range_end_next C N t Ht).
    split; reflexivity. }
  split.
  { intros t a b Ht Hab. rewrite Hrange in Hab by lia.
    injection Hab as <- <-.
    pose proof (range_start_bounds C N t ltac:(lia) ltac:(lia) ltac:(lia)).
    pose proof (range_end_bounds C N t ltac:(lia) ltac:(lia) ltac:(lia)).
    lia. }
  split.
  { intros t1 t2 a1 b1 a2 b2 x Ht1 Ht2 H1 H2 [Hx1 Hx2].
    rewrite Hrange in H1, H2 by lia.
    injection H1 as <- <-. injection H2 as <- <-.
    rewrite (range_end_next C N t1) in Hx1 by lia.
    pose proof (range_start_mono C N (t1 + 1) t2 ltac:(lia) ltac:(lia) ltac:(lia)).
    lia. }
  intros x. split.
  - intros Hx. destruct (range_cover C N x) as (t & Ht & Hin); [lia | lia | lia |].
    exists t, (range_start C N t), (range_end C N t).
    rewrite Hrange by lia. repeat split; lia.
  - intros (t & a & b & Ht & Hab & Hx). rewrite Hrange in Hab by lia.
    injection Hab as <- <-.
    pose proof (range_start_bounds C N t ltac:(lia) ltac:(lia) ltac:(lia)).
    pose proof (range_end_bounds C N t ltac:(lia) ltac:(lia) ltac:(lia)).
    lia.
Qed.

(** [work_partitioning] for 10 columns and 3 threads: the ranges are
    [[0,3)], [[3,6)] and [[6,10)]. *)
Lemma work_partitioning_witness :
  (0 <= cols (lattice D2Q9.lattice_4x10) <= INT_MAX /\
   1 <= numThreads D2Q9.lattice_4x10 <= INT_MAX) /\
  assigned_range (spawn_threads D2Q9.lattice_4x10) 0 = Some (0, 3) /\
  assigned_range (spawn_threads D2Q9.lattice_4x10) 1 = Some (3, 6) /\
  assigned_range (spawn_threads D2Q9.lattice_4x10) 2 = Some (6, 10) /\
  (forall x, 0 <= x < 10 <->
     exists t a b, 0 <= t < 3 /\
       assigned_range (spawn_threads D2Q9.lattice_4x10) t = Some (a, b) /\
       a <= x < b).
Proof.
  assert (HC : 0 <= cols (lattice D2Q9.lattice_4x10) <= INT_MAX)
    by (cbn; unfold INT_MAX; lia).
  assert (HN : 1 <= numThreads D2Q9.lattice_4x10 <= INT_MAX)
    by (cbn; unfold INT_MAX; lia).
  destruct (work_partitioning D2Q9.lattice_4x10 HC HN)
    as (_ & Hmid & Hlast & _ & _ & _ & _ & Hcover).
  split; [split; assumption |].
  split; [exact (Hmid 0 ltac:(cbn; lia)) |].
  split; [exact (Hmid 1 ltac:(cbn; lia)) |].
  split; [exact Hlast | exact Hcover].
Defined.

(** ** The state in which the workers are spawned *)

(** A loop that stores [b] at every index of a vector. *)
Lemma fill_vector (n : Z) (b : bool) (w0 : list bool) :
  0 <= n -> length w0 = Z.to_nat n ->
  for_range 0 n (fun i w => vector_set w i b) w0 = replicate (Z.to_nat n) b.
Proof.
  intros Hn Hlen0.
  pose (P := fun (i : Z) (w : list bool) =>
    length w = Z.to_nat n /\
    forall k, 0 <= k < i -> vector_at w k = Some b).
  assert (Hinv : P n (for_range 0 n (fun i w => vector_set w i b) w0)).
  { apply (for_range_ind P); [lia | |]; unfold P.
    - split; [exact Hlen0 | intros k Hk; lia].
    - intros i w Hi [Hlen Hdone]. split.
      + rewrite length_vector_set. exact Hlen.
      + intros k Hk. destruct (Z.eq_dec k i) as [-> | Hne].
        * apply vector_at_set_eq. lia.
        * rewrite vector_at_set_ne by lia. apply Hdone. lia. }
  destruct Hinv as [Hlen Hall].
  apply list_eq. intros k.
  destruct (decide (k < Z.to_nat n)%nat) as [Hk | Hk].
  - rewrite lookup_replicate_2 by exact Hk.
    specialize (Hall (Z.of_nat k) ltac:(lia)).
    rewrite vector_at_lookup, Nat2Z.id in Hall by lia. exact Hall.
  - rewrite !lookup_ge_None_2; [reflexivity | rewrite length_replicate; lia | lia].
Qed.

(** Lines 131-132 leave [numThreads] wake flags, all false. *)
Lemma wakeup_reset (n : Z) (w0 : list bool) :
  0 <= n ->
  for_range 0 n (fun i w => vector_set w i false)
    (resize (Z.to_nat n) false w0) = replicate (Z.to_nat n) false.
Proof. intros Hn. apply fill_vector; [exact Hn | apply length_resize]. Qed.

Section SetupProperties.
Context `{CellMethods}.

Lemma Simulate_setup_config (L : Lattice) :
  let L4 := fst (Simulate_setup L) in
  numThreads L4 = numThreads L /\ simulate L4 = simulate L /\
  refreshSteps L4 = refreshSteps L /\
  boundaryConditions L4 = boundaryConditions L /\
  lattice L4 = lattice (Init L) /\ processed L4 = 0.
Proof. destruct L. cbn. repeat split. Qed.

Lemma Simulate_setup_wakeup (L : Lattice) :
  0 <= numThreads L ->
  wakeup (fst (Simulate_setup L)) = replicate (Z.to_nat (numThreads L)) false.
Proof.
  intros HN. unfold Simulate_setup. cbn [fst wakeup with_wakeup].
  replace (numThreads (with_wakeup _ _)) with (numThreads L)
    by (destruct L; reflexivity).
  replace (numThreads (with_processed 0 (Init L))) with (numThreads L)
    by (destruct L; reflexivity).
  apply wakeup_reset. exact HN.
Qed.

Lemma Simulate_start_eq (L : Lattice) :
  numThreads L <> 0 ->
  Simulate_start L =
    Some (mkSystem (fst (Simulate_setup L)) (snd (Simulate_setup L))
            (spawn_threads (fst (Simulate_setup L))) 0 CWakeUp).
Proof.
  intros HN. unfold Simulate_start.
  destruct (Simulate_setup L) as [L4 work] eqn:E. cbn [fst snd].
  pose proof (Simulate_setup_config L) as Hcfg. rewrite E in Hcfg.
  cbn [fst] in Hcfg. destruct Hcfg as (HNeq & _).
  rewrite HNeq. destruct (numThreads L =? 0) eqn:E0; [lia | reflexivity].
Qed.

End SetupProperties.

(** ** No configuration check *)

Lemma filter_joinable_all (l : list Worker) :
  (forall k w, l !! k = Some w -> joinable w = true) ->
  List.filter joinable l = l.
Proof.
  induction l as [|w l IH]; intros Hall; [reflexivity |].
  cbn. rewrite (Hall 0%nat w eq_refl). f_equal.
  apply IH. intros k w' Hk. apply (Hall (S k) w'). exact Hk.
Qed.

Section Unchecked.
Context `{CellMethods}.

(** C5, as the code has it.  [Simulate()] validates nothing: for every
    thread count [1 <= N] and every obstacle mask with [C >= 0] columns (an
    empty mask and a mask with fewer columns than threads included) it
    spawns exactly [N] workers on the stride ranges and reports no error;
    when [N > C] the stride is 0, workers [0..N-2] get the empty range
    [[0,0)] and worker [N-1] gets [[0,C)]. *)
Theorem Simulate_spawns_unchecked (L : Lattice) :
  let C := cols (latticeObstacles L) in
  let N := numThreads L in
  0 <= rows (latticeObstacles L) ->
  0 <= C <= INT_MAX ->
  1 <= N <= INT_MAX ->
  exists s,
    Simulate_start L = Some s /\
    length (List.filter joinable (theThreads s)) = Z.to_nat N /\
    (forall t, 0 <= t < N ->
       assigned_range (theThreads s) t =
         Some (range_start C N t, range_end C N t)) /\
    (C < N ->
       (forall t, 0 <= t < N - 1 ->
          assigned_range (theThreads s) t = Some (0, 0)) /\
       assigned_range (theThreads s) (N - 1) = Some (0, C)).
Proof.
  intros C N Hrows HC HN.
  eexists. split; [apply Simulate_start_eq; fold N; lia |].
  cbn [theThreads].
  set (L4 := fst (Simulate_setup L)).
  destruct (Simulate_setup_config L) as (HN4 & _ & _ & _ & Hlat & _).
  fold L4 in HN4, Hlat.
  destruct (Init_lattice L Hrows ltac:(fold C; lia)) as (_ & Hcols & _).
  assert (HC4 : cols (lattice L4) = C) by (rewrite Hlat; exact Hcols).
  assert (HC4' : 0 <= cols (lattice L4) <= INT_MAX) by (rewrite HC4; exact HC).
  assert (HN4' : 1 <= numThreads L4 <= INT_MAX) by (rewrite HN4; exact HN).
  destruct (spawn_threads_spec L4 HC4' HN4') as [Hlen Hth].
  assert (Hrange : forall t, 0 <= t < N ->
            assigned_range (spawn_threads L4) t =
              Some (range_start C N t, range_end C N t)).
  { intros t Ht. rewrite assigned_range_spawn by (rewrite ?HN4; assumption).
    rewrite HC4, HN4. reflexivity. }
  split; [| split; [exact Hrange |]].
  - rewrite filter_joinable_all; [rewrite Hlen, HN4; reflexivity |].
    intros k w Hk.
    assert (Hkn : (k < length (spawn_threads L4))%nat)
      by (apply lookup_lt_is_Some; eauto).
    specialize (Hth (Z.of_nat k) ltac:(lia)).
    rewrite vector_at_lookup, Nat2Z.id, Hk in Hth by lia.
    injection Hth as ->. reflexivity.
  - intros Hlt.
    assert (Hs : stride C N = 0) by (apply Z.div_small; lia).
    split.
    + intros t Ht. rewrite Hrange by lia. unfold range_start, range_end.
      rewrite Hs. destruct (t =? N - 1) eqn:E; [lia |].
      rewrite !Z.mul_0_r. reflexivity.
    + rewrite Hrange by lia. unfold range_start, range_end.
      rewrite Hs, Z.eqb_refl, Z.mul_0_r. reflexivity.
Qed.

End Unchecked.

(** C5, as the specification states it, fails: with 5 threads on a domain
    of 3 columns, a configuration error in the specification's sense,
    [Simulate()] reports nothing and starts 5 worker threads. *)
Lemma configuration_error_undetected :
  configuration_error D2Q9.config_5_threads_3_cols = true /\
  exists s,
    @Simulate_start D2Q9.methods D2Q9.config_5_threads_3_cols = Some s /\
    length (List.filter joinable (theThreads s)) = 5%nat /\
    assigned_range (theThreads s) 0 = Some (0, 0) /\
    assigned_range (theThreads s) 4 = Some (0, 3).
Proof.
  split; [reflexivity |].
  eexists. split; [apply Simulate_start_eq; cbn; lia |].
  cbn [theThreads]. repeat split; vm_compute; reflexivity.
Qed.

(** [Simulate_spawns_unchecked] on the same configuration. *)
Lemma Simulate_spawns_unchecked_witness :
  (0 <= rows (latticeObstacles D2Q9.config_5_threads_3_cols) /\
   0 <= cols (latticeObstacles D2Q9.config_5_threads_3_cols) <= INT_MAX /\
   1 <= numThreads D2Q9.config_5_threads_3_cols <= INT_MAX) /\
  exists s,
    @Simulate_start D2Q9.methods D2Q9.config_5_threads_3_cols = Some s /\
    length (List.filter joinable (theThreads s)) = 5%nat /\
    assigned_range (theThreads s) 4 = Some (0, 3).
Proof.
  assert (Hr : 0 <= rows (latticeObstacles D2Q9.config_5_threads_3_cols))
    by (cbn; lia).
  assert (HC : 0 <= cols (latticeObstacles D2Q9.config_5_threads_3_cols)
               <= INT_MAX) by (cbn; unfold INT_MAX; lia).
  assert (HN : 1 <= numThreads D2Q9.config_5_threads_3_cols <= INT_MAX)
    by (cbn; unfold INT_MAX; lia).
  split; [split; [exact Hr | split; [exact HC | exact HN]] |].
  destruct (@Simulate_spawns_unchecked D2Q9.methods
              D2Q9.config_5_threads_3_cols Hr HC HN)
    as (s & Hs & Hlen & _ & Hfew).
  exists s. split; [exact Hs |]. split; [exact Hlen |].
  apply Hfew. cbn. lia.
Defined.

(** ** The kernel calls of a pass *)

Lemma foldl_ext_eq {A B} (f g : A -> B -> A) (a : A) (l : list B) :
  (forall x y, f x y = g x y) -> foldl f a l = foldl g a l.
Proof.
  intros Hfg. revert a. induction l as [|b l IH]; intros a; [reflexivity |].
  cbn. rewrite Hfg. apply IH.
Qed.

Lemma foldl_append {A B} (f : B -> list A) (init : list A) (l : list B) :
  foldl (fun acc i => acc ++ f i) init l = init ++ concat (map f l).
Proof.
  revert init. induction l as [|b l IH]; intros init; cbn.
  - rewrite app_nil_r. reflexivity.
  - rewrite IH, <- app_assoc. reflexivity.
Qed.

(** A loop that only appends to a trace. *)
Lemma for_range_append {A} (lo hi : Z) (f : Z -> list A) (init : list A) :
  for_range lo hi (fun i acc => acc ++ f i) init =
  init ++ concat (map f (seqZ lo (hi - lo))).
Proof. unfold for_range. apply foldl_append. Qed.

Section Pass.
Variables (L : Lattice) (w : Worker).

Let ShouldCollide := w_ShouldCollideAtUpDownBoundary w.
Let RowsMinusOne := to_int (w_LatticeRows w - 1).
Let ColsMinusOne := to_int (w_LatticeCols w - 1).

(** The call of line 108, 111 or 113 for cell [(x, y)]. *)
Definition cell_call (x y : Z) (flag : bool) : Call :=
  CollideAndStreamCell x y flag
    (useAccelX L || ((0 <? x) && (x <? ColsMinusOne))) (useAccelX L)
    RowsMinusOne (w_LatticeRows w) ColsMinusOne (w_LatticeCols w)
    (w_accelXtau w) (tau L).

(** The calls for column [x]: row 0, the interior rows, the last row. *)
Definition column_calls (x : Z) : list Call :=
  cell_call x 0 ShouldCollide
  :: ((fun y => cell_call x y true) <$> seqZ 1 (RowsMinusOne - 1))
  ++ [cell_call x RowsMinusOne ShouldCollide].

Lemma pass_calls_eq :
  pass_calls L w =
  concat (map column_calls (seqZ (w_startCol w) (w_endCol w - w_startCol w)))
  ++ [DealWithInletOutlet (w_startCol w) (w_endCol w) (w_LatticeRows w)
        (w_LatticeCols w) RowsMinusOne ColsMinusOne].
Proof.
  unfold pass_calls. f_equal.
  unfold for_range at 1.
  rewrite (foldl_ext_eq _ (fun acc x => acc ++ column_calls x)).
  - apply (foldl_append column_calls []).
  - intros calls x.
    rewrite (for_range_append 1 _ (fun y => [cell_call x y true])).
    unfold column_calls. rewrite <- !app_assoc. cbn [app]. f_equal. f_equal.
    fold RowsMinusOne. f_equal.
    induction (seqZ 1 (RowsMinusOne - 1)) as [|y l IH]; [reflexivity |].
    cbn. f_equal. exact IH.
Qed.

Lemma cell_flag_column (x0 x y : Z) (flag : bool) :
  (x, y, flag) ∈ omap cell_flag (column_calls x0) <->
  x = x0 /\
  (((y = 0 \/ y = RowsMinusOne) /\ flag = ShouldCollide) \/
   (1 <= y < RowsMinusOne /\ flag = true)).
Proof.
  rewrite list_elem_of_omap. split.
  - intros (c & Hc & Hflag). unfold column_calls in Hc.
    rewrite elem_of_cons, elem_of_app, list_elem_of_fmap,
      list_elem_of_singleton in Hc.
    destruct Hc as [-> | [(y' & -> & Hy') | ->]];
      cbn in Hflag; injection Hflag as <- <- <-.
    + split; [reflexivity | left; split; [left |]; reflexivity].
    + apply elem_of_seqZ in Hy'.
      split; [reflexivity | right; split; [lia | reflexivity]].
    + split; [reflexivity | left; split; [right |]; reflexivity].
  - intros (-> & [[[-> | ->] ->] | [Hy ->]]).
    + exists (cell_call x0 0 ShouldCollide). split; [| reflexivity].
      unfold column_calls. apply elem_of_cons. left. reflexivity.
    + exists (cell_call x0 RowsMinusOne ShouldCollide). split; [| reflexivity].
      unfold column_calls. rewrite elem_of_cons, elem_of_app,
        list_elem_of_singleton. right. right. reflexivity.
    + exists (cell_call x0 y true). split; [| reflexivity].
      unfold column_calls. rewrite elem_of_cons, elem_of_app, list_elem_of_fmap.
      right. left. exists y. split; [reflexivity |].
      apply elem_of_seqZ. lia.
Qed.

Lemma omap_concat_map {A B D} (f : B -> option D) (g : A -> list B)
    (l : list A) (d : D) :
  d ∈ omap f (concat (map g l)) <-> exists a, a ∈ l /\ d ∈ omap f (g a).
Proof.
  induction l as [|a l IH]; cbn [map concat].
  - cbn. rewrite elem_of_nil. split; [tauto |].
    intros (a & Ha & _). apply elem_of_nil in Ha. exact Ha.
  - rewrite omap_app, elem_of_app, IH. split.
    + intros [Hd | (a' & Ha' & Hd)].
      * exists a. split; [apply elem_of_cons; left; reflexivity | exact Hd].
      * exists a'. split; [apply elem_of_cons; right; exact Ha' | exact Hd].
    + intros (a' & Ha' & Hd). apply elem_of_cons in Ha'.
      destruct Ha' as [-> | Ha']; [left; exact Hd | right; eauto].
Qed.

Lemma cell_flag_pass (x y : Z) (flag : bool) :
  (x, y, flag) ∈ omap cell_flag (pass_calls L w) <->
  w_startCol w <= x < w_endCol w /\
  (((y = 0 \/ y = RowsMinusOne) /\ flag = ShouldCollide) \/
   (1 <= y < RowsMinusOne /\ flag = true)).
Proof.
  rewrite pass_calls_eq, omap_app. cbn [omap list_omap cell_flag].
  rewrite app_nil_r, omap_concat_map. split.
  - intros (x0 & Hx0 & Hin). apply elem_of_seqZ in Hx0.
    apply cell_flag_column in Hin. destruct Hin as [-> Hrow].
    split; [lia | exact Hrow].
  - intros [Hx Hrow]. exists x. split; [apply elem_of_seqZ; lia |].
    apply cell_flag_column. split; [reflexivity | exact Hrow].
Qed.

End Pass.

Lemma BoundaryConditions_eqb_sym (a b : BoundaryConditions) :
  BoundaryConditions_eqb a b = BoundaryConditions_eqb b a.
Proof. destruct a, b; reflexivity. Qed.

(** C7.  In the pass of a worker entered with [CollideAndStream(tid, _,
    startCol, endCol)], [CollideAndStreamCell] is called for column [x], row
    [y] and up/down-boundary collide flag [flag] exactly when [x] is one of
    the worker's columns and either [y] is row 0 or row [rows - 1] and
    [flag] is [boundaryConditions == Periodic], or [y] is an interior row
    [1 <= y <= rows - 2] and [flag] is true. *)
Theorem edge_row_dispatch (L L' : Lattice) (tid startCol endCol x y : Z)
    (flag : bool) :
  let w := CollideAndStream_entry L tid startCol endCol in
  let R := rows (lattice L) in
  0 <= R <= INT_MAX ->
  ((x, y, flag) ∈ omap cell_flag (pass_calls L' w) <->
   startCol <= x < endCol /\
   (((y = 0 \/ y = R - 1) /\
     flag = BoundaryConditions_eqb (boundaryConditions L) Periodic) \/
    (1 <= y <= R - 2 /\ flag = true))).
Proof.
  intros w R HR. rewrite cell_flag_pass.
  cbn [w CollideAndStream_entry w_startCol w_endCol w_LatticeRows
       w_ShouldCollideAtUpDownBoundary].
  fold R. rewrite (to_int_small R) by (unfold INT_MAX in *; lia).
  rewrite (to_int_small (R - 1)) by (unfold INT_MAX in *; lia).
  rewrite (BoundaryConditions_eqb_sym Periodic).
  split; intros [Hx Hrow]; (split; [exact Hx |]);
    destruct Hrow as [Hedge | [Hy Hflag]];
    [left; exact Hedge | right; split; [lia | exact Hflag]
    |left; exact Hedge | right; split; [lia | exact Hflag]].
Qed.

(** [edge_row_dispatch] on a lattice of 4 rows under [BounceBack], for a
    worker owning columns 3 to 5: rows 0 and 3 get the flag false, row 2 the
    flag true. *)
Lemma edge_row_dispatch_witness :
  0 <= rows (lattice D2Q9.lattice_4x10) <= INT_MAX /\
  (4, 0, false) ∈ omap cell_flag
     (pass_calls D2Q9.lattice_4x10
        (CollideAndStream_entry D2Q9.lattice_4x10 1 3 6)) /\
  (4, 3, false) ∈ omap cell_flag
     (pass_calls D2Q9.lattice_4x10
        (CollideAndStream_entry D2Q9.lattice_4x10 1 3 6)) /\
  (4, 2, true) ∈ omap cell_flag
     (pass_calls D2Q9.lattice_4x10
        (CollideAndStream_entry D2Q9.lattice_4x10 1 3 6)).
Proof.
  assert (HR : 0 <= rows (lattice D2Q9.lattice_4x10) <= INT_MAX)
    by (cbn; unfold INT_MAX; lia).
  split; [exact HR |].
  split; [| split].
  - apply (edge_row_dispatch D2Q9.lattice_4x10 D2Q9.lattice_4x10 1 3 6 4 0 false HR).
    cbn. split; [lia | left; split; [left |]; reflexivity].
  - apply (edge_row_dispatch D2Q9.lattice_4x10 D2Q9.lattice_4x10 1 3 6 4 3 false HR).
    cbn. split; [lia | left; split; [right |]; reflexivity].
  - apply (edge_row_dispatch D2Q9.lattice_4x10 D2Q9.lattice_4x10 1 3 6 4 2 true HR).
    cbn. split; [lia | right; split; [lia | reflexivity]].
Defined.

(** ** The controller's loop: swap, then extraction *)

(** Case analysis of a successful transition [H : _ = Some (e, s')]. *)
Ltac step_cases H :=
  repeat match type of H with
         | match ?x with _ => _ end = _ => destruct x eqn:?
         | (if ?b then _ else _) = _ => destruct b eqn:?
         | Some (if ?b then _ else _, _) = _ => destruct b eqn:?
         end;
  try discriminate H.

Section Controller.
Context `{CellMethods} `{KernelMethods}.

Lemma controller_step_event (s s' : System) (e : Event) :
  controller_step s = Some (e, s') -> controller_event e = true.
Proof.
  unfold controller_step. intros Hstep.
  step_cases Hstep; injection Hstep as <- <-; reflexivity.
Qed.

Lemma worker_step_event (t : nat) (s s' : System) (e : Event) :
  worker_step t s = Some (e, s') ->
  controller_event e = false /\ ctl s' = ctl s /\ step s' = step s.
Proof.
  unfold worker_step. intros Hstep.
  step_cases Hstep; injection Hstep as <- <-; repeat split.
Qed.

Lemma user_step_event (s s' : System) (e : Event) :
  user_step s = Some (e, s') ->
  controller_event e = false /\ ctl s' = ctl s /\ step s' = step s.
Proof.
  unfold user_step. intros Hstep.
  destruct (simulate (this s)); [| discriminate].
  injection Hstep as <- <-. repeat split.
Qed.

(** [GetResults] is called from line 153 only. *)
Lemma GetResults_at_CRefresh (s s' : System) :
  controller_step s = Some (CtlGetResults, s') ->
  ctl s = CRefresh /\ this s' = GetResults (this s).
Proof.
  unfold controller_step. intros Hstep.
  step_cases Hstep; injection Hstep as <-; split; reflexivity.
Qed.

(** Line 152 is reached from the swap of line 149 only. *)
Lemma CRefresh_after_swap (s s' : System) (e : Event) :
  controller_step s = Some (e, s') -> ctl s' = CRefresh ->
  e = CtlSwap /\ s' = set_ctl CRefresh (swap_grids s).
Proof.
  unfold controller_step. intros Hstep Hctl.
  step_cases Hstep; injection Hstep as <- <-;
    try discriminate Hctl; split; reflexivity.
Qed.

Lemma refresh_due_eq (L : Lattice) (k : Z) :
  0 < refreshSteps L < UINT_MOD ->
  refresh_due L k = Some ((2000 <? k) && (k mod refreshSteps L =? 0)).
Proof.
  intros Hr. unfold refresh_due. rewrite to_uint_small by lia.
  destruct (2000 <? k); [| reflexivity].
  destruct (refreshSteps L =? 0) eqn:E; [lia | reflexivity].
Qed.

(** In the controller's own sequence of events, a [GetResults] comes right
    after a swap. *)
Lemma GetResults_preceded_by_swap (sched : list Actor) :
  forall (s s' : System) (es pre post : list Event),
    run sched s = Some (es, s') ->
    List.filter controller_event es = pre ++ CtlGetResults :: post ->
    (pre = [] /\ ctl s = CRefresh) \/ (exists pre', pre = pre' ++ [CtlSwap]).
Proof.
  induction sched as [|a sched IH]; intros s s' es pre post Hrun Hes.
  - cbn in Hrun. injection Hrun as <- <-. cbn in Hes.
    destruct pre; discriminate.
  - cbn [run] in Hrun.
    destruct (act a s) as [[e s1] |] eqn:Hact; [| discriminate].
    destruct (run sched s1) as [[es1 s2] |] eqn:Hrun1; [| discriminate].
    injection Hrun as <- <-. cbn [List.filter] in Hes.
    destruct a as [| t |]; cbn [act] in Hact.
    + rewrite (controller_step_event _ _ _ Hact) in Hes.
      destruct pre as [|e0 pre1]; cbn in Hes.
      * injection Hes as -> _. left. split; [reflexivity |].
        apply (GetResults_at_CRefresh _ _ Hact).
      * injection Hes as <- Hes.
        destruct (IH _ _ _ _ _ Hrun1 Hes) as [[-> Hctl] | [pre' ->]].
        -- destruct (CRefresh_after_swap _ _ _ Hact Hctl) as [-> _].
           right. exists []. reflexivity.
        -- right. exists (e :: pre'). reflexivity.
    + destruct (worker_step_event _ _ _ _ Hact) as (He & Hctl & _).
      rewrite He in Hes. rewrite <- Hctl. eapply IH; eassumption.
    + destruct (user_step_event _ _ _ Hact) as (He & Hctl & _).
      rewrite He in Hes. rewrite <- Hctl. eapply IH; eassumption.
Qed.

(** C8.  In the step loop of [Simulate()], with [k] the value of [step]:
    the iteration that reaches line 152 calls [GetResults()] if and only if
    [k > 2000] and [k mod refreshSteps = 0]; while [k <= 2000] it never
    does, whatever [refreshSteps] is; a call of [GetResults()] is always
    made at line 153, on the lattice as the swap left it, and in the
    controller's sequence of actions it directly follows the swap of the
    same iteration. *)
Theorem extraction_cadence :
  (forall s : System,
     ctl s = CRefresh -> 0 < refreshSteps (this s) < UINT_MOD ->
     exists e s',
       controller_step s = Some (e, s') /\
       (e = CtlGetResults <->
        step s > 2000 /\ step s mod refreshSteps (this s) = 0) /\
       (e <> CtlGetResults -> e = CtlNoResults /\ this s' = this s) /\
       step s' = to_uint (step s + 1) /\ ctl s' = CWakeUp) /\
  (forall s : System,
     ctl s = CRefresh -> step s <= 2000 ->
     exists s', controller_step s = Some (CtlNoResults, s') /\
                this s' = this s) /\
  (forall (a : Actor) (s s' : System),
     act a s = Some (CtlGetResults, s') ->
     a = Controller /\ ctl s = CRefresh /\ this s' = GetResults (this s)) /\
  (forall (s0 s1 s2 : System) (e : Event),
     controller_step s0 = Some (e, s1) ->
     controller_step s1 = Some (CtlGetResults, s2) ->
     e = CtlSwap /\
     lattice (this s1) = latticeWork s0 /\
     this s2 = GetResults (with_lattice (latticeWork s0) (this s0))) /\
  (forall (sched : list Actor) (s s' : System) (es pre post : list Event),
     run sched s = Some (es, s') -> ctl s <> CRefresh ->
     List.filter controller_event es = pre ++ CtlGetResults :: post ->
     exists pre', pre = pre' ++ [CtlSwap]).
Proof.
  split; [| split; [| split; [| split]]].
  - intros s Hctl Hr. unfold controller_step. rewrite Hctl.
    rewrite (refresh_due_eq _ _ Hr).
    destruct ((2000 <? step s) && (step s mod refreshSteps (this s) =? 0)) eqn:E;
      eexists _, _; (split; [reflexivity |]); cbn [step ctl this].
    + repeat split; try lia; intros; congruence.
    + repeat split; try reflexivity; try lia; intros; congruence.
  - intros s Hctl Hk. unfold controller_step, refresh_due. rewrite Hctl.
    destruct (2000 <? step s) eqn:E; [lia |].
    eexists. split; reflexivity.
  - intros a s s' Hact. destruct a as [| t |]; cbn [act] in Hact.
    + destruct (GetResults_at_CRefresh _ _ Hact). repeat split; assumption.
    + destruct (worker_step_event _ _ _ _ Hact) as [He _]. discriminate He.
    + destruct (user_step_event _ _ _ Hact) as [He _]. discriminate He.
  - intros s0 s1 s2 e H01 H12.
    destruct (GetResults_at_CRefresh _ _ H12) as [Hctl ->].
    destruct (CRefresh_after_swap _ _ _ H01 Hctl) as [-> ->].
    repeat split.
  - intros sched s s' es pre post Hrun Hctl Hes.
    destruct (GetResults_preceded_by_swap _ _ _ _ _ _ Hrun Hes)
      as [[_ Hc] | Hpre]; [contradiction | exact Hpre].
Qed.

End Controller.

(** ** Vorticity extraction *)

Section Extraction.
Context `{CellMethods}.

Lemma GetResults_coeff (L : Lattice) (i j : Z) :
  0 <= i < rows (lattice L) -> 0 <= j < cols (lattice L) ->
  coeff (results (GetResults L)) i j =
  match resultsType L with
  | Density => coeff (GetResults_Density (lattice L) i j (results L)) i j
  | Speed => coeff (GetResults_Speed (lattice L) i j (results L)) i j
  | Vorticity =>
      coeff (GetResults_Vorticity (boundaryConditions L) (lattice L) i j
               (results L)) i j
  end.
Proof.
  intros Hi Hj. unfold GetResults. cbn [results with_results].
  set (body := match resultsType L with
               | Density => GetResults_Density (lattice L)
               | Speed => GetResults_Speed (lattice L)
               | Vorticity => GetResults_Vorticity (boundaryConditions L) (lattice L)
               end).
  destruct (fill_loop (rows (lattice L)) (cols (lattice L))
              (fun _ => rows (lattice L)) body
              (fun i j => coeff (body i j (results L)) i j) (results L))
    as (_ & _ & Hco); [lia | lia | reflexivity | |].
  - intros i' j' m _ _ _ _ _. unfold body.
    destruct (resultsType L); cbn; unfold set_coeff; cbn;
      rewrite !Z.eqb_refl; reflexivity.
  - rewrite Hco.
    destruct ((0 <=? i) && (i <? rows (lattice L)) && (0 <=? j)
              && (j <? cols (lattice L))) eqn:E; [| lia].
    unfold body. destruct (resultsType L); reflexivity.
Qed.

(** The value that [GetResults] writes under [Vorticity], as the code
    computes it: the difference of the vertical-velocity difference along
    the columns and the horizontal-velocity difference along the rows.  The
    row neighbour is row [i + 1], read from row 0 at the last row under both
    boundary conditions; the column neighbour is column [j - 1], which at
    column 0 wraps to the last column under [Periodic] and contributes a
    zero velocity under [BounceBack]. *)
Lemma GetResults_Vorticity_value (L : Lattice) (i j : Z) :
  resultsType L = Vorticity ->
  0 <= i < rows (lattice L) ->
  0 <= j < cols (lattice L) ->
  let lat := lattice L in
  let v := Cell_Velocity (coeff lat i j) in
  let vx := Cell_Velocity (coeff lat ((i + 1) mod rows lat) j) in
  let vy :=
    match boundaryConditions L with
    | Periodic => Cell_Velocity (coeff lat i ((j - 1) mod cols lat))
    | BounceBack =>
        if j =? 0 then (0, 0)%float else Cell_Velocity (coeff lat i (j - 1))
    end in
  coeff (results (GetResults L)) i j
    = ((snd vy - snd v) - (fst vx - fst v))%float.
Proof.
  intros Hrt Hi Hj lat v vx vy.
  rewrite GetResults_coeff by assumption. rewrite Hrt.
  unfold GetResults_Vorticity. rewrite coeff_set_coeff, !Z.eqb_refl.
  cbn [andb]. fold lat.
  assert (Hvx : Vorticity_vx lat i j = vx).
  { unfold Vorticity_vx, vx.
    destruct (i <? rows lat - 1) eqn:E.
    - rewrite Z.mod_small by lia. reflexivity.
    - replace (i + 1) with (rows lat) by (unfold lat in *; lia).
      rewrite Z.mod_same by (unfold lat in *; lia). reflexivity. }
  assert (Hvy : Vorticity_vy (boundaryConditions L) lat i j = vy).
  { unfold Vorticity_vy, vy.
    destruct (0 <? j) eqn:E.
    - destruct (boundaryConditions L).
      + destruct (j =? 0) eqn:E0; [lia | reflexivity].
      + rewrite Z.mod_small by (unfold lat in *; lia). reflexivity.
    - assert (j = 0) as -> by lia.
      destruct (boundaryConditions L); cbn [BoundaryConditions_eqb].
      + reflexivity.
      + replace (0 - 1) with (-1) by lia.
        replace ((-1) mod cols lat) with (cols lat - 1); [reflexivity |].
        apply (Z.mod_unique_pos _ _ (-1)); unfold lat in *; lia. }
  rewrite Hvx, Hvy. reflexivity.
Qed.


End Extraction.

(** The premise on row 0 cannot be dropped.  On an object that no [Init]
    builds, a lattice of 2 rows and 1 column under [BounceBack] whose cell
    (0,0) has velocity (1,0), [GetResults] writes -1 at cell (1,0), the row
    neighbour being read from row 0, whereas a zero velocity at the edge
    gives 0. *)
Lemma Vorticity_row_lookup_wraps_under_BounceBack :
  boundaryConditions D2Q9.lattice_2x1 = BounceBack /\
  resultsType D2Q9.lattice_2x1 = Vorticity /\
  coeff (results (@GetResults D2Q9.methods D2Q9.lattice_2x1)) 1 0
    = (-1)%float /\
  @Vorticity_spec D2Q9.methods BounceBack (lattice D2Q9.lattice_2x1) 1 0
    = 0%float /\
  PrimFloat.eqb (-1) 0 = false.
Proof. repeat split; vm_compute; reflexivity. Qed.



(** ** The barrier protocol: bookkeeping *)

Lemma WakeUp_wakeup (L : Lattice) :
  wakeup (WakeUp L) = replicate (length (wakeup L)) true.
Proof.
  unfold WakeUp. cbn [wakeup with_wakeup].
  rewrite fill_vector by lia. rewrite Nat2Z.id. reflexivity.
Qed.

(** How a worker stands with respect to the current wake-up, from its
    position and its wake flag. *)
Definition is_idle (pc : WorkerPc) (f : bool) : bool :=
  match pc, f with
  | WWaitForWork, false => true
  | _, _ => false
  end.

(** The worker has signalled for this wake-up. *)
Definition is_done (pc : WorkerPc) (f : bool) : bool :=
  match pc, f with
  | WWaitForWork, false | WFinished, false => true
  | _, _ => false
  end.

(** The worker has been woken and has not signalled yet. *)
Definition is_active (pc : WorkerPc) (f : bool) : bool :=
  match pc, f with
  | WWaitForWork, true | WTestSimulate, false | WPass, false
  | WSignal _, false => true
  | _, _ => false
  end.

(** The worker is on its way out after the final wake-up. *)
Definition is_leaving (pc : WorkerPc) (f : bool) : bool :=
  match pc, f with
  | WWaitForWork, true | WTestSimulate, false | WSignal true, false
  | WFinished, _ => true
  | _, _ => false
  end.

(** The worker has seen [simulate] false. *)
Definition has_seen_stop (pc : WorkerPc) : bool :=
  match pc with
  | WSignal true | WFinished => true
  | _ => false
  end.

(** The positions a worker can have for each position of the controller. *)
Definition allowed (c : ControllerPc) (pc : WorkerPc) (f : bool) : bool :=
  match c with
  | CWakeUp | CSwap | CRefresh => is_idle pc f
  | CWaitForData => is_done pc f || is_active pc f
  | CTestSimulate | CFinalWakeUp => is_done pc f
  | CJoin _ => is_leaving pc f
  | CReturned => match pc with WFinished => true | _ => false end
  end.

(** Number of workers that have signalled for this wake-up. *)
Fixpoint count_done (ws : list Worker) (fs : list bool) : Z :=
  match ws, fs with
  | w :: ws', f :: fs' =>
      (if is_done (w_pc w) f then 1 else 0) + count_done ws' fs'
  | _, _ => 0
  end.

Lemma count_done_update (ws : list Worker) (fs : list bool) (t : nat)
    (w w' : Worker) (f f' : bool) :
  ws !! t = Some w -> fs !! t = Some f ->
  count_done (<[t := w']> ws) (<[t := f']> fs) =
  count_done ws fs - (if is_done (w_pc w) f then 1 else 0)
  + (if is_done (w_pc w') f' then 1 else 0).
Proof.
  revert fs t. induction ws as [|w0 ws IH]; intros fs t Hw Hf; [discriminate |].
  destruct fs as [|f0 fs]; [discriminate |].
  destruct t as [|t]; simpl in *.
  - injection Hw as ->. injection Hf as ->. lia.
  - rewrite (IH fs t Hw Hf). lia.
Qed.

Lemma count_done_update_worker (ws : list Worker) (fs : list bool) (t : nat)
    (w w' : Worker) (f : bool) :
  ws !! t = Some w -> fs !! t = Some f ->
  count_done (<[t := w']> ws) fs =
  count_done ws fs - (if is_done (w_pc w) f then 1 else 0)
  + (if is_done (w_pc w') f then 1 else 0).
Proof.
  intros Hw Hf. rewrite <- (count_done_update ws fs t w w' f f Hw Hf).
  rewrite (list_insert_id fs t f Hf). reflexivity.
Qed.

Lemma count_done_all (ws : list Worker) (fs : list bool) :
  length fs = length ws ->
  (forall t w f, ws !! t = Some w -> fs !! t = Some f ->
     is_done (w_pc w) f = true) ->
  count_done ws fs = Z.of_nat (length ws).
Proof.
  revert fs. induction ws as [|w ws IH]; intros fs Hlen Hall; [reflexivity |].
  destruct fs as [|f fs]; [discriminate |].
  cbn [count_done length]. rewrite (Hall 0%nat w f eq_refl eq_refl).
  rewrite IH; [lia | cbn in Hlen; lia |].
  intros t w' f' Hw Hf. apply (Hall (S t) w' f'); assumption.
Qed.

Lemma count_done_woken (ws : list Worker) (n : nat) :
  count_done ws (replicate n true) = 0.
Proof.
  revert n. induction ws as [|w ws IH]; intros n; [reflexivity |].
  destruct n as [|n]; [reflexivity |].
  cbn [replicate count_done]. rewrite IH.
  destruct (w_pc w); reflexivity.
Qed.

Lemma count_done_range (ws : list Worker) (fs : list bool) :
  0 <= count_done ws fs <= Z.of_nat (length ws).
Proof.
  revert fs. induction ws as [|w ws IH]; intros fs; [cbn; lia |].
  destruct fs as [|f fs]; [cbn; lia |].
  cbn [count_done length]. specialize (IH fs).
  destruct (is_done (w_pc w) f); lia.
Qed.

(** A worker that is not done is counted out: the count stays below the
    number of workers. *)
Lemma count_done_lt (ws : list Worker) (fs : list bool) (t : nat) (w : Worker)
    (f : bool) :
  ws !! t = Some w -> fs !! t = Some f -> is_done (w_pc w) f = false ->
  count_done ws fs < Z.of_nat (length ws).
Proof.
  revert fs t. induction ws as [|w0 ws IH]; intros fs t Hw Hf Hnd; [discriminate |].
  destruct fs as [|f0 fs]; [discriminate |].
  destruct t as [|t]; cbn in Hw, Hf; cbn [count_done length].
  - injection Hw as ->. injection Hf as ->. rewrite Hnd.
    pose proof (count_done_range ws fs). lia.
  - specialize (IH fs t Hw Hf Hnd).
    destruct (is_done (w_pc w0) f0); lia.
Qed.

(** ** The barrier protocol: the invariant of a running [Simulate] *)

(** The invariant, on the synchronisation state alone: the thread count
    [N], [simulate], [processed], the wake flags, the threads and the
    position of the controller. *)
Record Inv_core (N : Z) (sim : bool) (p : Z) (fs : list bool)
    (ws : list Worker) (c : ControllerPc) : Prop := {
  inv_N : 1 <= N <= INT_MAX;
  inv_flags : length fs = Z.to_nat N;
  inv_threads : length ws = Z.to_nat N;
  inv_tid : forall t w, ws !! t = Some w -> w_tid w = Z.of_nat t;
  inv_allowed : forall t w f,
    ws !! t = Some w -> fs !! t = Some f -> allowed c (w_pc w) f = true;
  inv_stop : forall t w,
    ws !! t = Some w -> has_seen_stop (w_pc w) = true -> sim = false;
  inv_processed :
    match c with
    | CWaitForData => p = count_done ws fs
    | CWakeUp | CSwap | CRefresh | CTestSimulate => p = 0
    | _ => True
    end;
  inv_stopping :
    match c with
    | CFinalWakeUp | CJoin _ | CReturned => sim = false
    | _ => True
    end;
  inv_join :
    match c with
    | CJoin tj =>
        0 <= tj <= N /\
        forall t w, Z.of_nat t < tj -> ws !! t = Some w -> w_pc w = WFinished
    | _ => True
    end
}.

Definition Inv (s : System) : Prop :=
  Inv_core (numThreads (this s)) (simulate (this s))
    (processed (this s)) (wakeup (this s)) (theThreads s) (ctl s).

(** One worker changes its position and possibly its wake flag. *)
Lemma Inv_core_worker (N : Z) (sim : bool) (p p' : Z) (fs fs' : list bool)
    (ws : list Worker) (c : ControllerPc) (t : nat) (w : Worker)
    (f f' : bool) (pc' : WorkerPc) :
  Inv_core N sim p fs ws c ->
  ws !! t = Some w -> fs !! t = Some f ->
  fs' = <[t := f']> fs ->
  allowed c pc' f' = true ->
  (has_seen_stop pc' = true -> sim = false) ->
  match c with
  | CWaitForData =>
      p' = p - (if is_done (w_pc w) f then 1 else 0)
           + (if is_done pc' f' then 1 else 0)
  | CWakeUp | CSwap | CRefresh | CTestSimulate => p' = 0
  | _ => True
  end ->
  match c with
  | CJoin tj => Z.of_nat t < tj -> pc' = WFinished
  | _ => True
  end ->
  Inv_core N sim p' fs' (<[t := with_pc pc' w]> ws) c.
Proof.
  intros [HN Hfs Hws Htid Hall Hstop Hp Hstopping Hjoin] Hw Hf -> Hal Hst Hp' Hj.
  constructor; try assumption.
  - rewrite length_insert. exact Hfs.
  - rewrite length_insert. exact Hws.
  - intros t0 w0 Hw0. apply list_lookup_insert_Some in Hw0.
    destruct Hw0 as [(<- & <- & _) | (Hne & Hw0)].
    + cbn. apply (Htid t w Hw).
    + apply (Htid t0 w0 Hw0).
  - intros t0 w0 f0 Hw0 Hf0.
    apply list_lookup_insert_Some in Hw0.
    destruct Hw0 as [(<- & <- & _) | (Hne & Hw0)].
    + rewrite list_lookup_insert_eq in Hf0
        by (apply lookup_lt_is_Some; eauto).
      injection Hf0 as <-. exact Hal.
    + rewrite list_lookup_insert_ne in Hf0 by exact Hne.
      apply (Hall t0 w0 f0 Hw0 Hf0).
  - intros t0 w0 Hw0 Hseen. apply list_lookup_insert_Some in Hw0.
    destruct Hw0 as [(<- & <- & _) | (Hne & Hw0)].
    + apply Hst. exact Hseen.
    + apply (Hstop t0 w0 Hw0 Hseen).
  - destruct c; try exact I; try exact Hp'.
    subst p'. rewrite Hp.
    rewrite (count_done_update ws fs t w (with_pc pc' w) f f' Hw Hf).
    reflexivity.
  - destruct c as [| | | | | | tj |]; try exact I.
    destruct Hjoin as [Hrange Hfin].
    split; [exact Hrange |].
    intros t1 w1 Ht1 Hw1. apply list_lookup_insert_Some in Hw1.
    destruct Hw1 as [(<- & <- & _) | (Hne & Hw1)].
    + cbn. apply Hj. exact Ht1.
    + apply (Hfin t1 w1 Ht1 Hw1).
Qed.

(** Every wake flag becomes true. *)
Lemma allowed_after_wake (c c' : ControllerPc) (N : Z) (fs : list bool)
    (ws : list Worker) :
  length fs = Z.to_nat N -> length ws = Z.to_nat N ->
  (forall pc, allowed c pc false = true -> allowed c' pc true = true) ->
  (forall t w f, ws !! t = Some w -> fs !! t = Some f ->
     allowed c (w_pc w) f = true /\ f = false) ->
  forall t w f, ws !! t = Some w ->
    replicate (length fs) true !! t = Some f -> allowed c' (w_pc w) f = true.
Proof.
  intros Hfs Hws Hcc Hall t w f Hw Hf.
  apply lookup_replicate in Hf. destruct Hf as [-> Ht].
  destruct (lookup_lt_is_Some_2 fs t Ht) as [f0 Hf0].
  destruct (Hall t w f0 Hw Hf0) as [Hal ->].
  apply Hcc. exact Hal.
Qed.

(** Some worker has not signalled when the count is short. *)
Lemma count_done_missing (ws : list Worker) (fs : list bool) :
  length fs = length ws ->
  count_done ws fs < Z.of_nat (length ws) ->
  exists t w f, ws !! t = Some w /\ fs !! t = Some f /\
                is_done (w_pc w) f = false.
Proof.
  revert fs. induction ws as [|w ws IH]; intros fs Hlen Hlt; [cbn in Hlt; lia |].
  destruct fs as [|f fs]; [discriminate |].
  destruct (is_done (w_pc w) f) eqn:Hd.
  - cbn [count_done length] in Hlt. rewrite Hd in Hlt.
    destruct (IH fs) as (t & w' & f' & Hw & Hf & Hnd);
      [cbn in Hlen; lia | lia |].
    exists (S t), w', f'. repeat split; assumption.
  - exists 0%nat, w, f. repeat split; assumption.
Qed.

(** *** Termination measure, once [simulate] is false *)

(** Transitions a worker still has to make before it ends. *)
Definition worker_rank (pc : WorkerPc) : nat :=
  match pc with
  | WPass => 5
  | WSignal false => 4
  | WWaitForWork => 3
  | WTestSimulate => 2
  | WSignal true => 1
  | WFinished | WNotAThread => 0
  end.

(** Transitions the controller still has to make before it returns. *)
Definition controller_rank (N : Z) (c : ControllerPc) : nat :=
  match c with
  | CSwap => Z.to_nat N + 7
  | CRefresh => Z.to_nat N + 6
  | CWakeUp => Z.to_nat N + 5
  | CWaitForData => Z.to_nat N + 4
  | CTestSimulate => Z.to_nat N + 3
  | CFinalWakeUp => Z.to_nat N + 2
  | CJoin t => Z.to_nat (N - t) + 1
  | CReturned => 0
  end.

Definition workers_rank (ws : list Worker) : nat :=
  sum_list_with (fun w => worker_rank (w_pc w)) ws.

Definition measure (s : System) : nat :=
  (controller_rank (numThreads (this s)) (ctl s) + workers_rank (theThreads s))%nat.

Lemma workers_rank_insert (ws : list Worker) (t : nat) (w w' : Worker) :
  ws !! t = Some w ->
  (workers_rank (<[t := w']> ws) + worker_rank (w_pc w) =
   workers_rank ws + worker_rank (w_pc w'))%nat.
Proof.
  revert t. induction ws as [|w0 ws IH]; intros t Hw; [discriminate |].
  destruct t as [|t]; simpl in *.
  - injection Hw as ->. unfold workers_rank. simpl. lia.
  - specialize (IH t Hw). unfold workers_rank in *. simpl. lia.
Qed.

Lemma workers_rank_bound (ws : list Worker) :
  (workers_rank ws <= 5 * length ws)%nat.
Proof.
  induction ws as [|w ws IH]; [cbn; lia |].
  unfold workers_rank in *. cbn [sum_list_with length].
  assert (worker_rank (w_pc w) <= 5)%nat
    by (destruct (w_pc w) as [| | | | [|] |]; cbn; lia).
  lia.
Qed.

(** What a worker at position [pc] does from there on when [simulate]
    stays false, by lines 95-119: its remaining events, in order. *)
Definition script (pc : WorkerPc) (tid : Z) : list Event :=
  let leave := [WrkStop tid; WrkSignalMoreData tid true] in
  match pc with
  | WNotAThread | WFinished => []
  | WSignal true => [WrkSignalMoreData tid true]
  | WTestSimulate => leave
  | WWaitForWork => WrkWaitForWork tid :: leave
  | WSignal false => WrkSignalMoreData tid false :: WrkWaitForWork tid :: leave
  | WPass =>
      WrkPass tid :: WrkSignalMoreData tid false :: WrkWaitForWork tid :: leave
  end.

Section Protocol.
Context `{CellMethods} `{KernelMethods}.

Lemma Inv_flag (s : System) (t : nat) (w : Worker) :
  Inv s -> theThreads s !! t = Some w ->
  exists f, wakeup (this s) !! t = Some f /\
            vector_at (wakeup (this s)) (w_tid w) = Some f /\
            Z.to_nat (w_tid w) = t /\
            allowed (ctl s) (w_pc w) f = true.
Proof.
  intros HI Hw.
  assert (Ht : (t < length (wakeup (this s)))%nat).
  { rewrite (inv_flags _ _ _ _ _ _ HI), <- (inv_threads _ _ _ _ _ _ HI).
    apply lookup_lt_is_Some. eauto. }
  destruct (lookup_lt_is_Some_2 _ _ Ht) as [f Hf].
  pose proof (inv_tid _ _ _ _ _ _ HI t w Hw) as Htid.
  exists f. repeat split.
  - exact Hf.
  - rewrite vector_at_lookup, Htid, Nat2Z.id by lia. exact Hf.
  - rewrite Htid. apply Nat2Z.id.
  - apply (inv_allowed _ _ _ _ _ _ HI t w f Hw Hf).
Qed.

(** A worker before the join index has finished. *)
Lemma Inv_joined (s : System) (t : nat) (w : Worker) (tj : Z) :
  Inv s -> ctl s = CJoin tj -> theThreads s !! t = Some w ->
  Z.of_nat t < tj -> w_pc w = WFinished.
Proof.
  intros HI Hc Hw Hlt. pose proof (inv_join _ _ _ _ _ _ HI) as Hj.
  rewrite Hc in Hj. destruct Hj as [_ Hfin]. apply (Hfin t w Hlt Hw).
Qed.

Ltac solve_allowed Hal :=
  destruct (ctl _); cbn in Hal |- *; first [discriminate Hal | reflexivity].

Ltac solve_processed Hal :=
  destruct (ctl _); cbn in Hal |- *; first [discriminate Hal | exact I | lia].

Ltac solve_join HI Hw Hpc :=
  let Hctl := fresh "Hctl" in
  let Hlt := fresh "Hlt" in
  let Hfin := fresh "Hfin" in
  destruct (ctl _) eqn:Hctl; try exact I;
  intros Hlt; pose proof (Inv_joined _ _ _ _ HI Hctl Hw Hlt) as Hfin;
  rewrite Hpc in Hfin; discriminate Hfin.

Ltac flag_unchanged Hf := symmetry; apply list_insert_id; exact Hf.

(** While the controller waits for data, [processed] stays below [INT_MAX]
    as long as some worker has not signalled. *)
Lemma Inv_processed_lt (s : System) (t : nat) (w : Worker) (f : bool) :
  Inv s -> ctl s = CWaitForData ->
  theThreads s !! t = Some w -> wakeup (this s) !! t = Some f ->
  is_done (w_pc w) f = false ->
  0 <= processed (this s) < INT_MAX.
Proof.
  intros HI Hc Hw Hf Hnd.
  pose proof (inv_processed _ _ _ _ _ _ HI) as Hp. rewrite Hc in Hp.
  pose proof (count_done_lt _ _ _ _ _ Hw Hf Hnd) as Hlt.
  pose proof (count_done_range (theThreads s) (wakeup (this s))) as Hr.
  pose proof (inv_threads _ _ _ _ _ _ HI) as Hlen.
  pose proof (inv_N _ _ _ _ _ _ HI) as HN.
  rewrite Hp. lia.
Qed.

Lemma worker_step_Inv (t : nat) (s s' : System) (e : Event) :
  Inv s -> worker_step t s = Some (e, s') -> Inv s'.
Proof.
  intros HI Hstep. unfold worker_step in Hstep.
  destruct (theThreads s !! t) as [w |] eqn:Hw; [| discriminate].
  destruct (Inv_flag s t w HI Hw) as (f & Hf & Hvf & Htid & Hal).
  destruct (w_pc w) eqn:Hpc; try discriminate.
  - (* WWaitForWork *)
    unfold WaitForWork in Hstep. rewrite Hvf in Hstep.
    destruct f; [| discriminate]. injection Hstep as <- <-.
    unfold Inv. cbn. unfold vector_set. rewrite Htid.
    eapply (Inv_core_worker _ _ _ _ _ _ _ _ _ _ _ _ _ HI Hw Hf).
    + reflexivity.
    + solve_allowed Hal.
    + discriminate.
    + rewrite Hpc. solve_processed Hal.
    + solve_join HI Hw Hpc.
  - (* WTestSimulate *)
    destruct f.
    { destruct (ctl s); cbn in Hal; discriminate Hal. }
    destruct (negb (simulate (this s))) eqn:Hsim;
      injection Hstep as <- <-; unfold Inv; cbn.
    + eapply (Inv_core_worker _ _ _ _ _ _ _ _ _ _ _ _ _ HI Hw Hf).
      * flag_unchanged Hf.
      * solve_allowed Hal.
      * intros _. destruct (simulate (this s)); [discriminate | reflexivity].
      * rewrite Hpc. solve_processed Hal.
      * solve_join HI Hw Hpc.
    + eapply (Inv_core_worker _ _ _ _ _ _ _ _ _ _ _ _ _ HI Hw Hf).
      * flag_unchanged Hf.
      * pose proof (inv_stopping _ _ _ _ _ _ HI) as Hst.
        destruct (ctl s); cbn in Hal |- *;
          first [discriminate Hal | reflexivity | idtac].
        rewrite Hst in Hsim. discriminate Hsim.
      * discriminate.
      * rewrite Hpc. solve_processed Hal.
      * solve_join HI Hw Hpc.
  - (* WPass *)
    destruct f.
    { destruct (ctl s); cbn in Hal; discriminate Hal. }
    injection Hstep as <- <-. unfold Inv. cbn.
    eapply (Inv_core_worker _ _ _ _ _ _ _ _ _ _ _ _ _ HI Hw Hf).
    + flag_unchanged Hf.
    + solve_allowed Hal.
    + discriminate.
    + rewrite Hpc. solve_processed Hal.
    + solve_join HI Hw Hpc.
  - (* WSignal *)
    injection Hstep as <- <-. unfold Inv. cbn.
    assert (Hp : ctl s = CWaitForData ->
                 to_int (processed (this s) + 1) = processed (this s) + 1).
    { intros Hc. apply to_int_small.
      assert (Hnd : is_done (w_pc w) f = false)
        by (rewrite Hpc; destruct f; reflexivity).
      pose proof (Inv_processed_lt s t w f HI Hc Hw Hf Hnd).
      unfold INT_MAX in *. lia. }
    eapply (Inv_core_worker _ _ _ _ _ _ _ _ _ _ _ _ _ HI Hw Hf).
    + flag_unchanged Hf.
    + destruct leaving, f, (ctl s); cbn in Hal |- *;
        first [discriminate Hal | reflexivity].
    + intros Hseen. apply (inv_stop _ _ _ _ _ _ HI t w Hw).
      rewrite Hpc. destruct leaving; [reflexivity | discriminate Hseen].
    + rewrite Hpc.
      destruct (ctl s) eqn:Hc; destruct leaving, f; cbn in Hal |- *;
        first [discriminate Hal | exact I | rewrite Hp by reflexivity; lia].
    + destruct (ctl s) eqn:Hctl; try exact I.
      intros Hlt. destruct leaving; [reflexivity |].
      destruct f; cbn in Hal; discriminate Hal.
Qed.

(** The controller moves on; flags and threads stay. *)
Lemma Inv_core_ctl (N : Z) (sim : bool) (p p' : Z) (fs : list bool)
    (ws : list Worker) (c c' : ControllerPc) :
  Inv_core N sim p fs ws c ->
  (forall t w f, ws !! t = Some w -> fs !! t = Some f ->
     allowed c (w_pc w) f = true -> allowed c' (w_pc w) f = true) ->
  match c' with
  | CWaitForData => p' = count_done ws fs
  | CWakeUp | CSwap | CRefresh | CTestSimulate => p' = 0
  | _ => True
  end ->
  match c' with
  | CFinalWakeUp | CJoin _ | CReturned => sim = false
  | _ => True
  end ->
  match c' with
  | CJoin tj =>
      0 <= tj <= N /\
      forall t w, Z.of_nat t < tj -> ws !! t = Some w -> w_pc w = WFinished
  | _ => True
  end ->
  Inv_core N sim p' fs ws c'.
Proof.
  intros [HN Hfs Hws Htid Hall Hstop Hp Hstopping Hjoin] Hal Hp' Hst Hj.
  constructor; try assumption.
  intros t w f Hw Hf. apply (Hal t w f Hw Hf). apply (Hall t w f Hw Hf).
Qed.

(** [WakeUp()] at line 145 or at line 156. *)
Lemma Inv_core_wake (N : Z) (sim : bool) (p : Z) (fs : list bool)
    (ws : list Worker) (c c' : ControllerPc) :
  Inv_core N sim p fs ws c ->
  (c = CWakeUp /\ c' = CWaitForData) \/ (c = CFinalWakeUp /\ c' = CJoin 0) ->
  Inv_core N sim p (replicate (length fs) true) ws c'.
Proof.
  intros [HN Hfs Hws Htid Hall Hstop Hp Hstopping Hjoin] Hcc.
  constructor; try assumption.
  - rewrite length_replicate. exact Hfs.
  - intros t w f Hw Hf. apply lookup_replicate in Hf. destruct Hf as [-> Ht].
    destruct (lookup_lt_is_Some_2 fs t Ht) as [f0 Hf0].
    specialize (Hall t w f0 Hw Hf0).
    destruct Hcc as [[-> ->] | [-> ->]]; cbn in Hall |- *;
      destruct (w_pc w), f0; cbn in Hall |- *;
      first [discriminate Hall | reflexivity].
  - destruct Hcc as [[-> ->] | [-> ->]]; [| exact I].
    rewrite count_done_woken. exact Hp.
  - destruct Hcc as [[-> ->] | [-> ->]]; [exact I | exact Hstopping].
  - destruct Hcc as [[-> ->] | [-> ->]]; [exact I |].
    split; [lia |]. intros t w Ht. lia.
Qed.

Lemma controller_step_Inv (s s' : System) (e : Event) :
  Inv s -> controller_step s = Some (e, s') -> Inv s'.
Proof.
  intros HI Hstep. unfold controller_step in Hstep.
  pose proof (inv_N _ _ _ _ _ _ HI) as HN.
  destruct (ctl s) as [| | | | | | tj |] eqn:Hc.
  - (* CWakeUp *)
    injection Hstep as <- <-. unfold Inv. cbn [this ctl theThreads set_ctl set_this].
    rewrite WakeUp_wakeup. unfold Inv in HI. rewrite Hc in HI.
    apply (Inv_core_wake _ _ _ _ _ _ _ HI). left. split; reflexivity.
  - (* CWaitForData *)
    unfold WaitForData in Hstep.
    destruct (processed (this s) =? to_int (numThreads (this s))) eqn:Hp;
      [| discriminate].
    injection Hstep as <- <-. unfold Inv. cbn.
    rewrite to_int_small in Hp by (unfold INT_MAX in *; lia).
    unfold Inv in HI. rewrite Hc in HI.
    apply (Inv_core_ctl _ _ _ _ _ _ _ _ HI); try exact I; try reflexivity.
    intros t w f Hw Hf Hal.
    cbn [allowed].
    destruct (is_done (w_pc w) f) eqn:Hd; [reflexivity |].
    pose proof (count_done_lt _ _ _ _ _ Hw Hf Hd) as Hlt.
    pose proof (inv_processed _ _ _ _ _ _ HI) as Hcount. cbn in Hcount.
    pose proof (inv_threads _ _ _ _ _ _ HI) as Hlen. lia.
  - (* CTestSimulate *)
    unfold Inv in HI. rewrite Hc in HI.
    destruct (negb (simulate (this s))) eqn:Hsim;
      injection Hstep as <- <-; unfold Inv; cbn.
    + apply (Inv_core_ctl _ _ _ _ _ _ _ _ HI); try exact I.
      * intros t w f _ _ Hal. exact Hal.
      * destruct (simulate (this s)); [discriminate | reflexivity].
    + apply (Inv_core_ctl _ _ _ _ _ _ _ _ HI); try exact I.
      * intros t w f Hw _ Hal. cbn in Hal |- *.
        destruct (w_pc w) eqn:Hpc, f; try discriminate Hal; try reflexivity.
        pose proof (inv_stop _ _ _ _ _ _ HI t w Hw) as Hst.
        rewrite Hpc in Hst. rewrite Hst in Hsim by reflexivity. discriminate.
      * apply (inv_processed _ _ _ _ _ _ HI).
  - (* CSwap *)
    injection Hstep as <- <-. unfold Inv. cbn.
    unfold Inv in HI. rewrite Hc in HI.
    apply (Inv_core_ctl _ _ _ _ _ _ _ _ HI); try exact I.
    + intros t w f _ _ Hal. exact Hal.
    + apply (inv_processed _ _ _ _ _ _ HI).
  - (* CRefresh *)
    destruct (refresh_due (this s) (step s)) as [due |]; [| discriminate].
    injection Hstep as <- <-. unfold Inv.
    cbn [this ctl theThreads].
    replace (numThreads (if due then GetResults (this s) else this s))
      with (numThreads (this s)) by (destruct due; reflexivity).
    replace (refreshSteps (if due then GetResults (this s) else this s))
      with (refreshSteps (this s)) by (destruct due; reflexivity).
    replace (simulate (if due then GetResults (this s) else this s))
      with (simulate (this s)) by (destruct due; reflexivity).
    replace (processed (if due then GetResults (this s) else this s))
      with (processed (this s)) by (destruct due; reflexivity).
    replace (wakeup (if due then GetResults (this s) else this s))
      with (wakeup (this s)) by (destruct due; reflexivity).
    unfold Inv in HI. rewrite Hc in HI.
    apply (Inv_core_ctl _ _ _ _ _ _ _ _ HI); try exact I.
    + intros t w f _ _ Hal. exact Hal.
    + apply (inv_processed _ _ _ _ _ _ HI).
  - (* CFinalWakeUp *)
    injection Hstep as <- <-. unfold Inv. cbn [this ctl theThreads set_ctl set_this].
    rewrite WakeUp_wakeup. unfold Inv in HI. rewrite Hc in HI.
    apply (Inv_core_wake _ _ _ _ _ _ _ HI). right. split; reflexivity.
  - (* CJoin *)
    unfold Inv in HI. rewrite Hc in HI.
    pose proof (inv_join _ _ _ _ _ _ HI) as [Htj Hfin].
    pose proof (inv_stopping _ _ _ _ _ _ HI) as Hst. cbn in Hst.
    rewrite to_uint_small in Hstep by (unfold INT_MAX, UINT_MOD in *; lia).
    destruct (tj <? numThreads (this s)) eqn:Hlt.
    + rewrite vector_at_lookup in Hstep by lia.
      destruct (theThreads s !! Z.to_nat tj) as [w |] eqn:Hw; [| discriminate].
      rewrite to_uint_small in Hstep by (unfold INT_MAX, UINT_MOD in *; lia).
      assert (Hpc : w_pc w = WFinished).
      { assert (Hlen : (Z.to_nat tj < length (wakeup (this s)))%nat).
        { rewrite (inv_flags _ _ _ _ _ _ HI). lia. }
        destruct (lookup_lt_is_Some_2 _ _ Hlen) as [f Hf].
        pose proof (inv_allowed _ _ _ _ _ _ HI _ w f Hw Hf) as Hal.
        cbn in Hal. destruct (w_pc w), f; try discriminate Hstep;
          try discriminate Hal; reflexivity. }
      rewrite Hpc in Hstep. injection Hstep as <- <-. unfold Inv. cbn.
      apply (Inv_core_ctl _ _ _ _ _ _ _ _ HI); try exact I.
      * intros t w' f _ _ Hal. exact Hal.
      * exact Hst.
      * split; [lia |]. intros t w' Ht Hw'.
        destruct (Z.eq_dec (Z.of_nat t) tj) as [Heq | Hne].
        -- subst tj. rewrite Nat2Z.id in Hw. congruence.
        -- apply (Hfin t w'); [lia | exact Hw'].
    + injection Hstep as <- <-. unfold Inv. cbn.
      apply (Inv_core_ctl _ _ _ _ _ _ _ _ HI); try exact I.
      * intros t w f Hw _ _. cbn.
        rewrite (Hfin t w); [reflexivity | | exact Hw].
        assert (Ht : (t < length (theThreads s))%nat)
          by (apply lookup_lt_is_Some; eauto).
        rewrite (inv_threads _ _ _ _ _ _ HI) in Ht. lia.
      * exact Hst.
  - discriminate.
Qed.

Lemma user_step_Inv (s s' : System) (e : Event) :
  Inv s -> user_step s = Some (e, s') -> Inv s'.
Proof.
  intros HI Hstep. unfold user_step in Hstep.
  destruct (simulate (this s)); [| discriminate].
  injection Hstep as <- <-. unfold Inv. cbn.
  destruct HI as [HN Hfs Hws Htid Hall Hstop Hp Hstopping Hjoin].
  constructor; try assumption.
  - intros; reflexivity.
  - destruct (ctl s); try exact I; reflexivity.
Qed.

Lemma act_Inv (a : Actor) (s s' : System) (e : Event) :
  Inv s -> act a s = Some (e, s') -> Inv s'.
Proof.
  destruct a as [| t |]; cbn [act].
  - apply controller_step_Inv.
  - apply worker_step_Inv.
  - apply user_step_Inv.
Qed.

Lemma run_Inv (sched : list Actor) (s s' : System) (es : list Event) :
  Inv s -> run sched s = Some (es, s') -> Inv s'.
Proof.
  revert s es. induction sched as [|a sched IH]; intros s es HI Hrun.
  - cbn in Hrun. injection Hrun as <- <-. exact HI.
  - cbn [run] in Hrun.
    destruct (act a s) as [[e s1] |] eqn:Hact; [| discriminate].
    destruct (run sched s1) as [[es1 s2] |] eqn:Hrun1; [| discriminate].
    injection Hrun as <- <-.
    apply (IH s1 es1); [apply (act_Inv a s s1 e HI Hact) | exact Hrun1].
Qed.

(** The threads as the spawning loop leaves them: [numThreads] workers,
    worker [t] with thread id [t], each waiting for work. *)
Lemma spawn_threads_shape (L : Lattice) :
  1 <= numThreads L <= INT_MAX ->
  length (spawn_threads L) = Z.to_nat (numThreads L) /\
  forall t w, spawn_threads L !! t = Some w ->
    w_tid w = Z.of_nat t /\ w_pc w = WWaitForWork.
Proof.
  intros HN. unfold spawn_threads.
  rewrite (to_int_small (numThreads L)) by (unfold INT_MAX in *; lia).
  set (body := fun (t : Z) '(theThreads, strideStart) => _).
  pose (P := fun (t : Z) (st : list Worker * Z) =>
    length (fst st) = Z.to_nat (numThreads L) /\
    forall k w, fst st !! k = Some w ->
      (Z.of_nat k < t /\ w_tid w = Z.of_nat k /\ w_pc w = WWaitForWork) \/
      (t <= Z.of_nat k /\ w = not_a_thread)).
  assert (Hinv : P (numThreads L)
            (for_range 0 (numThreads L) body
               (replicate (Z.to_nat (numThreads L)) not_a_thread, 0))).
  { apply (for_range_ind P); [lia | |]; unfold P.
    - cbn [fst]. split; [apply length_replicate |].
      intros k w Hk. apply lookup_replicate in Hk. destruct Hk as [-> Hk].
      right. split; [lia | reflexivity].
    - intros t [threads strideStart] Ht [Hlen Hshape]. cbn [fst body] in *.
      split; [rewrite length_vector_set; exact Hlen |].
      intros k w Hk. unfold vector_set in Hk.
      apply list_lookup_insert_Some in Hk.
      destruct Hk as [(<- & <- & _) | (Hne & Hk)].
      + left. cbn. rewrite Z2Nat.id by lia. repeat split; lia.
      + destruct (Hshape k w Hk) as [(Hlt & Hw) | (Hge & Hw)].
        * left. split; [lia | exact Hw].
        * right. split; [lia | exact Hw]. }
  destruct Hinv as [Hlen Hshape]. split; [exact Hlen |].
  intros t w Hw.
  destruct (Hshape t w Hw) as [(_ & Hw') | (Hge & _)]; [exact Hw' |].
  apply lookup_lt_Some in Hw. rewrite Hlen in Hw. lia.
Qed.

Lemma Inv_initial (L4 : Lattice) (work : Matrix Cell) :
  1 <= numThreads L4 <= INT_MAX ->
  processed L4 = 0 ->
  wakeup L4 = replicate (Z.to_nat (numThreads L4)) false ->
  Inv (mkSystem L4 work (spawn_threads L4) 0 CWakeUp).
Proof.
  intros HN Hp Hwake.
  destruct (spawn_threads_shape L4 HN) as [Hlen Hshape].
  unfold Inv. cbn [this ctl theThreads].
  constructor; rewrite ?Hp, ?Hwake; try exact I; try assumption.
  - apply length_replicate.
  - intros t w Hw. apply (Hshape t w Hw).
  - intros t w f Hw Hf. apply lookup_replicate in Hf. destruct Hf as [-> _].
    destruct (Hshape t w Hw) as [_ ->]. reflexivity.
  - intros t w Hw Hseen. destruct (Hshape t w Hw) as [_ Hpc].
    rewrite Hpc in Hseen. discriminate Hseen.
  - reflexivity.
Qed.

(** The invariant holds when the step loop is entered. *)
Lemma Simulate_start_Inv (L : Lattice) (s : System) :
  1 <= numThreads L <= INT_MAX ->
  Simulate_start L = Some s ->
  Inv s /\ ctl s = CWakeUp /\ simulate (this s) = simulate L /\
  numThreads (this s) = numThreads L /\
  refreshSteps (this s) = refreshSteps L.
Proof.
  intros HN Hstart.
  rewrite Simulate_start_eq in Hstart by lia.
  destruct (Simulate_setup_config L) as (HN4 & Hsim & Hr4 & _ & _ & Hp).
  pose proof (Simulate_setup_wakeup L ltac:(lia)) as Hwake.
  remember (fst (Simulate_setup L)) as L4 eqn:HL4. clear HL4.
  injection Hstart as <-.
  split; [| repeat split; assumption].
  apply Inv_initial; rewrite ?HN4; assumption.
Qed.

(** The configuration is not touched while [Simulate] runs. *)
Lemma act_config (a : Actor) (s s' : System) (e : Event) :
  act a s = Some (e, s') ->
  numThreads (this s') = numThreads (this s) /\
  refreshSteps (this s') = refreshSteps (this s).
Proof.
  destruct a as [| t |]; cbn [act]; intros Hstep.
  - unfold controller_step, WaitForData in Hstep.
    destruct (ctl s); try discriminate Hstep.
    + injection Hstep as <- <-. split; reflexivity.
    + destruct (processed (this s) =? to_int (numThreads (this s)));
        [| discriminate].
      injection Hstep as <- <-. split; reflexivity.
    + destruct (negb (simulate (this s))); injection Hstep as <- <-;
        split; reflexivity.
    + injection Hstep as <- <-. split; reflexivity.
    + destruct (refresh_due (this s) (step s)) as [[|] |]; try discriminate;
        injection Hstep as <- <-; split; reflexivity.
    + injection Hstep as <- <-. split; reflexivity.
    + step_cases Hstep; injection Hstep as <- <-; split; reflexivity.
  - unfold worker_step, WaitForWork in Hstep.
    destruct (theThreads s !! t) as [w |]; [| discriminate].
    destruct (w_pc w); try discriminate.
    + destruct (vector_at (wakeup (this s)) (w_tid w)) as [[|] |];
        try discriminate.
      injection Hstep as <- <-. split; reflexivity.
    + destruct (negb (simulate (this s))); injection Hstep as <- <-;
        split; reflexivity.
    + injection Hstep as <- <-. split; reflexivity.
    + injection Hstep as <- <-. split; reflexivity.
  - unfold user_step in Hstep.
    destruct (simulate (this s)); [| discriminate].
    injection Hstep as <- <-. split; reflexivity.
Qed.

Lemma run_config (sched : list Actor) (s s' : System) (es : list Event) :
  run sched s = Some (es, s') ->
  numThreads (this s') = numThreads (this s) /\
  refreshSteps (this s') = refreshSteps (this s).
Proof.
  revert s es. induction sched as [|a sched IH]; intros s es Hrun.
  - cbn in Hrun. injection Hrun as <- <-. split; reflexivity.
  - cbn [run] in Hrun.
    destruct (act a s) as [[e s1] |] eqn:Hact; [| discriminate].
    destruct (run sched s1) as [[es1 s2] |] eqn:Hrun1; [| discriminate].
    injection Hrun as <- <-.
    destruct (IH s1 es1 Hrun1) as [HN Hr].
    destruct (act_config a s s1 e Hact) as [HN1 Hr1].
    split; congruence.
Qed.

Lemma run_numThreads (sched : list Actor) (s s' : System) (es : list Event) :
  run sched s = Some (es, s') -> numThreads (this s') = numThreads (this s).
Proof. intros Hrun. apply (run_config sched s s' es Hrun). Qed.

(** ** The barrier protocol: no deadlock *)

(** A worker that has been woken, or is past [WaitForWork], can move. *)
Lemma worker_can_step (s : System) (t : nat) (w : Worker) (f : bool) :
  Inv s -> theThreads s !! t = Some w -> wakeup (this s) !! t = Some f ->
  match w_pc w, f with
  | WWaitForWork, true | WTestSimulate, _ | WPass, _ | WSignal _, _ => True
  | _, _ => False
  end ->
  exists e s', worker_step t s = Some (e, s').
Proof.
  intros HI Hw Hf Hpc. unfold worker_step. rewrite Hw.
  destruct (Inv_flag s t w HI Hw) as (f' & Hf' & Hvf & _ & _).
  assert (f' = f) as -> by congruence.
  destruct (w_pc w); try contradiction.
  - destruct f; [| contradiction]. unfold WaitForWork. rewrite Hvf. eauto.
  - destruct (negb (simulate (this s))); eauto.
  - eauto.
  - eauto.
Qed.

(** Progress: unless [Simulate] has returned with every worker ended, the
    controller or some worker can move. *)
Lemma progress (s : System) :
  Inv s -> (ctl s = CRefresh -> to_uint (refreshSteps (this s)) <> 0) ->
  terminated s \/ exists a e s', act a s = Some (e, s').
Proof.
  intros HI Hrefresh.
  pose proof (inv_N _ _ _ _ _ _ HI) as HN.
  pose proof (inv_threads _ _ _ _ _ _ HI) as Hws.
  pose proof (inv_flags _ _ _ _ _ _ HI) as Hfs.
  destruct (ctl s) as [| | | | | | tj |] eqn:Hc.
  - right. exists Controller. cbn. unfold controller_step. rewrite Hc. eauto.
  - (* CWaitForData *)
    right.
    pose proof (inv_processed _ _ _ _ _ _ HI) as Hp. rewrite Hc in Hp.
    pose proof (count_done_range (theThreads s) (wakeup (this s))) as Hr.
    destruct (Z.eq_dec (count_done (theThreads s) (wakeup (this s)))
                (numThreads (this s))) as [Heq | Hne].
    + exists Controller. cbn. unfold controller_step, WaitForData. rewrite Hc.
      rewrite to_int_small by (unfold INT_MAX in *; lia).
      rewrite Hp, Heq, Z.eqb_refl. eauto.
    + destruct (count_done_missing (theThreads s) (wakeup (this s)))
        as (t & w & f & Hw & Hf & Hnd); [lia | lia |].
      pose proof (inv_allowed _ _ _ _ _ _ HI t w f Hw Hf) as Hal.
      rewrite Hc in Hal. cbn in Hal. rewrite Hnd in Hal. cbn in Hal.
      destruct (worker_can_step s t w f HI Hw Hf) as (e & s' & Hstep).
      { destruct (w_pc w), f; try discriminate Hal; exact I. }
      exists (Work t), e, s'. exact Hstep.
  - right. exists Controller. cbn. unfold controller_step. rewrite Hc.
    destruct (negb (simulate (this s))); eauto.
  - right. exists Controller. cbn. unfold controller_step. rewrite Hc. eauto.
  - (* CRefresh *)
    right. exists Controller. cbn. unfold controller_step, refresh_due.
    rewrite Hc.
    destruct (2000 <? step s); [| eauto].
    specialize (Hrefresh eq_refl).
    destruct (to_uint (refreshSteps (this s)) =? 0) eqn:E; [lia | eauto].
  - right. exists Controller. cbn. unfold controller_step. rewrite Hc. eauto.
  - (* CJoin *)
    right.
    pose proof (inv_join _ _ _ _ _ _ HI) as Hj. rewrite Hc in Hj.
    destruct Hj as [Htj _].
    destruct (tj <? numThreads (this s)) eqn:Hlt.
    + assert (Ht : (Z.to_nat tj < length (theThreads s))%nat) by lia.
      destruct (lookup_lt_is_Some_2 _ _ Ht) as [w Hw].
      assert (Ht' : (Z.to_nat tj < length (wakeup (this s)))%nat) by lia.
      destruct (lookup_lt_is_Some_2 _ _ Ht') as [f Hf].
      pose proof (inv_allowed _ _ _ _ _ _ HI _ w f Hw Hf) as Hal.
      rewrite Hc in Hal. cbn in Hal.
      destruct (w_pc w) eqn:Hpc.
      * destruct f; discriminate Hal.
      * destruct (worker_can_step s _ w f HI Hw Hf) as (e & s' & Hstep).
        { rewrite Hpc. destruct f; [exact I | discriminate Hal]. }
        exists (Work (Z.to_nat tj)), e, s'. exact Hstep.
      * destruct (worker_can_step s _ w f HI Hw Hf) as (e & s' & Hstep).
        { rewrite Hpc. exact I. }
        exists (Work (Z.to_nat tj)), e, s'. exact Hstep.
      * destruct f; discriminate Hal.
      * destruct (worker_can_step s _ w f HI Hw Hf) as (e & s' & Hstep).
        { rewrite Hpc. exact I. }
        exists (Work (Z.to_nat tj)), e, s'. exact Hstep.
      * exists Controller. cbn. unfold controller_step. rewrite Hc.
        rewrite to_uint_small by (unfold INT_MAX, UINT_MOD in *; lia).
        rewrite Hlt, vector_at_lookup, Hw, Hpc by lia. eauto.
    + exists Controller. cbn. unfold controller_step. rewrite Hc.
      rewrite to_uint_small by (unfold INT_MAX, UINT_MOD in *; lia).
      rewrite Hlt. eauto.
  - (* CReturned *)
    left. split; [exact Hc |]. intros t w Hw.
    destruct (Inv_flag s t w HI Hw) as (f & _ & _ & _ & Hal).
    rewrite Hc in Hal. cbn in Hal. destruct (w_pc w); try discriminate Hal.
    reflexivity.
Qed.

(** No deadlock: a state in which nobody can move is a state in which
    [Simulate] has returned and every worker has ended. *)
Lemma stuck_terminated (s : System) :
  Inv s -> (ctl s = CRefresh -> to_uint (refreshSteps (this s)) <> 0) ->
  stuck s -> terminated s.
Proof.
  intros HI Hr Hstuck.
  destruct (progress s HI Hr) as [Ht | (a & e & s' & Hact)].
  - exact Ht.
  - rewrite (Hstuck a) in Hact. discriminate Hact.
Qed.

(** ** The barrier protocol: shutdown *)

Lemma worker_step_measure (t : nat) (s s' : System) (e : Event) :
  simulate (this s) = false -> worker_step t s = Some (e, s') ->
  (measure s' < measure s)%nat /\ simulate (this s') = false.
Proof.
  intros Hsim Hstep. unfold worker_step in Hstep.
  destruct (theThreads s !! t) as [w |] eqn:Hw; [| discriminate].
  unfold measure.
  destruct (w_pc w) eqn:Hpc; try discriminate.
  - unfold WaitForWork in Hstep.
    destruct (vector_at (wakeup (this s)) (w_tid w)) as [[|] |];
      try discriminate.
    injection Hstep as <- <-. cbn.
    pose proof (workers_rank_insert _ t w (with_pc WTestSimulate w) Hw) as Hr.
    rewrite Hpc in Hr. cbn in Hr. unfold workers_rank in *; split; [lia | exact Hsim].
  - rewrite Hsim in Hstep. cbn in Hstep. injection Hstep as <- <-. cbn.
    pose proof (workers_rank_insert _ t w (with_pc (WSignal true) w) Hw) as Hr.
    rewrite Hpc in Hr. cbn in Hr. unfold workers_rank in *; split; [lia | exact Hsim].
  - injection Hstep as <- <-. cbn.
    pose proof (workers_rank_insert _ t w (with_pc (WSignal false) w) Hw) as Hr.
    rewrite Hpc in Hr. cbn in Hr. unfold workers_rank in *; split; [lia | exact Hsim].
  - injection Hstep as <- <-. cbn.
    pose proof (workers_rank_insert _ t w
                  (with_pc (if leaving then WFinished else WWaitForWork) w) Hw)
      as Hr.
    rewrite Hpc in Hr. destruct leaving; cbn in Hr; (unfold workers_rank in *; split; [lia | exact Hsim]).
Qed.

Lemma controller_step_measure (s s' : System) (e : Event) :
  Inv s -> simulate (this s) = false -> controller_step s = Some (e, s') ->
  (measure s' < measure s)%nat /\ simulate (this s') = false.
Proof.
  intros HI Hsim Hstep. unfold controller_step in Hstep.
  pose proof (inv_N _ _ _ _ _ _ HI) as HN.
  unfold measure.
  destruct (ctl s) as [| | | | | | tj |] eqn:Hc.
  - injection Hstep as <- <-. cbn. unfold workers_rank in *; split; [lia | exact Hsim].
  - unfold WaitForData in Hstep.
    destruct (processed (this s) =? to_int (numThreads (this s)));
      [| discriminate].
    injection Hstep as <- <-. cbn. unfold workers_rank in *; split; [lia | exact Hsim].
  - rewrite Hsim in Hstep. cbn in Hstep. injection Hstep as <- <-. cbn.
    unfold workers_rank in *; split; [lia | exact Hsim].
  - injection Hstep as <- <-. cbn. unfold workers_rank in *; split; [lia | exact Hsim].
  - destruct (refresh_due (this s) (step s)) as [due |]; [| discriminate].
    injection Hstep as <- <-. cbn [this ctl theThreads].
    destruct due; cbn; (unfold workers_rank in *; split; [lia | exact Hsim]).
  - injection Hstep as <- <-. cbn. unfold workers_rank in *; split; [lia | exact Hsim].
  - pose proof (inv_join _ _ _ _ _ _ HI) as Hj. rewrite Hc in Hj.
    destruct Hj as [Htj _].
    rewrite to_uint_small in Hstep by (unfold INT_MAX, UINT_MOD in *; lia).
    destruct (tj <? numThreads (this s)) eqn:Hlt.
    + destruct (vector_at (theThreads s) tj) as [w |]; [| discriminate].
      rewrite to_uint_small in Hstep by (unfold INT_MAX, UINT_MOD in *; lia).
      destruct (w_pc w); try discriminate;
        injection Hstep as <- <-; cbn; (unfold workers_rank in *; split; [lia | exact Hsim]).
    + injection Hstep as <- <-. cbn. unfold workers_rank in *; split; [lia | exact Hsim].
  - discriminate.
Qed.

Lemma act_measure (a : Actor) (s s' : System) (e : Event) :
  Inv s -> simulate (this s) = false -> act a s = Some (e, s') ->
  (measure s' < measure s)%nat /\ simulate (this s') = false.
Proof.
  intros HI Hsim. destruct a as [| t |]; cbn [act].
  - apply controller_step_measure; assumption.
  - apply worker_step_measure; assumption.
  - unfold user_step. rewrite Hsim. discriminate.
Qed.

(** Once [simulate] is false a run cannot be longer than the measure. *)
Lemma run_bounded (sched : list Actor) (s s' : System) (es : list Event) :
  Inv s -> simulate (this s) = false -> run sched s = Some (es, s') ->
  (length sched + measure s' <= measure s)%nat /\ simulate (this s') = false.
Proof.
  revert s es. induction sched as [|a sched IH]; intros s es HI Hsim Hrun.
  - cbn in Hrun. injection Hrun as <- <-. cbn. split; [lia | exact Hsim].
  - cbn [run] in Hrun.
    destruct (act a s) as [[e s1] |] eqn:Hact; [| discriminate].
    destruct (run sched s1) as [[es1 s2] |] eqn:Hrun1; [| discriminate].
    injection Hrun as <- <-.
    destruct (act_measure a s s1 e HI Hsim Hact) as [Hlt Hsim1].
    destruct (IH s1 es1 (act_Inv a s s1 e HI Hact) Hsim1 Hrun1) as [Hle Hsim2].
    cbn [length]. split; [lia | exact Hsim2].
Qed.

Lemma measure_bound (s : System) :
  Inv s -> (measure s <= 6 * Z.to_nat (numThreads (this s)) + 7)%nat.
Proof.
  intros HI. unfold measure.
  pose proof (workers_rank_bound (theThreads s)) as Hw.
  rewrite (inv_threads _ _ _ _ _ _ HI) in Hw.
  pose proof (inv_join _ _ _ _ _ _ HI) as Hj.
  destruct (ctl s); cbn; try lia.
Qed.

(** The controller is not between the test of line 147 and the test of
    line 152. *)
Definition past_refresh (c : ControllerPc) : bool :=
  match c with
  | CSwap | CRefresh => false
  | _ => true
  end.

(** Once [simulate] is false, a controller that is not on its way to line
    152 does not get there any more. *)
Lemma act_past_refresh (a : Actor) (s s' : System) (e : Event) :
  simulate (this s) = false -> past_refresh (ctl s) = true ->
  act a s = Some (e, s') -> past_refresh (ctl s') = true.
Proof.
  intros Hsim Hpast Hact. destruct a as [| t |]; cbn [act] in Hact.
  - unfold controller_step in Hact. rewrite Hsim in Hact.
    cbn [negb] in Hact.
    destruct (ctl s); try discriminate Hpast; step_cases Hact;
      injection Hact as <- <-; reflexivity.
  - destruct (worker_step_event _ _ _ _ Hact) as (_ & -> & _). exact Hpast.
  - destruct (user_step_event _ _ _ Hact) as (_ & -> & _). exact Hpast.
Qed.

Lemma run_past_refresh (sched : list Actor) (s s' : System)
    (es : list Event) :
  Inv s -> simulate (this s) = false -> past_refresh (ctl s) = true ->
  run sched s = Some (es, s') -> past_refresh (ctl s') = true.
Proof.
  revert s es. induction sched as [|a sched IH]; intros s es HI Hsim Hpast Hrun.
  - cbn in Hrun. injection Hrun as <- <-. exact Hpast.
  - cbn [run] in Hrun.
    destruct (act a s) as [[e s1] |] eqn:Hact; [| discriminate].
    destruct (run sched s1) as [[es1 s2] |] eqn:Hrun1; [| discriminate].
    injection Hrun as <- <-.
    destruct (act_measure a s s1 e HI Hsim Hact) as [_ Hsim1].
    apply (IH s1 es1 (act_Inv a s s1 e HI Hact) Hsim1
             (act_past_refresh a s s1 e Hsim Hpast Hact) Hrun1).
Qed.

Lemma past_refresh_defined (s : System) :
  past_refresh (ctl s) = true ->
  ctl s = CRefresh -> to_uint (refreshSteps (this s)) <> 0.
Proof. intros Hpast Hc. rewrite Hc in Hpast. discriminate Hpast. Qed.

(** Some run ends with [Simulate] returned and every worker ended. *)
Lemma shutdown_reached (n : nat) :
  forall s : System,
    Inv s -> past_refresh (ctl s) = true ->
    simulate (this s) = false -> (measure s <= n)%nat ->
    exists sched es s', run sched s = Some (es, s') /\ terminated s'.
Proof.
  induction n as [|n IH]; intros s HI Hpast Hsim Hm.
  - destruct (progress s HI (past_refresh_defined s Hpast))
      as [Ht | (a & e & s1 & Hact)].
    + exists [], [], s. split; [reflexivity | exact Ht].
    + destruct (act_measure a s s1 e HI Hsim Hact) as [Hlt _]. lia.
  - destruct (progress s HI (past_refresh_defined s Hpast))
      as [Ht | (a & e & s1 & Hact)].
    + exists [], [], s. split; [reflexivity | exact Ht].
    + destruct (act_measure a s s1 e HI Hsim Hact) as [Hlt Hsim1].
      destruct (IH s1 (act_Inv a s s1 e HI Hact)
                  (act_past_refresh a s s1 e Hsim Hpast Hact) Hsim1
                  ltac:(lia))
        as (sched & es & s2 & Hrun & Ht).
      exists (a :: sched), (e :: es), s2. split; [| exact Ht].
      cbn [run]. rewrite Hact, Hrun. reflexivity.
Qed.

(** [Simulate] has returned only if every worker thread has ended. *)
Lemma returned_all_ended (s : System) :
  Inv s -> ctl s = CReturned ->
  forall t w, theThreads s !! t = Some w -> w_pc w = WFinished.
Proof.
  intros HI Hc t w Hw.
  destruct (Inv_flag s t w HI Hw) as (f & _ & _ & _ & Hal).
  rewrite Hc in Hal. cbn in Hal. destruct (w_pc w); try discriminate Hal.
  reflexivity.
Qed.

(** The controller gets past [theThreads[t].join()] only if the thread of
    worker [t] has ended. *)
Lemma join_waits (a : Actor) (s s' : System) (tj : Z) :
  Inv s -> act a s = Some (CtlJoin tj, s') ->
  a = Controller /\ ctl s = CJoin tj /\
  exists w, vector_at (theThreads s) tj = Some w /\ w_pc w = WFinished.
Proof.
  intros HI Hact. destruct a as [| t |]; cbn [act] in Hact.
  - split; [reflexivity |]. unfold controller_step in Hact.
    destruct (ctl s) as [| | | | | | t0 |] eqn:Hc; step_cases Hact;
      injection Hact as <- <-.
    + (* a default-constructed thread object: excluded by the invariant *)
      pose proof (inv_join _ _ _ _ _ _ HI) as Hj. rewrite Hc in Hj.
      destruct Hj as [Ht0 _].
      match goal with
      | Hv : vector_at (theThreads s) t0 = Some ?w |- _ =>
          rewrite vector_at_lookup in Hv by lia;
          destruct (Inv_flag s _ w HI Hv) as (f & _ & _ & _ & Hal)
      end.
      rewrite Hc in Hal.
      match goal with
      | Hpc : w_pc _ = WNotAThread |- _ => rewrite Hpc in Hal
      end.
      destruct f; discriminate Hal.
    + split; [reflexivity |]. eauto.
  - destruct (worker_step_event _ _ _ _ Hact) as [He _]. discriminate He.
  - destruct (user_step_event _ _ _ Hact) as [He _]. discriminate He.
Qed.

(** A worker's transition when [simulate] is false: the head of its
    script, leaving the tail. *)
Lemma worker_step_script (t : nat) (s s' : System) (e : Event) :
  simulate (this s) = false -> worker_step t s = Some (e, s') ->
  exists w pc',
    theThreads s !! t = Some w /\
    theThreads s' = <[t := with_pc pc' w]> (theThreads s) /\
    event_tid e = Some (w_tid w) /\
    script (w_pc w) (w_tid w) = e :: script pc' (w_tid w).
Proof.
  intros Hsim Hstep. unfold worker_step in Hstep.
  destruct (theThreads s !! t) as [w |] eqn:Hw; [| discriminate].
  exists w.
  destruct (w_pc w) eqn:Hpc; try discriminate.
  - unfold WaitForWork in Hstep.
    destruct (vector_at (wakeup (this s)) (w_tid w)) as [[|] |];
      try discriminate.
    injection Hstep as <- <-. exists WTestSimulate. repeat split.
  - rewrite Hsim in Hstep. cbn in Hstep. injection Hstep as <- <-.
    exists (WSignal true). repeat split.
  - injection Hstep as <- <-. exists (WSignal false). repeat split.
  - injection Hstep as <- <-.
    exists (if leaving then WFinished else WWaitForWork).
    destruct leaving; repeat split.
Qed.

Lemma controller_step_threads (s s' : System) (e : Event) :
  controller_step s = Some (e, s') ->
  theThreads s' = theThreads s /\ event_tid e = None.
Proof.
  unfold controller_step. intros Hstep.
  step_cases Hstep; injection Hstep as <- <-; split; reflexivity.
Qed.

(** Once [simulate] is false, the events of each worker in any run are
    the part of its script that it has left behind. *)
Lemma run_script (sched : list Actor) :
  forall (s s' : System) (es : list Event),
    Inv s -> simulate (this s) = false -> run sched s = Some (es, s') ->
    forall t w, theThreads s !! t = Some w ->
      exists w', theThreads s' !! t = Some w' /\ w_tid w' = w_tid w /\
        script (w_pc w) (w_tid w) =
        worker_events (w_tid w) es ++ script (w_pc w') (w_tid w).
Proof.
  induction sched as [|a sched IH]; intros s s' es HI Hsim Hrun t w Hw.
  - cbn in Hrun. injection Hrun as <- <-. exists w. repeat split. exact Hw.
  - cbn [run] in Hrun.
    destruct (act a s) as [[e s1] |] eqn:Hact; [| discriminate].
    destruct (run sched s1) as [[es1 s2] |] eqn:Hrun1; [| discriminate].
    injection Hrun as <- <-.
    pose proof (act_Inv a s s1 e HI Hact) as HI1.
    destruct (act_measure a s s1 e HI Hsim Hact) as [_ Hsim1].
    unfold worker_events. cbn [List.filter].
    destruct a as [| t0 |]; cbn [act] in Hact.
    + destruct (controller_step_threads _ _ _ Hact) as [Hth ->].
      apply (IH s1 s2 es1 HI1 Hsim1 Hrun1 t w). rewrite Hth. exact Hw.
    + destruct (worker_step_script t0 s s1 e Hsim Hact)
        as (w0 & pc' & Hw0 & Hth & -> & Hscript).
      destruct (decide (t0 = t)) as [-> | Hne].
      * assert (w0 = w) as -> by congruence.
        rewrite Z.eqb_refl, Hscript.
        destruct (IH s1 s2 es1 HI1 Hsim1 Hrun1 t (with_pc pc' w))
          as (w' & Hw' & Htid' & Heq).
        { rewrite Hth. apply list_lookup_insert_eq.
          apply lookup_lt_is_Some. eauto. }
        exists w'. split; [exact Hw' |]. split; [exact Htid' |].
        cbn [w_pc w_tid with_pc] in Heq. rewrite Heq. reflexivity.
      * pose proof (inv_tid _ _ _ _ _ _ HI t0 w0 Hw0) as Htid0.
        pose proof (inv_tid _ _ _ _ _ _ HI t w Hw) as Htid.
        destruct (w_tid w0 =? w_tid w) eqn:E; [lia |].
        apply (IH s1 s2 es1 HI1 Hsim1 Hrun1 t w).
        rewrite Hth, list_lookup_insert_ne by exact Hne. exact Hw.
    + unfold user_step in Hact. rewrite Hsim in Hact. discriminate.
Qed.

(** Wake/done cycles the controller can still complete once [simulate] is
    false: one if it has not passed [WaitForData()] yet, none afterwards. *)
Definition cycles_left (c : ControllerPc) : nat :=
  match c with
  | CSwap | CRefresh | CWakeUp | CWaitForData => 1
  | _ => 0
  end.

Definition is_CtlWaitForData (e : Event) : bool :=
  match e with CtlWaitForData => true | _ => false end.

Lemma controller_step_simulate (s s' : System) (e : Event) :
  controller_step s = Some (e, s') -> simulate (this s') = simulate (this s).
Proof.
  unfold controller_step, WaitForData. intros Hstep.
  destruct (ctl s); try discriminate Hstep.
  - injection Hstep as <- <-. reflexivity.
  - destruct (processed (this s) =? to_int (numThreads (this s)));
      [| discriminate].
    injection Hstep as <- <-. reflexivity.
  - destruct (negb (simulate (this s))); injection Hstep as <- <-; reflexivity.
  - injection Hstep as <- <-. reflexivity.
  - destruct (refresh_due (this s) (step s)) as [[|] |]; try discriminate;
      injection Hstep as <- <-; reflexivity.
  - injection Hstep as <- <-. reflexivity.
  - step_cases Hstep; injection Hstep as <- <-; reflexivity.
Qed.

Lemma run_cycles (sched : list Actor) :
  forall (s s' : System) (es : list Event),
    simulate (this s) = false -> run sched s = Some (es, s') ->
    (length (List.filter is_CtlWaitForData es) + cycles_left (ctl s')
     <= cycles_left (ctl s))%nat /\ simulate (this s') = false.
Proof.
  induction sched as [|a sched IH]; intros s s' es Hsim Hrun.
  - cbn in Hrun. injection Hrun as <- <-. cbn. split; [lia | exact Hsim].
  - cbn [run] in Hrun.
    destruct (act a s) as [[e s1] |] eqn:Hact; [| discriminate].
    destruct (run sched s1) as [[es1 s2] |] eqn:Hrun1; [| discriminate].
    injection Hrun as <- <-. cbn [List.filter].
    assert (Hstep : (length (if is_CtlWaitForData e then [e] else [])
                     + cycles_left (ctl s1) <= cycles_left (ctl s))%nat
                    /\ simulate (this s1) = false).
    { destruct a as [| t0 |]; cbn [act] in Hact.
      - split; [| rewrite (controller_step_simulate _ _ _ Hact); exact Hsim].
        unfold controller_step in Hact.
        destruct (ctl s) eqn:Hc; step_cases Hact;
          try (rewrite Hsim in *; discriminate);
          injection Hact as <- <-; cbn; lia.
      - destruct (worker_step_event _ _ _ _ Hact) as (He & Hctl & _).
        rewrite Hctl. split.
        + destruct e; try discriminate He; cbn; lia.
        + apply (worker_step_measure _ _ _ _ Hsim Hact).
      - unfold user_step in Hact. rewrite Hsim in Hact. discriminate. }
    destruct Hstep as [Hle Hsim1].
    destruct (IH s1 s2 es1 Hsim1 Hrun1) as [Hle1 Hsim2].
    split; [| exact Hsim2].
    destruct (is_CtlWaitForData e); cbn [length] in *; lia.
Qed.

(** C2.  Let [Simulate()] run with [numThreads >= 1] workers, let
    [simulate] be false and let the controller be about to issue a wake
    (the [WakeUp()] of line 145 or of line 156).  Then every worker is
    inside [WaitForWork] or has ended already, and in every run from there:
    the actions of each worker are the beginning of its script, which for a
    worker inside [WaitForWork] is: return from [WaitForWork], find
    [simulate] false, call [SignalMoreData()] once, and end (no pass over
    its columns, no further [WaitForWork]); the controller completes at most
    one more wake-up/[WaitForData] cycle; at most [6 * numThreads + 7]
    transitions are made; the controller gets past the [join()] of a worker
    only when that worker's thread has ended, and [Simulate()] has returned
    only when every worker has ended; and there is no deadlock: a state in
    which nobody can move is one where [Simulate()] has returned after
    joining every worker, each worker having run its script to the end.
    Such a state is reached. *)
Theorem shutdown (L0 : Lattice) (s0 s : System) (sched0 : list Actor)
    (es0 : list Event) :
  1 <= numThreads L0 <= INT_MAX ->
  Simulate_start L0 = Some s0 ->
  run sched0 s0 = Some (es0, s) ->
  simulate (this s) = false ->
  ctl s = CWakeUp \/ ctl s = CFinalWakeUp ->
  (forall t w, theThreads s !! t = Some w ->
     w_pc w = WWaitForWork \/ w_pc w = WFinished) /\
  (forall sched es s',
     run sched s = Some (es, s') ->
     (length sched <= 6 * Z.to_nat (numThreads L0) + 7)%nat /\
     (length (List.filter is_CtlWaitForData es) <= 1)%nat /\
     (stuck s' -> terminated s') /\
     (ctl s' = CReturned ->
      forall t w, theThreads s' !! t = Some w -> w_pc w = WFinished) /\
     (forall a tj s'',
        act a s' = Some (CtlJoin tj, s'') ->
        exists w, vector_at (theThreads s') tj = Some w /\
                  w_pc w = WFinished) /\
     length (theThreads s') = Z.to_nat (numThreads L0) /\
     forall t w, theThreads s !! t = Some w ->
       worker_events (w_tid w) es `prefix_of` script (w_pc w) (w_tid w) /\
       (terminated s' ->
        worker_events (w_tid w) es = script (w_pc w) (w_tid w))) /\
  (forall tid,
     script WWaitForWork tid =
       [WrkWaitForWork tid; WrkStop tid; WrkSignalMoreData tid true] /\
     script WFinished tid = []) /\
  (exists sched es s', run sched s = Some (es, s') /\ terminated s').
Proof.
  intros HN Hstart Hrun0 Hsim Hwake.
  destruct (Simulate_start_Inv L0 s0 HN Hstart) as (HI0 & _ & _ & HN0 & _).
  pose proof (run_Inv sched0 s0 s es0 HI0 Hrun0) as HI.
  assert (HNs : numThreads (this s) = numThreads L0)
    by (rewrite (run_numThreads _ _ _ _ Hrun0); exact HN0).
  assert (Hpast : past_refresh (ctl s) = true)
    by (destruct Hwake as [-> | ->]; reflexivity).
  split; [| split; [| split; [split; reflexivity |]]].
  - intros t w Hw.
    destruct (Inv_flag s t w HI Hw) as (f & _ & _ & _ & Hal).
    destruct Hwake as [Hc | Hc]; rewrite Hc in Hal; cbn in Hal;
      destruct (w_pc w) as [| | | | [|] |]; destruct f;
      first [discriminate Hal | left; reflexivity | right; reflexivity].
  - intros sched es s' Hrun.
    pose proof (run_Inv sched s s' es HI Hrun) as HI'.
    destruct (run_bounded sched s s' es HI Hsim Hrun) as [Hlen _].
    pose proof (measure_bound s HI) as Hm. rewrite HNs in Hm.
    destruct (run_cycles sched s s' es Hsim Hrun) as [Hcyc _].
    split; [lia |].
    split; [destruct (ctl s); cbn in Hcyc; lia |].
    split.
    { apply stuck_terminated; [exact HI' |].
      apply past_refresh_defined.
      apply (run_past_refresh sched s s' es HI Hsim Hpast Hrun). }
    split; [apply (returned_all_ended s' HI') |].
    split.
    { intros a tj s'' Hact.
      apply (join_waits a s' s'' tj HI' Hact). }
    split.
    { rewrite (inv_threads _ _ _ _ _ _ HI').
      rewrite (run_numThreads _ _ _ _ Hrun), HNs. reflexivity. }
    intros t w Hw.
    destruct (run_script sched s s' es HI Hsim Hrun t w Hw)
      as (w' & Hw' & _ & Heq).
    split.
    + rewrite Heq. exists (script (w_pc w') (w_tid w)). reflexivity.
    + intros [_ Hfin]. rewrite (Hfin t w' Hw') in Heq.
      cbn [script] in Heq. rewrite app_nil_r in Heq. symmetry. exact Heq.
  - apply (shutdown_reached (measure s) s HI Hpast Hsim). lia.
Qed.

End Protocol.


Lemma run_eq `{CellMethods} `{KernelMethods} (sched : list Actor) (s : System) :
  runs sched s = true ->
  run sched s = Some (events_of sched s, state_after sched s).
Proof.
  unfold runs, events_of, state_after.
  destruct (run sched s) as [[es s'] |]; [reflexivity | discriminate].
Qed.

(** One full step of two workers, after which the user clears [simulate]:
    the controller is about to issue the wake of line 145. *)
Definition step_then_stop : list Actor :=
  [Controller; Work 0; Work 0; Work 0; Work 0; Work 1; Work 1; Work 1; Work 1;
   Controller; Controller; Controller; Controller; User].

(** From there: the wake, both workers leave, the controller returns from
    [WaitForData], breaks out of its loop, wakes again, joins both workers
    and returns. *)
Definition last_cycle : list Actor :=
  [Controller; Work 0; Work 0; Work 0; Work 1; Work 1; Work 1;
   Controller; Controller; Controller; Controller; Controller; Controller].

Definition stopped_at_wake : System :=
  @state_after D2Q9.methods D2Q9.idle_kernel step_then_stop D2Q9.entered.

Definition last_cycle_events : list Event :=
  @events_of D2Q9.methods D2Q9.idle_kernel last_cycle stopped_at_wake.

Definition last_cycle_end : System :=
  @state_after D2Q9.methods D2Q9.idle_kernel last_cycle stopped_at_wake.

(** [shutdown] for two workers, the user clearing [simulate] after one
    step, when the controller is about to wake the workers. *)
Lemma shutdown_witness :
  (1 <= numThreads D2Q9.two_threads <= INT_MAX /\
   @Simulate_start D2Q9.methods D2Q9.two_threads = Some D2Q9.entered /\
   @runs D2Q9.methods D2Q9.idle_kernel step_then_stop D2Q9.entered = true /\
   simulate (this stopped_at_wake) = false /\
   ctl stopped_at_wake = CWakeUp) /\
  @runs D2Q9.methods D2Q9.idle_kernel last_cycle stopped_at_wake = true /\
  ctl last_cycle_end = CReturned /\
  (forall t w, theThreads last_cycle_end !! t = Some w ->
     w_pc w = WFinished) /\
  worker_events 0 last_cycle_events
    = [WrkWaitForWork 0; WrkStop 0; WrkSignalMoreData 0 true] /\
  worker_events 1 last_cycle_events
    = [WrkWaitForWork 1; WrkStop 1; WrkSignalMoreData 1 true] /\
  (length last_cycle <= 6 * Z.to_nat (numThreads D2Q9.two_threads) + 7)%nat /\
  (length (List.filter is_CtlWaitForData last_cycle_events) <= 1)%nat.
Proof.
  assert (HN : 1 <= numThreads D2Q9.two_threads <= INT_MAX)
    by (cbn; unfold INT_MAX; lia).
  assert (Hne : numThreads D2Q9.two_threads <> 0) by (cbn; lia).
  pose proof (@Simulate_start_eq D2Q9.methods D2Q9.two_threads Hne) as Hstart.
  change (@Simulate_start D2Q9.methods D2Q9.two_threads = Some D2Q9.entered)
    in Hstart.
  assert (Hruns0 : @runs D2Q9.methods D2Q9.idle_kernel step_then_stop
                     D2Q9.entered = true)
    by (vm_compute; reflexivity).
  assert (Hsim : simulate (this stopped_at_wake) = false)
    by (vm_compute; reflexivity).
  assert (Hctl : ctl stopped_at_wake = CWakeUp) by (vm_compute; reflexivity).
  assert (Hruns : @runs D2Q9.methods D2Q9.idle_kernel last_cycle
                    stopped_at_wake = true)
    by (vm_compute; reflexivity).
  assert (Hend : ctl last_cycle_end = CReturned) by (vm_compute; reflexivity).
  pose proof (@shutdown D2Q9.methods D2Q9.idle_kernel D2Q9.two_threads
                D2Q9.entered stopped_at_wake step_then_stop _ HN Hstart
                (@run_eq D2Q9.methods D2Q9.idle_kernel _ _ Hruns0) Hsim
                (or_introl Hctl))
    as (_ & Hall & _ & _).
  destruct (Hall last_cycle last_cycle_events last_cycle_end
              (@run_eq D2Q9.methods D2Q9.idle_kernel _ _ Hruns))
    as (Hlen & Hcyc & _ & Hret & _).
  split.
  { split; [exact HN |]. split; [exact Hstart |]. split; [exact Hruns0 |].
    split; [exact Hsim | exact Hctl]. }
  split; [exact Hruns |].
  split; [exact Hend |].
  split; [exact (Hret Hend) |].
  split; [vm_compute; reflexivity |].
  split; [vm_compute; reflexivity |].
  split; [exact Hlen | exact Hcyc].
Defined.

(** ** The barrier protocol: the contract of each call *)

Lemma WaitForWork_returns (tid : Z) (L L' : Lattice) :
  WaitForWork tid L = Returns L' <->
  vector_at (wakeup L) tid = Some true /\
  L' = with_wakeup (vector_set (wakeup L) tid false) L.
Proof.
  unfold WaitForWork. split.
  - destruct (vector_at (wakeup L) tid) as [[|] |]; try discriminate.
    intros Heq. injection Heq as <-. split; reflexivity.
  - intros [-> ->]. reflexivity.
Qed.

Lemma WaitForData_returns (L L' : Lattice) :
  WaitForData L = Returns L' <->
  processed L = to_int (numThreads L) /\ L' = with_processed 0 L.
Proof.
  unfold WaitForData. split.
  - destruct (processed L =? to_int (numThreads L)) eqn:E; [| discriminate].
    intros Heq. injection Heq as <-. split; [lia | reflexivity].
  - intros [-> ->]. rewrite Z.eqb_refl. reflexivity.
Qed.

Section Barrier.
Context `{CellMethods} `{KernelMethods}.

Lemma act_CtlWakeUp (a : Actor) (s s' : System) :
  act a s = Some (CtlWakeUp, s') -> this s' = WakeUp (this s).
Proof.
  destruct a as [| t |]; cbn [act]; intros Hstep.
  - unfold controller_step in Hstep.
    step_cases Hstep; injection Hstep as <-; reflexivity.
  - destruct (worker_step_event _ _ _ _ Hstep) as [He _]. discriminate He.
  - destruct (user_step_event _ _ _ Hstep) as [He _]. discriminate He.
Qed.

Lemma act_CtlWaitForData (a : Actor) (s s' : System) :
  act a s = Some (CtlWaitForData, s') ->
  WaitForData (this s) = Returns (this s').
Proof.
  destruct a as [| t |]; cbn [act]; intros Hstep.
  - unfold controller_step in Hstep.
    step_cases Hstep; injection Hstep as <-; reflexivity.
  - destruct (worker_step_event _ _ _ _ Hstep) as [He _]. discriminate He.
  - destruct (user_step_event _ _ _ Hstep) as [He _]. discriminate He.
Qed.

Lemma act_WrkWaitForWork (a : Actor) (s s' : System) (tid : Z) :
  act a s = Some (WrkWaitForWork tid, s') ->
  exists t w, a = Work t /\ theThreads s !! t = Some w /\ w_tid w = tid /\
              WaitForWork tid (this s) = Returns (this s').
Proof.
  destruct a as [| t |]; cbn [act]; intros Hstep.
  - pose proof (controller_step_event _ _ _ Hstep) as He. discriminate He.
  - exists t. unfold worker_step in Hstep.
    destruct (theThreads s !! t) as [w |] eqn:Hw; [| discriminate].
    exists w. unfold WaitForWork in *.
    destruct (w_pc w); try discriminate Hstep.
    + destruct (vector_at (wakeup (this s)) (w_tid w)) as [[|] |] eqn:E;
        try discriminate Hstep.
      injection Hstep as <- <-. cbn. rewrite E. repeat split.
    + destruct (negb (simulate (this s))); discriminate Hstep.
  - unfold user_step in Hstep.
    destruct (simulate (this s)); [| discriminate]. discriminate Hstep.
Qed.

(** C1.  In every state that a running [Simulate()] with
    [numThreads >= 1] workers can reach, and for every transition made
    there: a [WakeUp()] leaves every wake flag true; [WaitForWork(tid)]
    returns only for a thread id [0 <= tid < numThreads] whose flag
    [wakeup[tid]] is true, it leaves that flag false and the other flags as
    they were, so that a second [WaitForWork(tid)] blocks until the next
    [WakeUp()]; [WaitForData()] returns only when [processed] equals
    [numThreads], and leaves [processed] at 0.  Conversely [WaitForWork(tid)]
    does return when the flag is true, and [WaitForData()] when the counter
    has reached [numThreads]. *)
Theorem barrier_protocol (L0 : Lattice) (s0 s s' : System)
    (sched : list Actor) (es : list Event) (a : Actor) (e : Event) :
  1 <= numThreads L0 <= INT_MAX ->
  Simulate_start L0 = Some s0 ->
  run sched s0 = Some (es, s) ->
  act a s = Some (e, s') ->
  (e = CtlWakeUp ->
     forall tid, 0 <= tid < numThreads L0 ->
       vector_at (wakeup (this s')) tid = Some true) /\
  (forall tid, e = WrkWaitForWork tid ->
     0 <= tid < numThreads L0 /\
     vector_at (wakeup (this s)) tid = Some true /\
     vector_at (wakeup (this s')) tid = Some false /\
     (forall tid', 0 <= tid' -> tid' <> tid ->
        vector_at (wakeup (this s')) tid' = vector_at (wakeup (this s)) tid') /\
     WaitForWork tid (this s') = Blocks) /\
  (e = CtlWaitForData ->
     processed (this s) = numThreads L0 /\ processed (this s') = 0) /\
  (forall tid, 0 <= tid < numThreads L0 ->
     (vector_at (wakeup (this s)) tid = Some true <->
      exists L', WaitForWork tid (this s) = Returns L')) /\
  (processed (this s) = numThreads L0 <->
   exists L', WaitForData (this s) = Returns L').
Proof.
  intros HN Hstart Hrun Hact.
  destruct (Simulate_start_Inv L0 s0 HN Hstart) as (HI0 & _ & _ & HN0 & _).
  pose proof (run_Inv sched s0 s es HI0 Hrun) as HI.
  assert (HNs : numThreads (this s) = numThreads L0)
    by (rewrite (run_numThreads _ _ _ _ Hrun); exact HN0).
  pose proof (inv_flags _ _ _ _ _ _ HI) as Hfs. rewrite HNs in Hfs.
  pose proof (inv_threads _ _ _ _ _ _ HI) as Hws. rewrite HNs in Hws.
  split; [| split; [| split; [| split]]].
  - intros -> tid Htid. rewrite (act_CtlWakeUp a s s' Hact), WakeUp_wakeup.
    rewrite vector_at_lookup by lia. apply lookup_replicate_2. lia.
  - intros tid ->.
    destruct (act_WrkWaitForWork a s s' tid Hact)
      as (t & w & -> & Hw & Htid & Hret).
    apply WaitForWork_returns in Hret. destruct Hret as [Hflag Hs'].
    pose proof (inv_tid _ _ _ _ _ _ HI t w Hw) as Ht.
    assert (Hrange : 0 <= tid < numThreads L0).
    { apply lookup_lt_Some in Hw. lia. }
    assert (Hafter : vector_at (wakeup (this s')) tid = Some false).
    { rewrite Hs'. cbn [wakeup with_wakeup]. apply vector_at_set_eq. lia. }
    split; [exact Hrange |]. split; [exact Hflag |].
    split; [exact Hafter |]. split.
    + intros tid' Hpos Hne. rewrite Hs'. cbn [wakeup with_wakeup].
      apply vector_at_set_ne; lia.
    + unfold WaitForWork. rewrite Hafter. reflexivity.
  - intros ->. apply act_CtlWaitForData in Hact.
    apply WaitForData_returns in Hact. destruct Hact as [Hp ->].
    rewrite HNs, to_int_small in Hp by (unfold INT_MAX in *; lia).
    split; [exact Hp | reflexivity].
  - intros tid Htid. split.
    + intros Hflag. eexists. apply WaitForWork_returns.
      split; [exact Hflag | reflexivity].
    + intros [L' Hret]. apply WaitForWork_returns in Hret. apply Hret.
  - split.
    + intros Hp. eexists. apply WaitForData_returns.
      rewrite HNs, to_int_small by (unfold INT_MAX in *; lia).
      split; [exact Hp | reflexivity].
    + intros [L' Hret]. apply WaitForData_returns in Hret.
      destruct Hret as [Hp _].
      rewrite HNs, to_int_small in Hp by (unfold INT_MAX in *; lia).
      exact Hp.
Qed.

End Barrier.

Lemma act_eq `{CellMethods} `{KernelMethods} (a : Actor) (s : System) :
  acts a s = true -> act a s = Some (act_event a s, act_state a s).
Proof.
  unfold acts, act_event, act_state.
  destruct (act a s) as [[e s'] |]; [reflexivity | discriminate].
Qed.

(** [barrier_protocol] for two workers, at the first return of worker 0
    from [WaitForWork]. *)
Lemma barrier_protocol_witness :
  (1 <= numThreads D2Q9.two_threads <= INT_MAX /\
   @Simulate_start D2Q9.methods D2Q9.two_threads = Some D2Q9.entered /\
   @runs D2Q9.methods D2Q9.idle_kernel [Controller] D2Q9.entered = true /\
   @acts D2Q9.methods D2Q9.idle_kernel (Work 0) D2Q9.woken = true /\
   @act_event D2Q9.methods D2Q9.idle_kernel (Work 0) D2Q9.woken
     = WrkWaitForWork 0) /\
  vector_at (wakeup (this D2Q9.woken)) 0 = Some true /\
  vector_at (wakeup (this D2Q9.worker0_returned)) 0 = Some false /\
  WaitForWork 0 (this D2Q9.worker0_returned) = Blocks.
Proof.
  assert (HN : 1 <= numThreads D2Q9.two_threads <= INT_MAX)
    by (cbn; unfold INT_MAX; lia).
  assert (Hne : numThreads D2Q9.two_threads <> 0) by (cbn; lia).
  pose proof (@Simulate_start_eq D2Q9.methods D2Q9.two_threads Hne) as Hstart.
  change (@Simulate_start D2Q9.methods D2Q9.two_threads = Some D2Q9.entered)
    in Hstart.
  assert (Hruns : @runs D2Q9.methods D2Q9.idle_kernel [Controller]
                    D2Q9.entered = true)
    by (vm_compute; reflexivity).
  assert (Hacts : @acts D2Q9.methods D2Q9.idle_kernel (Work 0) D2Q9.woken
                  = true)
    by (vm_compute; reflexivity).
  assert (Hev : @act_event D2Q9.methods D2Q9.idle_kernel (Work 0) D2Q9.woken
                = WrkWaitForWork 0)
    by (vm_compute; reflexivity).
  pose proof (@barrier_protocol D2Q9.methods D2Q9.idle_kernel D2Q9.two_threads
                D2Q9.entered D2Q9.woken D2Q9.worker0_returned [Controller]
                _ (Work 0) _ HN Hstart
                (@run_eq D2Q9.methods D2Q9.idle_kernel _ _ Hruns)
                (@act_eq D2Q9.methods D2Q9.idle_kernel _ _ Hacts))
    as (_ & Hwait & _).
  destruct (Hwait 0 Hev) as (_ & Hbefore & Hafter & _ & Hblocks).
  split.
  { split; [exact HN |]. split; [exact Hstart |].
    split; [exact Hruns |]. split; [exact Hacts | exact Hev]. }
  split; [exact Hbefore |]. split; [exact Hafter | exact Hblocks].
Defined.

(** [extraction_cadence] in iteration 2010 with [refreshSteps = 10]:
    [GetResults()] is called. *)
Lemma extraction_cadence_witness :
  (ctl D2Q9.at_refresh = CRefresh /\
   0 < refreshSteps (this D2Q9.at_refresh) < UINT_MOD) /\
  exists s', @controller_step D2Q9.methods D2Q9.at_refresh
             = Some (CtlGetResults, s').
Proof.
  assert (Hc : ctl D2Q9.at_refresh = CRefresh) by reflexivity.
  assert (Hr : 0 < refreshSteps (this D2Q9.at_refresh) < UINT_MOD)
    by (cbn; unfold UINT_MOD; lia).
  split; [split; assumption |].
  destruct (proj1 (@extraction_cadence D2Q9.methods D2Q9.idle_kernel)
              D2Q9.at_refresh Hc Hr)
    as (e & s' & Hstep & Hiff & _).
  exists s'. rewrite Hstep. f_equal. f_equal.
  apply Hiff. cbn. split; [lia | reflexivity].
Defined.

(** * Further properties of [Lattice.cpp] *)

(** ** [GetResults] under [Density] and [Speed] *)

Section ExtractionValues.
Context `{CellMethods}.

(** X1.  On an object whose results matrix has the extents of the lattice
    (as [Init] leaves it), [GetResults] stores at every cell [(i, j)] the
    cell's [Density()] under [Density] and the Euclidean norm of the cell's
    [Velocity()] under [Speed]; it changes neither the lattice nor the
    extents of the results matrix. *)
Theorem GetResults_Density_Speed (L : Lattice) :
  rows (results L) = rows (lattice L) ->
  cols (results L) = cols (lattice L) ->
  (forall i j, 0 <= i < rows (lattice L) -> 0 <= j < cols (lattice L) ->
     (resultsType L = Density ->
        coeff (results (GetResults L)) i j
          = Cell_Density (coeff (lattice L) i j)) /\
     (resultsType L = Speed ->
        coeff (results (GetResults L)) i j
          = let v := Cell_Velocity (coeff (lattice L) i j) in
            PrimFloat.sqrt (fst v * fst v + snd v * snd v)%float)) /\
  lattice (GetResults L) = lattice L /\
  rows (results (GetResults L)) = rows (lattice L) /\
  cols (results (GetResults L)) = cols (lattice L).
Proof.
  intros Hrows Hcols. split; [| split; [reflexivity |]].
  - intros i j Hi Hj. rewrite GetResults_coeff by assumption.
    split; intros ->; cbn; rewrite !Z.eqb_refl; reflexivity.
  - unfold GetResults. cbn [results with_results].
    set (body := match resultsType L with
                 | Density => GetResults_Density (lattice L)
                 | Speed => GetResults_Speed (lattice L)
                 | Vorticity =>
                     GetResults_Vorticity (boundaryConditions L) (lattice L)
                 end).
    assert (Hbody : forall i j m, rows (body i j m) = rows m /\
                                  cols (body i j m) = cols m)
      by (intros i j m; unfold body; destruct (resultsType L);
          split; reflexivity).
    pose (P := fun (_ : Z) (m : Matrix float) =>
      rows m = rows (results L) /\ cols m = cols (results L)).
    assert (Hinner : forall j m, P 0 m ->
              P 0 (for_range 0 (rows (lattice L))
                     (fun i res' => body i j res') m)).
    { intros j m Hm.
      destruct (Z_le_gt_dec 0 (rows (lattice L))) as [Hle | Hgt].
      - apply (for_range_ind (fun _ r => P 0 r)); [exact Hle | exact Hm |].
        intros i r _ [Hr Hc]. destruct (Hbody i j r) as [Hr' Hc'].
        split; congruence.
      - rewrite for_range_empty by lia. exact Hm. }
    assert (Houter : P 0 (for_range 0 (cols (lattice L))
              (fun j res => for_range 0 (rows (lattice L))
                              (fun i res' => body i j res') res)
              (results L))).
    { destruct (Z_le_gt_dec 0 (cols (lattice L))) as [Hle | Hgt].
      - apply (for_range_ind (fun _ r => P 0 r)); [exact Hle | split; reflexivity |].
        intros j r _ Hr. apply Hinner. exact Hr.
      - rewrite for_range_empty by lia. split; reflexivity. }
    destruct Houter as [Hr Hc]. split; congruence.
Qed.

End ExtractionValues.

(** [GetResults_Density_Speed] under [Density] on a lattice of 2 rows and 1
    column whose cell (0,0) has density 1. *)
Lemma GetResults_Density_Speed_witness :
  (rows (results (with_resultsType Density D2Q9.lattice_2x1))
     = rows (lattice (with_resultsType Density D2Q9.lattice_2x1)) /\
   cols (results (with_resultsType Density D2Q9.lattice_2x1))
     = cols (lattice (with_resultsType Density D2Q9.lattice_2x1))) /\
  coeff (results (@GetResults D2Q9.methods
                    (with_resultsType Density D2Q9.lattice_2x1))) 0 0
    = 1%float.
Proof.
  assert (Hr : rows (results (with_resultsType Density D2Q9.lattice_2x1))
               = rows (lattice (with_resultsType Density D2Q9.lattice_2x1)))
    by reflexivity.
  assert (Hc : cols (results (with_resultsType Density D2Q9.lattice_2x1))
               = cols (lattice (with_resultsType Density D2Q9.lattice_2x1)))
    by reflexivity.
  split; [split; assumption |].
  destruct (@GetResults_Density_Speed D2Q9.methods
              (with_resultsType Density D2Q9.lattice_2x1) Hr Hc)
    as (Hval & _).
  destruct (Hval 0 0 ltac:(cbn; lia) ltac:(cbn; lia)) as [Hd _].
  rewrite (Hd eq_refl). vm_compute. reflexivity.
Defined.

(** ** [Init] on a domain of one or two rows *)

Section ThinDomain.
Context `{CellMethods}.

(** X2.  Unless the boundary conditions are [Periodic], [Init] zeroes every
    cell of a domain that has only one or two rows: each row is then a first
    or a last row, and no cell receives [Cell::Init()]. *)
Theorem Init_thin_domain_all_solid (L : Lattice) (i j : Z) :
  boundaryConditions L <> Periodic ->
  1 <= rows (latticeObstacles L) <= 2 ->
  0 <= i < rows (latticeObstacles L) ->
  0 <= j < cols (latticeObstacles L) ->
  density (coeff (lattice (Init L)) i j) = zero_density.
Proof.
  intros Hbc Hrows Hi Hj.
  destruct (Init_lattice L) as (_ & _ & Hco); [lia | lia |].
  rewrite (Hco i j Hi Hj). unfold initial_cell, marked_solid.
  destruct (boundaryConditions L); [| destruct (Hbc eq_refl)].
  cbn [BoundaryConditions_eqb negb andb].
  destruct (coeff (latticeObstacles L) i j); [reflexivity |].
  cbn [orb].
  destruct ((i =? 0) || (i =? rows (latticeObstacles L) - 1)) eqn:E;
    [reflexivity | lia].
Qed.

End ThinDomain.

(** [Init_thin_domain_all_solid] on a mask of 2 rows and 3 columns without
    obstacles. *)
Lemma Init_thin_domain_all_solid_witness :
  density
    (coeff
       (lattice
          (@Init D2Q9.methods
             (with_latticeObstacles (mkMatrix 2 3 (fun _ _ => false))
                (@Lattice_new D2Q9.methods)))) 1 2)
  = zero_density.
Proof.
  apply (@Init_thin_domain_all_solid D2Q9.methods
           (with_latticeObstacles (mkMatrix 2 3 (fun _ _ => false))
              (@Lattice_new D2Q9.methods)) 1 2).
  - discriminate.
  - cbn. lia.
  - cbn. lia.
  - cbn. lia.
Defined.

(** ** The cells visited by a pass *)

(** Column and row of a kernel call. *)
Definition cell_coords (c : Call) : option (Z * Z) :=
  match c with
  | CollideAndStreamCell x y _ _ _ _ _ _ _ _ _ => Some (x, y)
  | DealWithInletOutlet _ _ _ _ _ _ => None
  end.

(** The cells of columns [[x0, x1)] and rows [[0, R)], column by column and
    from row 0 to row [R - 1] within a column. *)
Definition column_major (x0 x1 R : Z) : list (Z * Z) :=
  concat (map (fun x => (fun y => (x, y)) <$> seqZ 0 R) (seqZ x0 (x1 - x0))).

Lemma omap_concat_map_eq {A B D} (f : B -> option D) (g : A -> list B)
    (l : list A) :
  omap f (concat (map g l)) = concat (map (fun a => omap f (g a)) l).
Proof.
  induction l as [|a l IH]; [reflexivity |].
  cbn [map concat]. rewrite omap_app, IH. reflexivity.
Qed.

Lemma cell_coords_column (L : Lattice) (w : Worker) (x : Z) :
  omap cell_coords (column_calls L w x) =
  (x, 0) :: ((fun y => (x, y)) <$> seqZ 1 (to_int (w_LatticeRows w - 1) - 1))
         ++ [(x, to_int (w_LatticeRows w - 1))].
Proof.
  unfold column_calls. cbn [omap list_omap cell_call cell_coords].
  f_equal. rewrite omap_app. cbn [omap list_omap cell_call cell_coords].
  f_equal.
  induction (seqZ 1 (to_int (w_LatticeRows w - 1) - 1)) as [|y l IH];
    [reflexivity |].
  cbn. f_equal. exact IH.
Qed.

Lemma cell_coords_pass (L : Lattice) (w : Worker) :
  omap cell_coords (pass_calls L w) =
  concat (map (fun x => omap cell_coords (column_calls L w x))
            (seqZ (w_startCol w) (w_endCol w - w_startCol w))).
Proof.
  rewrite pass_calls_eq, omap_app. cbn [omap list_omap cell_coords].
  rewrite app_nil_r. apply omap_concat_map_eq.
Qed.

Lemma concat_map_ext {A B} (f g : A -> list B) (l : list A) :
  (forall a, f a = g a) -> concat (map f l) = concat (map g l).
Proof.
  intros Hfg. induction l as [|a l IH]; [reflexivity |].
  cbn [map concat]. rewrite Hfg, IH. reflexivity.
Qed.

Lemma NoDup_column_major (x0 x1 R : Z) : NoDup (column_major x0 x1 R).
Proof.
  unfold column_major.
  assert (Hnd : NoDup (seqZ x0 (x1 - x0))) by apply NoDup_seqZ.
  induction (seqZ x0 (x1 - x0)) as [|x l IH]; cbn [map concat].
  - constructor.
  - apply NoDup_cons in Hnd. destruct Hnd as [Hx Hl].
    apply NoDup_app. split; [| split].
    + apply NoDup_fmap_2; [intros y1 y2 Hy; congruence | apply NoDup_seqZ].
    + intros [x' y] Hin Hin'.
      apply list_elem_of_fmap in Hin. destruct Hin as (y' & Heq & _).
      injection Heq as -> ->.
      apply Hx. clear -Hin'.
      induction l as [|x'' l IHl]; cbn [map concat] in Hin'.
      * apply elem_of_nil in Hin'. destruct Hin'.
      * apply elem_of_app in Hin'. destruct Hin' as [Hin' | Hin'].
        -- apply list_elem_of_fmap in Hin'. destruct Hin' as (y'' & Heq & _).
           injection Heq as -> _. apply elem_of_cons. left. reflexivity.
        -- apply elem_of_cons. right. apply IHl. exact Hin'.
    + apply IH. exact Hl.
Qed.

Lemma elem_of_column_major (x0 x1 R x y : Z) :
  (x, y) ∈ column_major x0 x1 R <-> x0 <= x < x1 /\ 0 <= y < R.
Proof.
  unfold column_major.
  assert (Hgen : forall l, (x, y) ∈ concat
            (map (fun x => (fun y => (x, y)) <$> seqZ 0 R) l)
          <-> x ∈ l /\ 0 <= y < R).
  { induction l as [|a l IH]; cbn [map concat].
    - rewrite !elem_of_nil. tauto.
    - rewrite elem_of_app, IH, list_elem_of_fmap, elem_of_cons. split.
      + intros [(y' & Heq & Hy') | [Hx Hy]].
        * injection Heq as -> ->. apply elem_of_seqZ in Hy'.
          split; [left; reflexivity | lia].
        * split; [right; exact Hx | exact Hy].
      + intros [[-> | Hx] Hy].
        * left. exists y. split; [reflexivity | apply elem_of_seqZ; lia].
        * right. split; assumption. }
  rewrite Hgen, elem_of_seqZ. split; intros [Hx Hy]; (split; [lia | exact Hy]).
Qed.

Lemma cell_coords_entry (L L' : Lattice) (tid startCol endCol : Z) :
  2 <= rows (lattice L) <= INT_MAX ->
  omap cell_coords
    (pass_calls L' (CollideAndStream_entry L tid startCol endCol))
  = column_major startCol endCol (rows (lattice L)).
Proof.
  intros HR. set (R := rows (lattice L)) in *.
  rewrite cell_coords_pass. unfold column_major.
  cbn [CollideAndStream_entry w_startCol w_endCol].
  apply concat_map_ext. intros x. rewrite cell_coords_column.
  cbn [CollideAndStream_entry w_LatticeRows]. fold R.
  rewrite (to_int_small R) by (unfold INT_MAX in *; lia).
  rewrite (to_int_small (R - 1)) by (unfold INT_MAX in *; lia).
  rewrite (seqZ_cons 0 R) by lia.
  replace (Z.pred R) with ((R - 1 - 1) + 1) by lia.
  rewrite seqZ_app by lia. rewrite fmap_cons, fmap_app.
  cbn [Z.succ]. replace (Z.succ 0) with 1 by reflexivity.
  replace (1 + (R - 1 - 1)) with (R - 1) by lia.
  reflexivity.
Qed.

(** X3.  On a lattice of at least two rows, the [CollideAndStreamCell] calls
    of a pass visit the cells of the worker's columns column by column and,
    within a column, from row 0 to the last row: every cell of the columns
    [[startCol, endCol)] is passed to the kernel exactly once, and no other
    cell is. *)
Theorem pass_visits_each_cell_once (L L' : Lattice) (tid startCol endCol : Z) :
  let w := CollideAndStream_entry L tid startCol endCol in
  let R := rows (lattice L) in
  2 <= R <= INT_MAX ->
  omap cell_coords (pass_calls L' w) = column_major startCol endCol R /\
  NoDup (omap cell_coords (pass_calls L' w)) /\
  (forall x y, (x, y) ∈ omap cell_coords (pass_calls L' w) <->
               startCol <= x < endCol /\ 0 <= y < R).
Proof.
  intros w R HR. unfold w, R.
  rewrite (cell_coords_entry L L' tid startCol endCol HR).
  split; [reflexivity |].
  split; [apply NoDup_column_major |].
  intros x y. apply elem_of_column_major.
Qed.

(** [pass_visits_each_cell_once] on a lattice of 4 rows, for a worker owning
    columns 3 to 5. *)
Lemma pass_visits_each_cell_once_witness :
  2 <= rows (lattice D2Q9.lattice_4x10) <= INT_MAX /\
  omap cell_coords
    (pass_calls D2Q9.lattice_4x10
       (CollideAndStream_entry D2Q9.lattice_4x10 1 3 6))
  = [(3, 0); (3, 1); (3, 2); (3, 3); (4, 0); (4, 1); (4, 2); (4, 3);
     (5, 0); (5, 1); (5, 2); (5, 3)].
Proof.
  assert (HR : 2 <= rows (lattice D2Q9.lattice_4x10) <= INT_MAX)
    by (cbn; unfold INT_MAX; lia).
  split; [exact HR |].
  destruct (pass_visits_each_cell_once D2Q9.lattice_4x10 D2Q9.lattice_4x10
              1 3 6 HR) as [Heq _].
  rewrite Heq. vm_compute. reflexivity.
Defined.

(** X4.  On a lattice of a single row a pass hands every cell of the
    worker's columns to [CollideAndStreamCell] twice, once as row 0 and once
    as the last row; on a lattice without rows it calls the kernel for rows 0
    and -1 of each column, neither of which exists. *)
Theorem pass_degenerate_heights (L L' : Lattice) (tid startCol endCol : Z) :
  let w := CollideAndStream_entry L tid startCol endCol in
  (rows (lattice L) = 1 ->
   omap cell_coords (pass_calls L' w) =
   concat (map (fun x => [(x, 0); (x, 0)])
             (seqZ startCol (endCol - startCol)))) /\
  (rows (lattice L) = 0 ->
   omap cell_coords (pass_calls L' w) =
   concat (map (fun x => [(x, 0); (x, -1)])
             (seqZ startCol (endCol - startCol)))).
Proof.
  intros w.
  split; intros HR; rewrite cell_coords_pass;
    cbn [w CollideAndStream_entry w_startCol w_endCol];
    apply concat_map_ext; intros x; rewrite cell_coords_column;
    cbn [w CollideAndStream_entry w_LatticeRows]; rewrite HR;
    reflexivity.
Qed.

(** [pass_degenerate_heights] on a lattice of 1 row and 4 columns, for a
    worker owning columns 1 and 2. *)
Lemma pass_degenerate_heights_witness :
  rows (lattice (with_lattice (Matrix_new 1 4 (mkCell zero_density))
                   (@Lattice_new D2Q9.methods))) = 1 /\
  omap cell_coords
    (pass_calls (@Lattice_new D2Q9.methods)
       (CollideAndStream_entry
          (with_lattice (Matrix_new 1 4 (mkCell zero_density))
             (@Lattice_new D2Q9.methods)) 0 1 3))
  = [(1, 0); (1, 0); (2, 0); (2, 0)].
Proof.
  assert (HR : rows (lattice (with_lattice (Matrix_new 1 4 (mkCell zero_density))
                                (@Lattice_new D2Q9.methods))) = 1)
    by reflexivity.
  split; [exact HR |].
  destruct (pass_degenerate_heights
              (with_lattice (Matrix_new 1 4 (mkCell zero_density))
                 (@Lattice_new D2Q9.methods))
              (@Lattice_new D2Q9.methods) 0 1 3) as [H1 _].
  rewrite (H1 HR). vm_compute. reflexivity.
Defined.

(** ** The calls of a pass and their arguments *)

(** X5.  A pass makes its [CollideAndStreamCell] calls first and then calls
    [DealWithInletOutlet] exactly once, with the worker's column range and
    the extents of the lattice; for an empty range this is the only call.
    Every [CollideAndStreamCell] call for a column [x] passes
    [useAccelX || (0 < x && x < cols - 1)] as [xInsideBoundaryOrUseAccel];
    [useAccelX] and [tau] are those of the object when the pass runs, whereas
    [accelX * tau] and the extents are those read when the thread started. *)
Theorem pass_call_arguments (L L' : Lattice) (tid startCol endCol : Z) :
  let w := CollideAndStream_entry L tid startCol endCol in
  let R := rows (lattice L) in
  let C := cols (lattice L) in
  0 <= R <= INT_MAX ->
  0 <= C <= INT_MAX ->
  exists kernel,
    pass_calls L' w
      = kernel ++ [DealWithInletOutlet startCol endCol R C (R - 1) (C - 1)] /\
    Forall
      (fun c => exists x y flag,
         c = CollideAndStreamCell x y flag
               (useAccelX L' || ((0 <? x) && (x <? C - 1))) (useAccelX L')
               (R - 1) R (C - 1) C (accelX L * tau L)%float (tau L'))
      kernel /\
    (endCol <= startCol -> kernel = []).
Proof.
  intros w R C HR HC.
  exists (concat (map (column_calls L' w)
                    (seqZ (w_startCol w) (w_endCol w - w_startCol w)))).
  assert (HR0 : to_int R = R) by (apply to_int_small; unfold INT_MAX in *; lia).
  assert (HR1 : to_int (R - 1) = R - 1)
    by (apply to_int_small; unfold INT_MAX in *; lia).
  assert (HC0 : to_int C = C) by (apply to_int_small; unfold INT_MAX in *; lia).
  assert (HC1 : to_int (C - 1) = C - 1)
    by (apply to_int_small; unfold INT_MAX in *; lia).
  split; [| split].
  - rewrite pass_calls_eq.
    cbn [w CollideAndStream_entry w_startCol w_endCol w_LatticeRows
         w_LatticeCols].
    fold R C. rewrite HR0, HC0, HR1, HC1. reflexivity.
  - apply Forall_forall. intros c Hc.
    apply list_elem_of_In, in_concat in Hc. destruct Hc as (l & Hl & Hc).
    apply in_map_iff in Hl. destruct Hl as (x & <- & _).
    apply list_elem_of_In in Hc. unfold column_calls in Hc.
    rewrite elem_of_cons, elem_of_app, list_elem_of_fmap,
      list_elem_of_singleton in Hc.
    assert (Hshape : forall y flag,
              cell_call L' w x y flag
              = CollideAndStreamCell x y flag
                  (useAccelX L' || ((0 <? x) && (x <? C - 1))) (useAccelX L')
                  (R - 1) R (C - 1) C (accelX L * tau L)%float (tau L')).
    { intros y flag. unfold cell_call.
      cbn [w CollideAndStream_entry w_LatticeRows w_LatticeCols w_accelXtau].
      fold R C. rewrite HR0, HC0, HR1, HC1. reflexivity. }
    destruct Hc as [-> | [(y & -> & _) | ->]]; eauto.
  - intros Hempty. cbn [w CollideAndStream_entry w_startCol w_endCol].
    rewrite seqZ_nil by lia. reflexivity.
Qed.

(** [pass_call_arguments] on a lattice of 4 rows and 10 columns: a worker
    with the empty range [[0, 0)] only calls [DealWithInletOutlet]. *)
Lemma pass_call_arguments_witness :
  (0 <= rows (lattice D2Q9.lattice_4x10) <= INT_MAX /\
   0 <= cols (lattice D2Q9.lattice_4x10) <= INT_MAX) /\
  pass_calls D2Q9.lattice_4x10
    (CollideAndStream_entry D2Q9.lattice_4x10 0 0 0)
  = [DealWithInletOutlet 0 0 4 10 3 9].
Proof.
  assert (HR : 0 <= rows (lattice D2Q9.lattice_4x10) <= INT_MAX)
    by (cbn; unfold INT_MAX; lia).
  assert (HC : 0 <= cols (lattice D2Q9.lattice_4x10) <= INT_MAX)
    by (cbn; unfold INT_MAX; lia).
  split; [split; assumption |].
  destruct (pass_call_arguments D2Q9.lattice_4x10 D2Q9.lattice_4x10 0 0 0 HR HC)
    as (kernel & Heq & _ & Hempty).
  rewrite Heq, (Hempty ltac:(lia)). reflexivity.
Defined.

(** ** One step of the whole lattice *)

Lemma range_disjoint (C N t1 t2 x : Z) :
  0 <= C -> 1 <= N -> 0 <= t1 < N -> 0 <= t2 < N ->
  range_start C N t1 <= x < range_end C N t1 ->
  range_start C N t2 <= x < range_end C N t2 ->
  t1 = t2.
Proof.
  intros HC HN Ht1 Ht2 H1 H2.
  destruct (Z.lt_trichotomy t1 t2) as [Hlt | [Heq | Hgt]]; [| exact Heq |].
  - rewrite (range_end_next C N t1) in H1 by lia.
    pose proof (range_start_mono C N (t1 + 1) t2 HC HN ltac:(lia)). lia.
  - rewrite (range_end_next C N t2) in H2 by lia.
    pose proof (range_start_mono C N (t2 + 1) t1 HC HN ltac:(lia)). lia.
Qed.

(** X6.  With the workers that [Simulate] spawns, on a lattice of at least
    two rows, one pass of every worker hands every cell of the lattice to
    [CollideAndStreamCell] exactly once: each cell is in the pass of exactly
    one worker, no pass visits a cell twice, and no pass visits a cell
    outside the lattice. *)
Theorem step_visits_each_cell_once (L L' : Lattice) :
  let R := rows (lattice L) in
  let C := cols (lattice L) in
  let N := numThreads L in
  let visited t := match vector_at (spawn_threads L) t with
                   | Some w => omap cell_coords (pass_calls L' w)
                   | None => []
                   end in
  2 <= R <= INT_MAX ->
  0 <= C <= INT_MAX ->
  1 <= N <= INT_MAX ->
  (forall x y, 0 <= x < C -> 0 <= y < R ->
     exists t, 0 <= t < N /\ (x, y) ∈ visited t /\
       forall t', (x, y) ∈ visited t' -> t' = t) /\
  (forall t, NoDup (visited t)) /\
  (forall t x y, (x, y) ∈ visited t -> 0 <= x < C /\ 0 <= y < R).
Proof.
  intros R C N visited HR HC HN.
  destruct (spawn_threads_spec L HC HN) as [Hlen Hat].
  assert (Hvis : forall t, 0 <= t < N ->
            visited t = column_major (range_start C N t) (range_end C N t) R).
  { intros t Ht. unfold visited. rewrite (Hat t Ht). unfold spawned.
    apply cell_coords_entry. exact HR. }
  assert (Hout : forall t, ~ 0 <= t < N -> visited t = []).
  { intros t Ht. unfold visited, vector_at.
    destruct (0 <=? t) eqn:E; [| reflexivity].
    rewrite lookup_ge_None_2; [reflexivity |]. rewrite Hlen. fold N. lia. }
  assert (Hin : forall t x y, (x, y) ∈ visited t ->
            0 <= t < N /\
            range_start C N t <= x < range_end C N t /\ 0 <= y < R).
  { intros t x y Hxy.
    destruct (Z_le_gt_dec 0 t) as [H0 | H0];
      [destruct (Z_lt_le_dec t N) as [H1 | H1] |].
    - split; [lia |]. rewrite (Hvis t) in Hxy by lia.
      apply elem_of_column_major. exact Hxy.
    - rewrite (Hout t) in Hxy by lia. apply elem_of_nil in Hxy. destruct Hxy.
    - rewrite (Hout t) in Hxy by lia. apply elem_of_nil in Hxy. destruct Hxy. }
  split; [| split].
  - intros x y Hx Hy.
    destruct (range_cover C N x ltac:(lia) ltac:(lia) Hx) as (t & Ht & Hxt).
    exists t. split; [exact Ht |]. split.
    + rewrite (Hvis t Ht). apply elem_of_column_major. split; assumption.
    + intros t' Hxy'. destruct (Hin t' x y Hxy') as (Ht' & Hxt' & _).
      apply (range_disjoint C N t' t x); try lia.
  - intros t. destruct (Z_le_gt_dec 0 t) as [H0 | H0];
      [destruct (Z_lt_le_dec t N) as [H1 | H1] |].
    + rewrite (Hvis t) by lia. apply NoDup_column_major.
    + rewrite (Hout t) by lia. constructor.
    + rewrite (Hout t) by lia. constructor.
  - intros t x y Hxy. destruct (Hin t x y Hxy) as (Ht & Hxt & Hy).
    split; [| exact Hy].
    pose proof (range_end_bounds C N t ltac:(lia) ltac:(lia) Ht).
    pose proof (range_start_bounds C N t ltac:(lia) ltac:(lia) ltac:(lia)).
    lia.
Qed.

(** [step_visits_each_cell_once] on a lattice of 4 rows and 10 columns
    shared by 3 threads: cell (4, 2) belongs to exactly one worker's pass. *)
Lemma step_visits_each_cell_once_witness :
  (2 <= rows (lattice D2Q9.lattice_4x10) <= INT_MAX /\
   0 <= cols (lattice D2Q9.lattice_4x10) <= INT_MAX /\
   1 <= numThreads D2Q9.lattice_4x10 <= INT_MAX) /\
  exists t, 0 <= t < 3 /\
    (4, 2) ∈ match vector_at (spawn_threads D2Q9.lattice_4x10) t with
             | Some w => omap cell_coords (pass_calls D2Q9.lattice_4x10 w)
             | None => []
             end.
Proof.
  assert (HR : 2 <= rows (lattice D2Q9.lattice_4x10) <= INT_MAX)
    by (cbn; unfold INT_MAX; lia).
  assert (HC : 0 <= cols (lattice D2Q9.lattice_4x10) <= INT_MAX)
    by (cbn; unfold INT_MAX; lia).
  assert (HN : 1 <= numThreads D2Q9.lattice_4x10 <= INT_MAX)
    by (cbn; unfold INT_MAX; lia).
  split; [split; [exact HR | split; [exact HC | exact HN]] |].
  destruct (step_visits_each_cell_once D2Q9.lattice_4x10 D2Q9.lattice_4x10
              HR HC HN) as (Hcover & _ & _).
  destruct (Hcover 4 2 ltac:(cbn; lia) ltac:(cbn; lia)) as (t & Ht & Hin & _).
  exists t. split; [exact Ht | exact Hin].
Defined.

(** ** The synchronisation in every reachable state *)

Section Reachable.
Context `{CellMethods} `{KernelMethods}.

(** The invariant in a state reached from the entry of the step loop. *)
Lemma reachable_Inv (L0 : Lattice) (s0 s : System) (sched : list Actor)
    (es : list Event) :
  1 <= numThreads L0 <= INT_MAX ->
  Simulate_start L0 = Some s0 ->
  run sched s0 = Some (es, s) ->
  Inv s /\ numThreads (this s) = numThreads L0.
Proof.
  intros HN Hstart Hrun.
  destruct (Simulate_start_Inv L0 s0 HN Hstart) as (HI0 & _ & _ & HN0 & _).
  split; [apply (run_Inv sched s0 s es HI0 Hrun) |].
  rewrite (run_numThreads _ _ _ _ Hrun). exact HN0.
Qed.

(** X7.  While [Simulate] runs, the two grids are never used by the
    controller and a worker at once: a worker is in its pass only while the
    controller is blocked in [WaitForData()], and whenever the controller is
    about to swap the grids or to test for [GetResults()], every worker is
    blocked in [WaitForWork()] with its wake flag false. *)
Theorem grids_exclusive (L0 : Lattice) (s0 s : System) (sched : list Actor)
    (es : list Event) :
  1 <= numThreads L0 <= INT_MAX ->
  Simulate_start L0 = Some s0 ->
  run sched s0 = Some (es, s) ->
  (forall t w, theThreads s !! t = Some w -> w_pc w = WPass ->
     ctl s = CWaitForData) /\
  (ctl s = CSwap \/ ctl s = CRefresh ->
   forall t w, theThreads s !! t = Some w ->
     w_pc w = WWaitForWork /\ WaitForWork (w_tid w) (this s) = Blocks).
Proof.
  intros HN Hstart Hrun.
  destruct (reachable_Inv L0 s0 s sched es HN Hstart Hrun) as [HI _].
  split.
  - intros t w Hw Hpc.
    destruct (Inv_flag s t w HI Hw) as (f & _ & _ & _ & Hal).
    rewrite Hpc in Hal.
    destruct (ctl s); destruct f; cbn in Hal;
      first [discriminate Hal | reflexivity].
  - intros Hc t w Hw.
    destruct (Inv_flag s t w HI Hw) as (f & _ & Hvf & _ & Hal).
    unfold WaitForWork. rewrite Hvf.
    destruct Hc as [Hc | Hc]; rewrite Hc in Hal; cbn in Hal;
      destruct (w_pc w) as [| | | | [|] |]; destruct f;
      first [discriminate Hal | split; reflexivity].
Qed.

(** X8.  While [Simulate] runs, no vector is indexed out of bounds: both
    [wakeup] and [theThreads] keep [numThreads] elements, every worker's
    thread id is an index of [wakeup], and the index of a [join()] is an
    index of [theThreads]. *)
Theorem vectors_indexed_in_bounds (L0 : Lattice) (s0 s : System)
    (sched : list Actor) (es : list Event) :
  1 <= numThreads L0 <= INT_MAX ->
  Simulate_start L0 = Some s0 ->
  run sched s0 = Some (es, s) ->
  length (wakeup (this s)) = Z.to_nat (numThreads L0) /\
  length (theThreads s) = Z.to_nat (numThreads L0) /\
  (forall t w, theThreads s !! t = Some w ->
     exists f, vector_at (wakeup (this s)) (w_tid w) = Some f) /\
  (forall tj, ctl s = CJoin tj -> tj < to_uint (numThreads (this s)) ->
     exists w, vector_at (theThreads s) tj = Some w).
Proof.
  intros HN Hstart Hrun.
  destruct (reachable_Inv L0 s0 s sched es HN Hstart Hrun) as [HI HNs].
  pose proof (inv_flags _ _ _ _ _ _ HI) as Hfs. rewrite HNs in Hfs.
  pose proof (inv_threads _ _ _ _ _ _ HI) as Hws. rewrite HNs in Hws.
  split; [exact Hfs |]. split; [exact Hws |]. split.
  - intros t w Hw.
    destruct (Inv_flag s t w HI Hw) as (f & _ & Hvf & _). eauto.
  - intros tj Hc Hlt. pose proof (inv_join _ _ _ _ _ _ HI) as Hj.
    rewrite Hc in Hj. destruct Hj as [Hrange _].
    rewrite HNs, to_uint_small in Hlt
      by (unfold INT_MAX, UINT_MOD in *; lia).
    rewrite vector_at_lookup by lia.
    apply lookup_lt_is_Some. rewrite Hws. lia.
Qed.

End Reachable.

(** [grids_exclusive] for two workers, when the user has stopped the
    simulation while worker 0 is in its pass: the controller is inside
    [WaitForData()]. *)
Lemma grids_exclusive_witness :
  (1 <= numThreads D2Q9.two_threads <= INT_MAX /\
   @Simulate_start D2Q9.methods D2Q9.two_threads = Some D2Q9.entered /\
   @runs D2Q9.methods D2Q9.idle_kernel D2Q9.stop_during_pass D2Q9.entered
     = true /\
   w_pc <$> theThreads D2Q9.stopped !! 0%nat = Some WPass) /\
  ctl D2Q9.stopped = CWaitForData.
Proof.
  assert (HN : 1 <= numThreads D2Q9.two_threads <= INT_MAX)
    by (cbn; unfold INT_MAX; lia).
  assert (Hne : numThreads D2Q9.two_threads <> 0) by (cbn; lia).
  pose proof (@Simulate_start_eq D2Q9.methods D2Q9.two_threads Hne) as Hstart.
  change (@Simulate_start D2Q9.methods D2Q9.two_threads = Some D2Q9.entered)
    in Hstart.
  assert (Hruns : @runs D2Q9.methods D2Q9.idle_kernel
                    D2Q9.stop_during_pass D2Q9.entered = true)
    by (vm_compute; reflexivity).
  assert (Hpc : w_pc <$> theThreads D2Q9.stopped !! 0%nat = Some WPass)
    by (vm_compute; reflexivity).
  split.
  { split; [exact HN |]. split; [exact Hstart |].
    split; [exact Hruns | exact Hpc]. }
  destruct (theThreads D2Q9.stopped !! 0%nat) as [w |] eqn:Hw;
    [| discriminate Hpc].
  injection Hpc as Hpc.
  destruct (@grids_exclusive D2Q9.methods D2Q9.idle_kernel D2Q9.two_threads
              D2Q9.entered D2Q9.stopped D2Q9.stop_during_pass _ HN Hstart
              (@run_eq D2Q9.methods D2Q9.idle_kernel _ _ Hruns))
    as [Hpass _].
  exact (Hpass 0%nat w Hw Hpc).
Defined.

(** [vectors_indexed_in_bounds] for two workers, in the same state. *)
Lemma vectors_indexed_in_bounds_witness :
  (1 <= numThreads D2Q9.two_threads <= INT_MAX /\
   @Simulate_start D2Q9.methods D2Q9.two_threads = Some D2Q9.entered /\
   @runs D2Q9.methods D2Q9.idle_kernel D2Q9.stop_during_pass D2Q9.entered
     = true) /\
  length (wakeup (this D2Q9.stopped)) = 2%nat /\
  length (theThreads D2Q9.stopped) = 2%nat.
Proof.
  assert (HN : 1 <= numThreads D2Q9.two_threads <= INT_MAX)
    by (cbn; unfold INT_MAX; lia).
  assert (Hne : numThreads D2Q9.two_threads <> 0) by (cbn; lia).
  pose proof (@Simulate_start_eq D2Q9.methods D2Q9.two_threads Hne) as Hstart.
  change (@Simulate_start D2Q9.methods D2Q9.two_threads = Some D2Q9.entered)
    in Hstart.
  assert (Hruns : @runs D2Q9.methods D2Q9.idle_kernel
                    D2Q9.stop_during_pass D2Q9.entered = true)
    by (vm_compute; reflexivity).
  split.
  { split; [exact HN |]. split; [exact Hstart | exact Hruns]. }
  destruct (@vectors_indexed_in_bounds D2Q9.methods D2Q9.idle_kernel
              D2Q9.two_threads D2Q9.entered D2Q9.stopped
              D2Q9.stop_during_pass _ HN Hstart
              (@run_eq D2Q9.methods D2Q9.idle_kernel _ _ Hruns))
    as (Hfs & Hws & _).
  split; [exact Hfs | exact Hws].
Defined.

(** ** Counting wake-ups, signals and passes *)

Definition is_CtlWakeUp (e : Event) : bool :=
  match e with CtlWakeUp => true | _ => false end.

Definition is_CtlSwap (e : Event) : bool :=
  match e with CtlSwap => true | _ => false end.

Definition is_WrkWaitForWork (tid : Z) (e : Event) : bool :=
  match e with WrkWaitForWork t => t =? tid | _ => false end.

Definition is_WrkPass (tid : Z) (e : Event) : bool :=
  match e with WrkPass t => t =? tid | _ => false end.

Definition is_WrkSignalMoreData (e : Event) : bool :=
  match e with WrkSignalMoreData _ _ => true | _ => false end.

(** How many events of a sequence satisfy [p]. *)
Definition count (p : Event -> bool) (es : list Event) : Z :=
  Z.of_nat (length (List.filter p es)).

(** 1 while [wakeup[tid]] is true, that is, while a wake-up of thread [tid]
    has not been consumed by its [WaitForWork(tid)]. *)
Definition pending (tid : Z) (L : Lattice) : Z :=
  match vector_at (wakeup L) tid with
  | Some true => 1
  | _ => 0
  end.

(** The workers whose thread function has returned. *)
Definition is_finished (pc : WorkerPc) : bool :=
  match pc with WFinished => true | _ => false end.

Fixpoint count_finished (ws : list Worker) : Z :=
  match ws with
  | [] => 0
  | w :: ws' => (if is_finished (w_pc w) then 1 else 0) + count_finished ws'
  end.

(** After the step loop, [processed] counts workers that have returned. *)
Definition processed_bounded (s : System) : Prop :=
  match ctl s with
  | CFinalWakeUp | CJoin _ | CReturned =>
      0 <= processed (this s) <= count_finished (theThreads s)
  | _ => True
  end.

Lemma count_nil (p : Event -> bool) : count p [] = 0.
Proof. reflexivity. Qed.

Lemma count_snoc (p : Event -> bool) (es : list Event) (e : Event) :
  count p (es ++ [e]) = count p es + (if p e then 1 else 0).
Proof.
  unfold count. induction es as [|e0 es IH]; cbn [app List.filter].
  - destruct (p e); reflexivity.
  - destruct (p e0); cbn [length]; lia.
Qed.

Lemma count_finished_insert (ws : list Worker) (t : nat) (w w' : Worker) :
  ws !! t = Some w ->
  count_finished (<[t := w']> ws) =
  count_finished ws - (if is_finished (w_pc w) then 1 else 0)
  + (if is_finished (w_pc w') then 1 else 0).
Proof.
  revert t. induction ws as [|w0 ws IH]; intros t Hw; [discriminate |].
  destruct t as [|t]; simpl in *.
  - injection Hw as ->. lia.
  - rewrite (IH t Hw). lia.
Qed.

Lemma count_finished_range (ws : list Worker) :
  0 <= count_finished ws <= Z.of_nat (length ws).
Proof.
  induction ws as [|w ws IH]; [cbn; lia |].
  cbn [count_finished length]. destruct (is_finished (w_pc w)); lia.
Qed.

Lemma count_finished_lt (ws : list Worker) (t : nat) (w : Worker) :
  ws !! t = Some w -> is_finished (w_pc w) = false ->
  count_finished ws < Z.of_nat (length ws).
Proof.
  revert t. induction ws as [|w0 ws IH]; intros t Hw Hnf; [discriminate |].
  destruct t as [|t]; cbn in Hw; cbn [count_finished length].
  - injection Hw as ->. rewrite Hnf.
    pose proof (count_finished_range ws). lia.
  - specialize (IH t Hw Hnf). destruct (is_finished (w_pc w0)); lia.
Qed.

Section Accounting.
Context `{CellMethods} `{KernelMethods}.

(** A run extended by one transition. *)
Lemma run_snoc (sched : list Actor) (a : Actor) (s0 s' : System)
    (es' : list Event) :
  run (sched ++ [a]) s0 = Some (es', s') ->
  exists es s e, run sched s0 = Some (es, s) /\ act a s = Some (e, s') /\
                 es' = es ++ [e].
Proof.
  revert s0 es'. induction sched as [|a0 sched IH]; intros s0 es' Hrun.
  - cbn [app run] in Hrun.
    destruct (act a s0) as [[e s1] |] eqn:Hact; [| discriminate].
    injection Hrun as <- <-. exists [], s0, e. repeat split. exact Hact.
  - cbn [app run] in Hrun.
    destruct (act a0 s0) as [[e0 s1] |] eqn:Hact0; [| discriminate].
    destruct (run (sched ++ [a]) s1) as [[es1 s2] |] eqn:Hrun1;
      [| discriminate].
    injection Hrun as <- <-.
    destruct (IH s1 es1 Hrun1) as (es & s & e & Hrun & Hact & ->).
    exists (e0 :: es), s, e. cbn [run]. rewrite Hact0, Hrun.
    repeat split. exact Hact.
Qed.

(** Induction over the runs from a state: a property of the events so far
    and the state reached that holds initially and is kept by every
    transition holds after every run. *)
Lemma run_invariant (P : list Event -> System -> Prop) (s0 : System) :
  P [] s0 ->
  (forall es s a e s',
     P es s -> act a s = Some (e, s') -> P (es ++ [e]) s') ->
  forall sched es s, run sched s0 = Some (es, s) -> P es s.
Proof.
  intros Hinit Hstep sched.
  induction sched as [|a sched IH] using rev_ind; intros es s Hrun.
  - cbn in Hrun. injection Hrun as <- <-. exact Hinit.
  - apply run_snoc in Hrun. destruct Hrun as (es0 & s1 & e & Hrun & Hact & ->).
    apply (Hstep es0 s1 a e s); [apply (IH es0 s1 Hrun) | exact Hact].
Qed.

(** Only [WakeUp] and [WaitForWork] write the wake flags. *)
Lemma act_wakeup_frame (a : Actor) (s s' : System) (e : Event) :
  act a s = Some (e, s') ->
  match e with CtlWakeUp | WrkWaitForWork _ => False | _ => True end ->
  wakeup (this s') = wakeup (this s).
Proof.
  destruct a as [| t |]; cbn [act]; intros Hstep He.
  - unfold controller_step, WaitForData in Hstep.
    destruct (ctl s); try discriminate Hstep.
    + injection Hstep as <- <-. destruct He.
    + destruct (processed (this s) =? to_int (numThreads (this s)));
        [| discriminate].
      injection Hstep as <- <-. reflexivity.
    + destruct (negb (simulate (this s))); injection Hstep as <- <-;
        reflexivity.
    + injection Hstep as <- <-. reflexivity.
    + destruct (refresh_due (this s) (step s)) as [[|] |]; try discriminate;
        injection Hstep as <- <-; reflexivity.
    + injection Hstep as <- <-. destruct He.
    + step_cases Hstep; injection Hstep as <- <-; reflexivity.
  - unfold worker_step, WaitForWork in Hstep.
    destruct (theThreads s !! t) as [w |]; [| discriminate].
    destruct (w_pc w); try discriminate.
    + destruct (vector_at (wakeup (this s)) (w_tid w)) as [[|] |];
        try discriminate.
      injection Hstep as <- <-. destruct He.
    + destruct (negb (simulate (this s))); injection Hstep as <- <-;
        reflexivity.
    + injection Hstep as <- <-. reflexivity.
    + injection Hstep as <- <-. reflexivity.
  - unfold user_step in Hstep.
    destruct (simulate (this s)); [| discriminate].
    injection Hstep as <- <-. reflexivity.
Qed.

(** Before a [WakeUp()] every wake flag is false. *)
Lemma flags_false_before_WakeUp (a : Actor) (s s' : System) (tid : Z) :
  Inv s -> act a s = Some (CtlWakeUp, s') ->
  0 <= tid < numThreads (this s) ->
  vector_at (wakeup (this s)) tid = Some false.
Proof.
  intros HI Hact Htid.
  assert (Hc : ctl s = CWakeUp \/ ctl s = CFinalWakeUp).
  { destruct a as [| t |]; cbn [act] in Hact.
    - unfold controller_step in Hact.
      destruct (ctl s); try discriminate Hact; try (left; reflexivity);
        try (right; reflexivity); step_cases Hact.
    - destruct (worker_step_event _ _ _ _ Hact) as [He _]. discriminate He.
    - destruct (user_step_event _ _ _ Hact) as [He _]. discriminate He. }
  pose proof (inv_threads _ _ _ _ _ _ HI) as Hws.
  destruct (lookup_lt_is_Some_2 (theThreads s) (Z.to_nat tid)) as [w Hw];
    [lia |].
  destruct (Inv_flag s _ w HI Hw) as (f & Hf & _ & _ & Hal).
  rewrite vector_at_lookup, Hf by lia. f_equal.
  destruct Hc as [Hc | Hc]; rewrite Hc in Hal; cbn in Hal;
    destruct (w_pc w) as [| | | | [|] |]; destruct f;
    first [discriminate Hal | reflexivity].
Qed.

(** One transition, seen from the wake flag of thread [tid]. *)
Lemma wake_step (tid : Z) (a : Actor) (s s' : System) (e : Event) :
  Inv s -> 0 <= tid < numThreads (this s) ->
  act a s = Some (e, s') ->
  (if is_WrkWaitForWork tid e then 1 else 0) + pending tid (this s')
  = (if is_CtlWakeUp e then 1 else 0) + pending tid (this s).
Proof.
  intros HI Htid Hact.
  pose proof (inv_flags _ _ _ _ _ _ HI) as Hfs.
  destruct e;
    try (unfold pending; rewrite (act_wakeup_frame a s s' _ Hact I);
         reflexivity).
  - (* WakeUp *)
    unfold pending at 2.
    rewrite (flags_false_before_WakeUp a s s' tid HI Hact Htid).
    unfold pending. rewrite (act_CtlWakeUp a s s' Hact), WakeUp_wakeup.
    rewrite vector_at_lookup, lookup_replicate_2 by lia. reflexivity.
  - (* WaitForWork *)
    destruct (act_WrkWaitForWork a s s' tid0 Hact)
      as (t & w & -> & Hw & Hwt & Hret).
    apply WaitForWork_returns in Hret. destruct Hret as [Hflag Hs'].
    pose proof (inv_tid _ _ _ _ _ _ HI t w Hw) as Ht.
    cbn [is_WrkWaitForWork is_CtlWakeUp]. unfold pending.
    rewrite Hs'. cbn [wakeup with_wakeup].
    destruct (Z.eqb_spec tid0 tid) as [-> | Hne].
    + rewrite vector_at_set_eq by lia. rewrite Hflag. reflexivity.
    + rewrite vector_at_set_ne by lia. reflexivity.
Qed.

(** X9.  Every wake-up is consumed exactly once.  After any run of
    [Simulate], for each thread id [tid], the number of returns of
    [WaitForWork(tid)] plus 1 if [wakeup[tid]] is still true equals the
    number of [WakeUp()] calls: no wake-up is lost, none is consumed twice,
    and a worker never gets ahead of the controller. *)
Theorem wake_ups_consumed_once (L0 : Lattice) (s0 s : System)
    (sched : list Actor) (es : list Event) (tid : Z) :
  1 <= numThreads L0 <= INT_MAX ->
  Simulate_start L0 = Some s0 ->
  run sched s0 = Some (es, s) ->
  0 <= tid < numThreads L0 ->
  count (is_WrkWaitForWork tid) es + pending tid (this s)
  = count is_CtlWakeUp es.
Proof.
  intros HN Hstart Hrun Htid.
  destruct (Simulate_start_Inv L0 s0 HN Hstart) as (HI0 & Hc0 & _ & HN0 & _).
  pose (P := fun (es : list Event) (s : System) =>
    Inv s /\ numThreads (this s) = numThreads L0 /\
    count (is_WrkWaitForWork tid) es + pending tid (this s)
    = count is_CtlWakeUp es).
  assert (HP : P es s).
  { apply (run_invariant P s0) with (sched := sched); [| | exact Hrun].
    - split; [exact HI0 |]. split; [exact HN0 |].
      rewrite !count_nil. unfold pending.
      pose proof (inv_threads _ _ _ _ _ _ HI0) as Hws.
      destruct (lookup_lt_is_Some_2 (theThreads s0) (Z.to_nat tid)) as [w Hw];
        [lia |].
      destruct (Inv_flag s0 _ w HI0 Hw) as (f & Hf & _ & _ & Hal).
      rewrite vector_at_lookup, Hf by lia.
      rewrite Hc0 in Hal. cbn in Hal.
      destruct (w_pc w) as [| | | | [|] |]; destruct f;
        first [discriminate Hal | reflexivity].
    - intros es1 s1 a e s2 (HI1 & HN1 & Heq) Hact.
      split; [apply (act_Inv a s1 s2 e HI1 Hact) |].
      split; [destruct (act_config a s1 s2 e Hact); congruence |].
      rewrite !count_snoc.
      pose proof (wake_step tid a s1 s2 e HI1 ltac:(lia) Hact). lia. }
  apply HP.
Qed.

(** [processed] lies between 0 and the thread count. *)
Lemma processed_range (s : System) :
  Inv s -> processed_bounded s ->
  0 <= processed (this s) <= numThreads (this s).
Proof.
  intros HI HK. unfold processed_bounded in HK.
  pose proof (inv_N _ _ _ _ _ _ HI) as HN.
  pose proof (inv_threads _ _ _ _ _ _ HI) as Hws.
  pose proof (inv_processed _ _ _ _ _ _ HI) as Hp.
  pose proof (count_done_range (theThreads s) (wakeup (this s))) as Hd.
  pose proof (count_finished_range (theThreads s)) as Hf.
  destruct (ctl s); lia.
Qed.

(** A worker about to call [SignalMoreData()] cannot overflow [processed]. *)
Lemma processed_below_INT_MAX (s : System) (t : nat) (w : Worker)
    (leaving : bool) :
  Inv s -> processed_bounded s ->
  theThreads s !! t = Some w -> w_pc w = WSignal leaving ->
  0 <= processed (this s) < INT_MAX.
Proof.
  intros HI HK Hw Hpc.
  destruct (Inv_flag s t w HI Hw) as (f & Hf & _ & _ & Hal).
  pose proof (inv_N _ _ _ _ _ _ HI) as HN.
  pose proof (inv_threads _ _ _ _ _ _ HI) as Hws.
  assert (Hnf : is_finished (w_pc w) = false) by (rewrite Hpc; reflexivity).
  pose proof (count_finished_lt _ _ _ Hw Hnf) as Hlt.
  unfold processed_bounded in HK. rewrite Hpc in Hal.
  destruct (ctl s) eqn:Hc; cbn in Hal;
    try (destruct leaving; destruct f; discriminate Hal);
    try lia.
  apply (Inv_processed_lt s t w f HI Hc Hw Hf).
  rewrite Hpc. destruct f; [destruct leaving; discriminate Hal | reflexivity].
Qed.

(** One transition, seen from the counter [processed]. *)
Lemma signal_step (a : Actor) (s s' : System) (e : Event) :
  Inv s -> processed_bounded s -> act a s = Some (e, s') ->
  processed_bounded s' /\
  processed (this s')
  + (if is_CtlWaitForData e then numThreads (this s) else 0)
  = processed (this s) + (if is_WrkSignalMoreData e then 1 else 0).
Proof.
  intros HI HK Hact.
  pose proof (inv_N _ _ _ _ _ _ HI) as HN.
  destruct a as [| t |]; cbn [act] in Hact.
  - unfold controller_step in Hact.
    pose proof (inv_processed _ _ _ _ _ _ HI) as Hp0.
    unfold processed_bounded in HK.
    destruct (ctl s) as [| | | | | | tj |] eqn:Hc.
    + injection Hact as <- <-. split; [exact I | cbn; lia].
    + unfold WaitForData in Hact.
      destruct (processed (this s) =? to_int (numThreads (this s))) eqn:Hp;
        [| discriminate].
      injection Hact as <- <-.
      rewrite to_int_small in Hp by (unfold INT_MAX in *; lia).
      split; [exact I | cbn; lia].
    + destruct (negb (simulate (this s))); injection Hact as <- <-.
      * split; [| cbn; lia]. unfold processed_bounded. cbn.
        pose proof (count_finished_range (theThreads s)). lia.
      * split; [exact I | cbn; lia].
    + injection Hact as <- <-. split; [exact I | cbn; lia].
    + destruct (refresh_due (this s) (step s)) as [[|] |]; try discriminate;
        injection Hact as <- <-; (split; [exact I | cbn; lia]).
    + injection Hact as <- <-. split; [| cbn; lia].
      unfold processed_bounded. cbn. exact HK.
    + step_cases Hact; injection Hact as <- <-;
        (split; [unfold processed_bounded; cbn; exact HK | cbn; lia]).
    + discriminate.
  - unfold worker_step in Hact.
    destruct (theThreads s !! t) as [w |] eqn:Hw; [| discriminate].
    destruct (Inv_flag s t w HI Hw) as (f & Hf & Hvf & Htid & Hal).
    destruct (w_pc w) eqn:Hpc; try discriminate.
    + (* WWaitForWork *)
      unfold WaitForWork in Hact. rewrite Hvf in Hact.
      destruct f; [| discriminate]. injection Hact as <- <-.
      split; [| cbn; lia].
      unfold processed_bounded in *. cbn.
      rewrite (count_finished_insert _ _ _ _ Hw), Hpc. cbn.
      destruct (ctl s); first [exact I | lia].
    + (* WTestSimulate *)
      destruct (negb (simulate (this s))); injection Hact as <- <-;
        (split; [| cbn; lia]);
        unfold processed_bounded in *; cbn;
        rewrite (count_finished_insert _ _ _ _ Hw), Hpc; cbn;
        destruct (ctl s); first [exact I | lia].
    + (* WPass *)
      injection Hact as <- <-. split; [| cbn; lia].
      unfold processed_bounded in *. cbn.
      rewrite (count_finished_insert _ _ _ _ Hw), Hpc. cbn.
      destruct (ctl s); first [exact I | lia].
    + (* WSignal *)
      pose proof (processed_below_INT_MAX s t w leaving HI HK Hw Hpc) as Hp.
      injection Hact as <- <-.
      assert (Hinc : to_int (processed (this s) + 1) = processed (this s) + 1)
        by (apply to_int_small; unfold INT_MAX in *; lia).
      split; [| cbn; rewrite Hinc; lia].
      unfold processed_bounded in *. cbn. rewrite Hinc.
      rewrite (count_finished_insert _ _ _ _ Hw), Hpc.
      destruct (ctl s); cbn in Hal |- *; try exact I;
        destruct leaving; destruct f; cbn in Hal |- *;
        first [discriminate Hal | lia].
  - unfold user_step in Hact.
    destruct (simulate (this s)); [| discriminate].
    injection Hact as <- <-. split; [| cbn; lia].
    unfold processed_bounded in *. cbn. exact HK.
Qed.

(** X10.  The barrier counts exactly.  After any run of [Simulate], the
    number of [SignalMoreData()] calls made so far equals [numThreads] times
    the number of returns of [WaitForData()] plus the current value of
    [processed], and [processed] lies between 0 and [numThreads]: each
    return of [WaitForData()] has consumed exactly [numThreads] signals, and
    the increment of line 59 never overflows. *)
Theorem signals_counted_exactly (L0 : Lattice) (s0 s : System)
    (sched : list Actor) (es : list Event) :
  1 <= numThreads L0 <= INT_MAX ->
  Simulate_start L0 = Some s0 ->
  run sched s0 = Some (es, s) ->
  count is_WrkSignalMoreData es
  = numThreads L0 * count is_CtlWaitForData es + processed (this s) /\
  0 <= processed (this s) <= numThreads L0.
Proof.
  intros HN Hstart Hrun.
  destruct (Simulate_start_Inv L0 s0 HN Hstart) as (HI0 & Hc0 & _ & HN0 & _).
  pose (P := fun (es : list Event) (s : System) =>
    Inv s /\ processed_bounded s /\ numThreads (this s) = numThreads L0 /\
    count is_WrkSignalMoreData es
    = numThreads L0 * count is_CtlWaitForData es + processed (this s)).
  assert (HP : P es s).
  { apply (run_invariant P s0) with (sched := sched); [| | exact Hrun].
    - split; [exact HI0 |].
      split; [unfold processed_bounded; rewrite Hc0; exact I |].
      split; [exact HN0 |].
      pose proof (inv_processed _ _ _ _ _ _ HI0) as Hp. rewrite Hc0 in Hp.
      rewrite !count_nil, Hp. lia.
    - intros es1 s1 a e s2 (HI1 & HK1 & HN1 & Heq) Hact.
      destruct (signal_step a s1 s2 e HI1 HK1 Hact) as [HK2 Hstep].
      split; [apply (act_Inv a s1 s2 e HI1 Hact) |].
      split; [exact HK2 |].
      split; [destruct (act_config a s1 s2 e Hact); congruence |].
      rewrite !count_snoc. rewrite HN1 in Hstep.
      destruct (is_CtlWaitForData e); destruct (is_WrkSignalMoreData e); lia. }
  destruct HP as (HI & HK & HNs & Heq).
  split; [exact Heq |].
  rewrite <- HNs. apply processed_range; assumption.
Qed.

(** The worker has completed its pass of the current step: it is about to
    signal, or has signalled and waits for the next wake-up. *)
Definition has_passed (pc : WorkerPc) (f : bool) : bool :=
  match pc, f with
  | WSignal false, _ | WWaitForWork, false => true
  | _, _ => false
  end.

(** How far the passes of a worker are ahead of the swaps, [d], for each
    position of the controller. *)
Definition ahead (c : ControllerPc) (passed : bool) (d : Z) : Prop :=
  match c with
  | CWaitForData | CTestSimulate | CSwap => d = if passed then 1 else 0
  | CWakeUp | CRefresh => d = 0
  | _ => 0 <= d <= 1
  end.

Definition passes_ahead (tid : Z) (es : list Event) (s : System) : Prop :=
  match theThreads s !! Z.to_nat tid, wakeup (this s) !! Z.to_nat tid with
  | Some w, Some f =>
      ahead (ctl s) (has_passed (w_pc w) f)
        (count (is_WrkPass tid) es - count is_CtlSwap es)
  | _, _ => False
  end.

Lemma passes_ahead_controller (tid : Z) (s s' : System) (e : Event)
    (es : list Event) :
  Inv s -> passes_ahead tid es s -> controller_step s = Some (e, s') ->
  passes_ahead tid (es ++ [e]) s'.
Proof.
  intros HI HA Hact. unfold passes_ahead in *.
  destruct (theThreads s !! Z.to_nat tid) as [w |] eqn:Hw; [| destruct HA].
  destruct (wakeup (this s) !! Z.to_nat tid) as [f |] eqn:Hf; [| destruct HA].
  pose proof (inv_allowed _ _ _ _ _ _ HI _ w f Hw Hf) as Hal.
  assert (Hlt : (Z.to_nat tid < length (wakeup (this s)))%nat)
    by (apply lookup_lt_is_Some; eauto).
  rewrite !count_snoc.
  unfold controller_step in Hact.
  destruct (ctl s) as [| | | | | | tj |] eqn:Hc.
  - injection Hact as <- <-. cbn [this theThreads ctl set_ctl set_this].
    rewrite Hw, WakeUp_wakeup, lookup_replicate_2 by exact Hlt.
    cbn in HA, Hal |- *.
    destruct (w_pc w) as [| | | | [|] |]; destruct f;
      first [discriminate Hal | cbn; lia].
  - unfold WaitForData in Hact.
    destruct (processed (this s) =? to_int (numThreads (this s)));
      [| discriminate].
    injection Hact as <- <-. cbn [this theThreads ctl set_ctl set_this wakeup
      with_processed]. rewrite Hw, Hf. cbn in HA |- *. lia.
  - destruct (negb (simulate (this s))); injection Hact as <- <-;
      cbn [this theThreads ctl set_ctl]; rewrite Hw, Hf; cbn in HA |- *;
      destruct (has_passed (w_pc w) f); lia.
  - injection Hact as <- <-.
    cbn [this theThreads ctl set_ctl swap_grids wakeup with_lattice].
    rewrite Hw, Hf. cbn in HA, Hal |- *.
    destruct (w_pc w) as [| | | | [|] |]; destruct f;
      first [discriminate Hal | cbn in HA; lia].
  - destruct (refresh_due (this s) (step s)) as [[|] |]; try discriminate;
      injection Hact as <- <-; cbn [this theThreads ctl];
      [replace (wakeup (GetResults (this s))) with (wakeup (this s))
         by reflexivity |];
      rewrite Hw, Hf; cbn in HA |- *; lia.
  - injection Hact as <- <-. cbn [this theThreads ctl set_ctl set_this].
    rewrite Hw, WakeUp_wakeup, lookup_replicate_2 by exact Hlt.
    cbn in HA |- *. lia.
  - step_cases Hact; injection Hact as <- <-;
      cbn [this theThreads ctl set_ctl]; rewrite Hw, Hf; cbn in HA |- *; lia.
  - discriminate.
Qed.

Lemma passes_ahead_worker (tid : Z) (t : nat) (s s' : System) (e : Event)
    (es : list Event) :
  Inv s -> 0 <= tid -> passes_ahead tid es s ->
  worker_step t s = Some (e, s') ->
  passes_ahead tid (es ++ [e]) s'.
Proof.
  intros HI Htid HA Hact. unfold passes_ahead in *.
  destruct (theThreads s !! Z.to_nat tid) as [w |] eqn:Hw; [| destruct HA].
  destruct (wakeup (this s) !! Z.to_nat tid) as [f |] eqn:Hf; [| destruct HA].
  rewrite !count_snoc.
  unfold worker_step in Hact.
  destruct (theThreads s !! t) as [w0 |] eqn:Hw0; [| discriminate].
  destruct (Inv_flag s t w0 HI Hw0) as (f0 & Hf0 & Hvf0 & Ht0 & Hal).
  pose proof (inv_tid _ _ _ _ _ _ HI t w0 Hw0) as Htid0.
  destruct (Nat.eq_dec t (Z.to_nat tid)) as [-> | Hne].
  - (* the worker of thread [tid] moves *)
    rewrite Hw in Hw0. injection Hw0 as <-.
    rewrite Hf in Hf0. injection Hf0 as <-.
    assert (Hsame : (w_tid w =? tid) = true) by lia.
    destruct (w_pc w) eqn:Hpc; try discriminate.
    + unfold WaitForWork in Hact. rewrite Hvf0 in Hact.
      destruct f; [| discriminate]. injection Hact as <- <-.
      cbn [this theThreads ctl set_thread set_this wakeup with_wakeup].
      unfold vector_set. rewrite Ht0.
      rewrite !list_lookup_insert_eq by (apply lookup_lt_is_Some; eauto).
      cbn in HA, Hal |- *. destruct (ctl s); cbn in HA, Hal |- *; lia.
    + destruct (negb (simulate (this s))); injection Hact as <- <-;
        cbn [this theThreads ctl set_thread];
        rewrite list_lookup_insert_eq by (apply lookup_lt_is_Some; eauto);
        rewrite Hf; cbn in HA |- *;
        destruct (ctl s); destruct f; cbn in HA |- *; lia.
    + injection Hact as <- <-. cbn [this theThreads ctl wakeup with_lattice].
      rewrite list_lookup_insert_eq by (apply lookup_lt_is_Some; eauto).
      rewrite Hf. cbn [is_WrkPass is_CtlSwap]. rewrite Hsame.
      destruct (ctl s); destruct f; cbn in HA, Hal |- *;
        first [discriminate Hal | lia].
    + injection Hact as <- <-.
      cbn [this theThreads ctl set_thread set_this wakeup SignalMoreData
           with_processed].
      rewrite list_lookup_insert_eq by (apply lookup_lt_is_Some; eauto).
      rewrite Hf. cbn [is_WrkPass is_CtlSwap].
      destruct (ctl s); destruct leaving; destruct f; cbn in HA, Hal |- *;
        first [discriminate Hal | lia].
  - (* another worker moves *)
    assert (Hother : (w_tid w0 =? tid) = false) by lia.
    assert (Hpass : forall tid0, tid0 = w_tid w0 ->
              is_WrkPass tid (WrkPass tid0) = false)
      by (intros tid0 ->; exact Hother).
    destruct (w_pc w0) eqn:Hpc; try discriminate.
    + unfold WaitForWork in Hact. rewrite Hvf0 in Hact.
      destruct f0; [| discriminate]. injection Hact as <- <-.
      cbn [this theThreads ctl set_thread set_this wakeup with_wakeup].
      unfold vector_set. rewrite Ht0.
      rewrite !list_lookup_insert_ne by exact Hne.
      rewrite Hw, Hf. cbn in HA |- *. destruct (ctl s); cbn in HA |- *; lia.
    + destruct (negb (simulate (this s))); injection Hact as <- <-;
        cbn [this theThreads ctl set_thread];
        rewrite list_lookup_insert_ne by exact Hne;
        rewrite Hw, Hf; cbn in HA |- *;
        destruct (ctl s); cbn in HA |- *; lia.
    + injection Hact as <- <-. cbn [this theThreads ctl wakeup with_lattice].
      rewrite list_lookup_insert_ne by exact Hne.
      rewrite Hw, Hf. rewrite (Hpass _ eq_refl). cbn [is_CtlSwap].
      destruct (ctl s); cbn in HA |- *; lia.
    + injection Hact as <- <-.
      cbn [this theThreads ctl set_thread set_this wakeup SignalMoreData
           with_processed].
      rewrite list_lookup_insert_ne by exact Hne.
      rewrite Hw, Hf. cbn in HA |- *. destruct (ctl s); cbn in HA |- *; lia.
Qed.

Lemma passes_ahead_step (tid : Z) (a : Actor) (s s' : System) (e : Event)
    (es : list Event) :
  Inv s -> 0 <= tid -> passes_ahead tid es s ->
  act a s = Some (e, s') ->
  passes_ahead tid (es ++ [e]) s'.
Proof.
  intros HI Htid HA Hact. destruct a as [| t |]; cbn [act] in Hact.
  - apply (passes_ahead_controller tid s s' e es HI HA Hact).
  - apply (passes_ahead_worker tid t s s' e es HI Htid HA Hact).
  - unfold user_step in Hact.
    destruct (simulate (this s)); [| discriminate].
    injection Hact as <- <-. unfold passes_ahead in *.
    cbn [this theThreads ctl set_this wakeup with_simulate].
    destruct (theThreads s !! Z.to_nat tid) as [w |]; [| destruct HA].
    destruct (wakeup (this s) !! Z.to_nat tid) as [f |]; [| destruct HA].
    rewrite !count_snoc. cbn in HA |- *.
    destruct (ctl s); cbn in HA |- *; lia.
Qed.

(** X11.  One pass per worker and step.  After any run of [Simulate], the
    number of passes a worker has completed exceeds the number of grid swaps
    by 0 or 1; it is exactly one more whenever the controller is about to
    swap, and equal whenever the controller is about to test for
    [GetResults()] or to wake the workers: every swap publishes a grid on
    which each worker has made exactly one pass since the previous swap, and
    no worker processes its columns twice within a step. *)
Theorem one_pass_per_step (L0 : Lattice) (s0 s : System)
    (sched : list Actor) (es : list Event) (tid : Z) :
  1 <= numThreads L0 <= INT_MAX ->
  Simulate_start L0 = Some s0 ->
  run sched s0 = Some (es, s) ->
  0 <= tid < numThreads L0 ->
  count is_CtlSwap es <= count (is_WrkPass tid) es <= count is_CtlSwap es + 1 /\
  (ctl s = CSwap -> count (is_WrkPass tid) es = count is_CtlSwap es + 1) /\
  (ctl s = CWakeUp \/ ctl s = CRefresh ->
   count (is_WrkPass tid) es = count is_CtlSwap es).
Proof.
  intros HN Hstart Hrun Htid.
  destruct (Simulate_start_Inv L0 s0 HN Hstart) as (HI0 & Hc0 & _ & HN0 & _).
  pose (P := fun (es : list Event) (s : System) =>
    Inv s /\ passes_ahead tid es s).
  assert (HP : P es s).
  { apply (run_invariant P s0) with (sched := sched); [| | exact Hrun].
    - split; [exact HI0 |]. unfold passes_ahead.
      pose proof (inv_threads _ _ _ _ _ _ HI0) as Hws.
      pose proof (inv_flags _ _ _ _ _ _ HI0) as Hfs.
      destruct (lookup_lt_is_Some_2 (theThreads s0) (Z.to_nat tid)) as [w Hw];
        [lia |].
      destruct (lookup_lt_is_Some_2 (wakeup (this s0)) (Z.to_nat tid))
        as [f Hf]; [lia |].
      rewrite Hw, Hf, Hc0. cbn. reflexivity.
    - intros es1 s1 a e s2 (HI1 & HA1) Hact.
      split; [apply (act_Inv a s1 s2 e HI1 Hact) |].
      apply (passes_ahead_step tid a s1 s2 e es1 HI1 ltac:(lia) HA1 Hact). }
  destruct HP as [HI HA]. unfold passes_ahead in HA.
  destruct (theThreads s !! Z.to_nat tid) as [w |] eqn:Hw; [| destruct HA].
  destruct (wakeup (this s) !! Z.to_nat tid) as [f |] eqn:Hf; [| destruct HA].
  pose proof (inv_allowed _ _ _ _ _ _ HI _ w f Hw Hf) as Hal.
  split; [| split].
  - destruct (ctl s); cbn in HA; destruct (has_passed (w_pc w) f); lia.
  - intros Hc. rewrite Hc in HA, Hal. cbn in HA, Hal.
    destruct (w_pc w) as [| | | | [|] |]; destruct f;
      first [discriminate Hal | cbn in HA; lia].
  - intros [Hc | Hc]; rewrite Hc in HA; cbn in HA; lia.
Qed.

End Accounting.

(** ** [Simulate] called with [simulate] already false *)

(** The events that touch a grid or the results. *)
Definition touches_grids (e : Event) : bool :=
  match e with
  | WrkPass _ | CtlSwap | CtlGetResults => true
  | _ => false
  end.

Section StoppedAtCall.
Context `{CellMethods} `{KernelMethods}.

(** The controller is not about to swap or to extract, and no worker is in
    its pass. *)
Definition quiet (s : System) : Prop :=
  match ctl s with CSwap | CRefresh => False | _ => True end /\
  forall t w, theThreads s !! t = Some w -> w_pc w <> WPass.

Lemma quiet_step (a : Actor) (s s' : System) (e : Event) :
  simulate (this s) = false -> quiet s -> act a s = Some (e, s') ->
  simulate (this s') = false /\ quiet s' /\
  lattice (this s') = lattice (this s) /\
  results (this s') = results (this s) /\
  touches_grids e = false.
Proof.
  intros Hsim [Hctl Hws] Hact. destruct a as [| t |]; cbn [act] in Hact.
  - unfold controller_step, WaitForData in Hact. rewrite Hsim in Hact.
    destruct (ctl s); try discriminate Hact; try destruct Hctl.
    + injection Hact as <- <-. repeat split; try assumption.
    + destruct (processed (this s) =? to_int (numThreads (this s)));
        [| discriminate].
      injection Hact as <- <-. repeat split; try assumption.
    + injection Hact as <- <-. repeat split; try assumption.
    + injection Hact as <- <-. repeat split; try assumption.
    + step_cases Hact; injection Hact as <- <-; repeat split; assumption.
  - unfold worker_step in Hact.
    destruct (theThreads s !! t) as [w |] eqn:Hw; [| discriminate].
    assert (Hkeep : forall pc' ws', pc' <> WPass ->
              ws' = <[t := with_pc pc' w]> (theThreads s) ->
              forall t' w', ws' !! t' = Some w' -> w_pc w' <> WPass).
    { intros pc' ws' Hpc' -> t' w' Hw'.
      apply list_lookup_insert_Some in Hw'.
      destruct Hw' as [(_ & <- & _) | (_ & Hw')];
        [exact Hpc' | apply (Hws t' w' Hw')]. }
    destruct (w_pc w) eqn:Hpc; try discriminate.
    + unfold WaitForWork in Hact.
      destruct (vector_at (wakeup (this s)) (w_tid w)) as [[|] |];
        try discriminate.
      injection Hact as <- <-. repeat split; try assumption.
      apply (Hkeep WTestSimulate _ ltac:(discriminate) eq_refl).
    + rewrite Hsim in Hact. injection Hact as <- <-.
      repeat split; try assumption.
      apply (Hkeep (WSignal true) _ ltac:(discriminate) eq_refl).
    + destruct (Hws t w Hw Hpc).
    + injection Hact as <- <-. repeat split; try assumption.
      apply (Hkeep (if leaving then WFinished else WWaitForWork) _
               ltac:(destruct leaving; discriminate) eq_refl).
  - unfold user_step in Hact. rewrite Hsim in Hact. discriminate Hact.
Qed.

Lemma quiet_run (s0 s : System) (sched : list Actor) (es : list Event) :
  simulate (this s0) = false -> quiet s0 ->
  run sched s0 = Some (es, s) ->
  simulate (this s) = false /\
  lattice (this s) = lattice (this s0) /\
  results (this s) = results (this s0) /\
  forall e, e ∈ es -> touches_grids e = false.
Proof.
  intros Hsim0 Hq0 Hrun.
  pose (P := fun (es : list Event) (s : System) =>
    (simulate (this s) = false /\ quiet s) /\
    lattice (this s) = lattice (this s0) /\
    results (this s) = results (this s0) /\
    forall e, e ∈ es -> touches_grids e = false).
  assert (HP : P es s).
  { apply (run_invariant P s0) with (sched := sched); [| | exact Hrun].
    - split; [split; [exact Hsim0 | exact Hq0] |].
      split; [reflexivity |]. split; [reflexivity |].
      intros e He. apply elem_of_nil in He. destruct He.
    - intros es1 s1 a e s2 ([Hsim1 Hq1] & Hlat1 & Hres1 & Hes1) Hact.
      destruct (quiet_step a s1 s2 e Hsim1 Hq1 Hact)
        as (Hsim2 & Hq2 & Hlat2 & Hres2 & He).
      split; [split; [exact Hsim2 | exact Hq2] |].
      split; [exact (eq_trans Hlat2 Hlat1) |].
      split; [exact (eq_trans Hres2 Hres1) |].
      intros e' He'. apply elem_of_app in He'.
      destruct He' as [He' | He']; [apply (Hes1 e' He') |].
      apply list_elem_of_singleton in He'. subst e'. exact He. }
  destruct HP as ([Hs _] & Hl & Hr & Hes).
  split; [exact Hs |]. split; [exact Hl |]. split; [exact Hr | exact Hes].
Qed.

Lemma Simulate_start_grids (L : Lattice) (s : System) :
  Simulate_start L = Some s ->
  lattice (this s) = lattice (Init L) /\ results (this s) = results (Init L).
Proof.
  unfold Simulate_start, Simulate_setup.
  cbn [numThreads with_wakeup with_processed].
  destruct (numThreads (Init L) =? 0); [discriminate |].
  intros Hs. injection Hs as <-. cbn [this lattice results with_wakeup].
  split; destruct (Init L); reflexivity.
Qed.

(** X12.  When [simulate] is already false at the call, [Simulate()] does no
    simulation step at all: in every run no worker makes a pass, the grids
    are never swapped and [GetResults()] is never called, so that the
    lattice and the results stay as [Init] has left them. *)
Theorem Simulate_stopped_at_call (L0 : Lattice) (s0 s : System)
    (sched : list Actor) (es : list Event) :
  1 <= numThreads L0 <= INT_MAX ->
  simulate L0 = false ->
  Simulate_start L0 = Some s0 ->
  run sched s0 = Some (es, s) ->
  (forall e, e ∈ es -> touches_grids e = false) /\
  lattice (this s) = lattice (Init L0) /\
  results (this s) = results (Init L0) /\
  simulate (this s) = false.
Proof.
  intros HN Hsim Hstart Hrun.
  destruct (Simulate_start_Inv L0 s0 HN Hstart) as (HI0 & Hc0 & Hsim0 & _ & _).
  destruct (Simulate_start_grids L0 s0 Hstart) as [Hlat0 Hres0].
  assert (Hq0 : quiet s0).
  { split; [rewrite Hc0; exact I |]. intros t w Hw Hpc.
    destruct (Inv_flag s0 t w HI0 Hw) as (f & _ & _ & _ & Hal).
    rewrite Hc0, Hpc in Hal. destruct f; discriminate Hal. }
  destruct (quiet_run s0 s sched es (eq_trans Hsim0 Hsim) Hq0 Hrun)
    as (Hs & Hl & Hr & Hes).
  split; [exact Hes |]. split; [exact (eq_trans Hl Hlat0) |].
  split; [exact (eq_trans Hr Hres0) | exact Hs].
Qed.

End StoppedAtCall.

(** ** The accounting on a complete run of two workers *)

(** The run of [D2Q9.stop_during_pass] followed by [D2Q9.wind_down]: one
    wake-up, a pass of worker 0, the stop, and the way out. *)
Definition stopped_run : list Actor :=
  D2Q9.stop_during_pass ++ D2Q9.wind_down.

Definition stopped_run_events : list Event :=
  @events_of D2Q9.methods D2Q9.idle_kernel stopped_run D2Q9.entered.

Definition stopped_run_end : System :=
  @state_after D2Q9.methods D2Q9.idle_kernel stopped_run D2Q9.entered.

(** The same domain with [simulate] false at the call of [Simulate()], and
    a complete run from there. *)
Definition stopped_at_call : Lattice := with_simulate false D2Q9.two_threads.

Definition stopped_at_call_entered : System :=
  @spawn_state D2Q9.methods stopped_at_call.

Definition idle_run : list Actor :=
  [Controller; Work 0; Work 0; Work 0; Work 1; Work 1; Work 1;
   Controller; Controller; Controller; Controller; Controller; Controller].

Definition idle_run_end : System :=
  @state_after D2Q9.methods D2Q9.idle_kernel idle_run stopped_at_call_entered.

(** [wake_ups_consumed_once] on the complete run, for worker 0: two
    wake-ups, two returns of [WaitForWork(0)], flag false at the end. *)
Lemma wake_ups_consumed_once_witness :
  (1 <= numThreads D2Q9.two_threads <= INT_MAX /\
   @Simulate_start D2Q9.methods D2Q9.two_threads = Some D2Q9.entered /\
   @runs D2Q9.methods D2Q9.idle_kernel stopped_run D2Q9.entered = true /\
   0 <= 0 < numThreads D2Q9.two_threads) /\
  count (is_WrkWaitForWork 0) stopped_run_events = 2 /\
  pending 0 (this stopped_run_end) = 0 /\
  count is_CtlWakeUp stopped_run_events = 2.
Proof.
  assert (HN : 1 <= numThreads D2Q9.two_threads <= INT_MAX)
    by (cbn; unfold INT_MAX; lia).
  assert (Hne : numThreads D2Q9.two_threads <> 0) by (cbn; lia).
  pose proof (@Simulate_start_eq D2Q9.methods D2Q9.two_threads Hne) as Hstart.
  change (@Simulate_start D2Q9.methods D2Q9.two_threads = Some D2Q9.entered)
    in Hstart.
  assert (Hruns : @runs D2Q9.methods D2Q9.idle_kernel stopped_run D2Q9.entered
                  = true)
    by (vm_compute; reflexivity).
  assert (Htid : 0 <= 0 < numThreads D2Q9.two_threads) by (cbn; lia).
  assert (Hwfw : count (is_WrkWaitForWork 0) stopped_run_events = 2)
    by (vm_compute; reflexivity).
  assert (Hpend : pending 0 (this stopped_run_end) = 0)
    by (vm_compute; reflexivity).
  pose proof (@wake_ups_consumed_once D2Q9.methods D2Q9.idle_kernel
                D2Q9.two_threads D2Q9.entered stopped_run_end stopped_run
                stopped_run_events 0 HN Hstart
                (@run_eq D2Q9.methods D2Q9.idle_kernel _ _ Hruns) Htid)
    as Heq.
  split.
  { split; [exact HN |]. split; [exact Hstart |].
    split; [exact Hruns | exact Htid]. }
  split; [exact Hwfw |]. split; [exact Hpend |].
  rewrite <- Heq, Hwfw, Hpend. reflexivity.
Defined.

(** [signals_counted_exactly] on the complete run: three signals, one
    return of [WaitForData()], and [processed] left at 1 by the worker that
    ends after the final wake-up. *)
Lemma signals_counted_exactly_witness :
  (1 <= numThreads D2Q9.two_threads <= INT_MAX /\
   @Simulate_start D2Q9.methods D2Q9.two_threads = Some D2Q9.entered /\
   @runs D2Q9.methods D2Q9.idle_kernel stopped_run D2Q9.entered = true) /\
  count is_WrkSignalMoreData stopped_run_events = 3 /\
  count is_CtlWaitForData stopped_run_events = 1 /\
  processed (this stopped_run_end) = 1.
Proof.
  assert (HN : 1 <= numThreads D2Q9.two_threads <= INT_MAX)
    by (cbn; unfold INT_MAX; lia).
  assert (Hne : numThreads D2Q9.two_threads <> 0) by (cbn; lia).
  pose proof (@Simulate_start_eq D2Q9.methods D2Q9.two_threads Hne) as Hstart.
  change (@Simulate_start D2Q9.methods D2Q9.two_threads = Some D2Q9.entered)
    in Hstart.
  assert (Hruns : @runs D2Q9.methods D2Q9.idle_kernel stopped_run D2Q9.entered
                  = true)
    by (vm_compute; reflexivity).
  assert (Hwfd : count is_CtlWaitForData stopped_run_events = 1)
    by (vm_compute; reflexivity).
  assert (Hp : processed (this stopped_run_end) = 1)
    by (vm_compute; reflexivity).
  assert (H2 : numThreads D2Q9.two_threads = 2) by reflexivity.
  destruct (@signals_counted_exactly D2Q9.methods D2Q9.idle_kernel
              D2Q9.two_threads D2Q9.entered stopped_run_end stopped_run
              stopped_run_events HN Hstart
              (@run_eq D2Q9.methods D2Q9.idle_kernel _ _ Hruns))
    as [Heq _].
  split.
  { split; [exact HN |]. split; [exact Hstart | exact Hruns]. }
  split; [| split; [exact Hwfd | exact Hp]].
  rewrite Heq, Hwfd, Hp, H2. reflexivity.
Defined.

(** [one_pass_per_step] on the complete run, for worker 0: one pass, whose
    grid is never swapped in because the simulation was stopped. *)
Lemma one_pass_per_step_witness :
  (1 <= numThreads D2Q9.two_threads <= INT_MAX /\
   @Simulate_start D2Q9.methods D2Q9.two_threads = Some D2Q9.entered /\
   @runs D2Q9.methods D2Q9.idle_kernel stopped_run D2Q9.entered = true /\
   0 <= 0 < numThreads D2Q9.two_threads) /\
  count is_CtlSwap stopped_run_events = 0 /\
  0 <= count (is_WrkPass 0) stopped_run_events <= 1.
Proof.
  assert (HN : 1 <= numThreads D2Q9.two_threads <= INT_MAX)
    by (cbn; unfold INT_MAX; lia).
  assert (Hne : numThreads D2Q9.two_threads <> 0) by (cbn; lia).
  pose proof (@Simulate_start_eq D2Q9.methods D2Q9.two_threads Hne) as Hstart.
  change (@Simulate_start D2Q9.methods D2Q9.two_threads = Some D2Q9.entered)
    in Hstart.
  assert (Hruns : @runs D2Q9.methods D2Q9.idle_kernel stopped_run D2Q9.entered
                  = true)
    by (vm_compute; reflexivity).
  assert (Htid : 0 <= 0 < numThreads D2Q9.two_threads) by (cbn; lia).
  assert (Hswap : count is_CtlSwap stopped_run_events = 0)
    by (vm_compute; reflexivity).
  destruct (@one_pass_per_step D2Q9.methods D2Q9.idle_kernel
              D2Q9.two_threads D2Q9.entered stopped_run_end stopped_run
              stopped_run_events 0 HN Hstart
              (@run_eq D2Q9.methods D2Q9.idle_kernel _ _ Hruns) Htid)
    as [Hrange _].
  split.
  { split; [exact HN |]. split; [exact Hstart |].
    split; [exact Hruns | exact Htid]. }
  split; [exact Hswap |].
  rewrite Hswap in Hrange. exact Hrange.
Defined.

(** [Simulate_stopped_at_call] for two workers: [Simulate()] returns with
    the lattice that [Init] built. *)
Lemma Simulate_stopped_at_call_witness :
  (1 <= numThreads stopped_at_call <= INT_MAX /\
   simulate stopped_at_call = false /\
   @Simulate_start D2Q9.methods stopped_at_call
     = Some stopped_at_call_entered /\
   @runs D2Q9.methods D2Q9.idle_kernel idle_run stopped_at_call_entered
     = true) /\
  ctl idle_run_end = CReturned /\
  lattice (this idle_run_end) = lattice (@Init D2Q9.methods stopped_at_call).
Proof.
  assert (HN : 1 <= numThreads stopped_at_call <= INT_MAX)
    by (cbn; unfold INT_MAX; lia).
  assert (Hsim : simulate stopped_at_call = false) by reflexivity.
  assert (Hne : numThreads stopped_at_call <> 0) by (cbn; lia).
  pose proof (@Simulate_start_eq D2Q9.methods stopped_at_call Hne) as Hstart.
  change (@Simulate_start D2Q9.methods stopped_at_call
          = Some stopped_at_call_entered) in Hstart.
  assert (Hruns : @runs D2Q9.methods D2Q9.idle_kernel idle_run
                    stopped_at_call_entered = true)
    by (vm_compute; reflexivity).
  assert (Hctl : ctl idle_run_end = CReturned) by (vm_compute; reflexivity).
  destruct (@Simulate_stopped_at_call D2Q9.methods D2Q9.idle_kernel
              stopped_at_call stopped_at_call_entered idle_run_end idle_run
              _ HN Hsim Hstart
              (@run_eq D2Q9.methods D2Q9.idle_kernel _ _ Hruns))
    as (_ & Hlat & _).
  split.
  { split; [exact HN |]. split; [exact Hsim |].
    split; [exact Hstart | exact Hruns]. }
  split; [exact Hctl | exact Hlat].
Defined.

(** ** No deadlock, and no return before the stop *)

(** The threads of the program: the controller and the workers. *)
Definition is_thread (a : Actor) : bool :=
  match a with User => false | _ => true end.

Section Liveness.
Context `{CellMethods} `{KernelMethods}.

(** Unless [Simulate] has returned with every worker ended, a thread of the
    program can move. *)
Lemma thread_can_move (s : System) :
  Inv s -> to_uint (refreshSteps (this s)) <> 0 ->
  terminated s \/
  exists a e s', is_thread a = true /\ act a s = Some (e, s').
Proof.
  intros HI Hrefresh.
  pose proof (inv_N _ _ _ _ _ _ HI) as HN.
  pose proof (inv_threads _ _ _ _ _ _ HI) as Hws.
  pose proof (inv_flags _ _ _ _ _ _ HI) as Hfs.
  assert (Hworker : forall t w f,
            theThreads s !! t = Some w -> wakeup (this s) !! t = Some f ->
            match w_pc w, f with
            | WWaitForWork, true | WTestSimulate, _ | WPass, _
            | WSignal _, _ => True
            | _, _ => False
            end ->
            exists a e s', is_thread a = true /\ act a s = Some (e, s')).
  { intros t w f Hw Hf Hpc.
    destruct (worker_can_step s t w f HI Hw Hf Hpc) as (e & s' & Hstep).
    exists (Work t), e, s'. split; [reflexivity | exact Hstep]. }
  assert (Hcontroller : forall e s', controller_step s = Some (e, s') ->
            exists a e s', is_thread a = true /\ act a s = Some (e, s')).
  { intros e s' Hstep. exists Controller, e, s'.
    split; [reflexivity | exact Hstep]. }
  destruct (ctl s) as [| | | | | | tj |] eqn:Hc.
  - right. eapply Hcontroller. unfold controller_step. rewrite Hc. reflexivity.
  - (* CWaitForData *)
    right.
    pose proof (inv_processed _ _ _ _ _ _ HI) as Hp. rewrite Hc in Hp.
    pose proof (count_done_range (theThreads s) (wakeup (this s))) as Hr.
    destruct (Z.eq_dec (count_done (theThreads s) (wakeup (this s)))
                (numThreads (this s))) as [Heq | Hne].
    + eapply Hcontroller. unfold controller_step, WaitForData. rewrite Hc.
      rewrite to_int_small by (unfold INT_MAX in *; lia).
      rewrite Hp, Heq, Z.eqb_refl. reflexivity.
    + destruct (count_done_missing (theThreads s) (wakeup (this s)))
        as (t & w & f & Hw & Hf & Hnd); [lia | lia |].
      pose proof (inv_allowed _ _ _ _ _ _ HI t w f Hw Hf) as Hal.
      rewrite Hc in Hal. cbn in Hal. rewrite Hnd in Hal. cbn in Hal.
      apply (Hworker t w f Hw Hf).
      destruct (w_pc w), f; try discriminate Hal; exact I.
  - right. unfold controller_step in Hcontroller. rewrite Hc in Hcontroller.
    destruct (negb (simulate (this s))); eapply Hcontroller; reflexivity.
  - right. eapply Hcontroller. unfold controller_step. rewrite Hc. reflexivity.
  - (* CRefresh *)
    right. unfold controller_step, refresh_due in Hcontroller.
    rewrite Hc in Hcontroller.
    destruct (2000 <? step s); [| eapply Hcontroller; reflexivity].
    destruct (to_uint (refreshSteps (this s)) =? 0) eqn:E; [lia |].
    eapply Hcontroller; reflexivity.
  - right. eapply Hcontroller. unfold controller_step. rewrite Hc. reflexivity.
  - (* CJoin *)
    right.
    pose proof (inv_join _ _ _ _ _ _ HI) as Hj. rewrite Hc in Hj.
    destruct Hj as [Htj _].
    unfold controller_step in Hcontroller. rewrite Hc in Hcontroller.
    rewrite to_uint_small in Hcontroller
      by (unfold INT_MAX, UINT_MOD in *; lia).
    destruct (tj <? numThreads (this s)) eqn:Hlt;
      [| eapply Hcontroller; reflexivity].
    assert (Ht : (Z.to_nat tj < length (theThreads s))%nat) by lia.
    destruct (lookup_lt_is_Some_2 _ _ Ht) as [w Hw].
    assert (Ht' : (Z.to_nat tj < length (wakeup (this s)))%nat) by lia.
    destruct (lookup_lt_is_Some_2 _ _ Ht') as [f Hf].
    pose proof (inv_allowed _ _ _ _ _ _ HI _ w f Hw Hf) as Hal.
    rewrite Hc in Hal. cbn in Hal.
    rewrite vector_at_lookup, Hw in Hcontroller by lia.
    destruct (w_pc w) as [| | | | [|] |] eqn:Hpc;
      try (destruct f; discriminate Hal);
      try (eapply Hcontroller; reflexivity);
      apply (Hworker _ w f Hw Hf); rewrite Hpc;
      destruct f; first [exact I | discriminate Hal].
  - (* CReturned *)
    left. split; [exact Hc |]. intros t w Hw.
    destruct (Inv_flag s t w HI Hw) as (f & _ & _ & _ & Hal).
    rewrite Hc in Hal. cbn in Hal. destruct (w_pc w); try discriminate Hal.
    reflexivity.
Qed.

(** X13.  [Simulate] cannot deadlock, whether the simulation runs or has
    been stopped: in every state it can reach, either [Simulate()] has
    returned and every worker thread has ended, or the controller or some
    worker can make its next step without any help from the user.  (For
    [refreshSteps] different from 0 modulo 2^32; otherwise line 152 divides
    by zero.) *)
Theorem no_deadlock (L0 : Lattice) (s0 s : System) (sched : list Actor)
    (es : list Event) :
  1 <= numThreads L0 <= INT_MAX ->
  to_uint (refreshSteps L0) <> 0 ->
  Simulate_start L0 = Some s0 ->
  run sched s0 = Some (es, s) ->
  terminated s \/
  exists a e s', is_thread a = true /\ act a s = Some (e, s').
Proof.
  intros HN Hr Hstart Hrun.
  destruct (Simulate_start_Inv L0 s0 HN Hstart) as (HI0 & _ & _ & _ & Hr0).
  apply thread_can_move; [apply (run_Inv sched s0 s es HI0 Hrun) |].
  rewrite (proj2 (run_config _ _ _ _ Hrun)), Hr0. exact Hr.
Qed.

(** X14.  [Simulate] leaves its step loop, and a worker thread ends, only
    after [simulate] has been cleared: in every reachable state in which the
    controller is past the [break] of line 147, or some worker has taken the
    branch of line 98, [simulate] is false. *)
Theorem ends_only_when_stopped (L0 : Lattice) (s0 s : System)
    (sched : list Actor) (es : list Event) :
  1 <= numThreads L0 <= INT_MAX ->
  Simulate_start L0 = Some s0 ->
  run sched s0 = Some (es, s) ->
  (match ctl s with
   | CFinalWakeUp | CJoin _ | CReturned => simulate (this s) = false
   | _ => True
   end) /\
  (forall t w, theThreads s !! t = Some w ->
     w_pc w = WSignal true \/ w_pc w = WFinished ->
     simulate (this s) = false).
Proof.
  intros HN Hstart Hrun.
  destruct (Simulate_start_Inv L0 s0 HN Hstart) as (HI0 & _).
  pose proof (run_Inv sched s0 s es HI0 Hrun) as HI.
  split; [exact (inv_stopping _ _ _ _ _ _ HI) |].
  intros t w Hw Hpc. apply (inv_stop _ _ _ _ _ _ HI t w Hw).
  destruct Hpc as [-> | ->]; reflexivity.
Qed.

End Liveness.

(** [no_deadlock] for two workers, when the user has stopped the simulation
    while worker 0 is in its pass: some thread can move. *)
Lemma no_deadlock_witness :
  (1 <= numThreads D2Q9.two_threads <= INT_MAX /\
   to_uint (refreshSteps D2Q9.two_threads) <> 0 /\
   @Simulate_start D2Q9.methods D2Q9.two_threads = Some D2Q9.entered /\
   @runs D2Q9.methods D2Q9.idle_kernel D2Q9.stop_during_pass D2Q9.entered
     = true /\
   ctl D2Q9.stopped = CWaitForData) /\
  exists a e s',
    is_thread a = true /\
    @act D2Q9.methods D2Q9.idle_kernel a D2Q9.stopped = Some (e, s').
Proof.
  assert (HN : 1 <= numThreads D2Q9.two_threads <= INT_MAX)
    by (cbn; unfold INT_MAX; lia).
  assert (Hr : to_uint (refreshSteps D2Q9.two_threads) <> 0)
    by (vm_compute; discriminate).
  assert (Hne : numThreads D2Q9.two_threads <> 0) by (cbn; lia).
  pose proof (@Simulate_start_eq D2Q9.methods D2Q9.two_threads Hne) as Hstart.
  change (@Simulate_start D2Q9.methods D2Q9.two_threads = Some D2Q9.entered)
    in Hstart.
  assert (Hruns : @runs D2Q9.methods D2Q9.idle_kernel
                    D2Q9.stop_during_pass D2Q9.entered = true)
    by (vm_compute; reflexivity).
  assert (Hctl : ctl D2Q9.stopped = CWaitForData) by (vm_compute; reflexivity).
  split.
  { split; [exact HN |]. split; [exact Hr |]. split; [exact Hstart |].
    split; [exact Hruns | exact Hctl]. }
  destruct (@no_deadlock D2Q9.methods D2Q9.idle_kernel D2Q9.two_threads
              D2Q9.entered D2Q9.stopped D2Q9.stop_during_pass _ HN Hr Hstart
              (@run_eq D2Q9.methods D2Q9.idle_kernel _ _ Hruns))
    as [[Hret _] | Hmove].
  - rewrite Hctl in Hret. discriminate Hret.
  - exact Hmove.
Defined.

(** [ends_only_when_stopped] on the complete run of two workers. *)
Lemma ends_only_when_stopped_witness :
  (1 <= numThreads D2Q9.two_threads <= INT_MAX /\
   @Simulate_start D2Q9.methods D2Q9.two_threads = Some D2Q9.entered /\
   @runs D2Q9.methods D2Q9.idle_kernel stopped_run D2Q9.entered = true /\
   ctl stopped_run_end = CReturned) /\
  simulate (this stopped_run_end) = false.
Proof.
  assert (HN : 1 <= numThreads D2Q9.two_threads <= INT_MAX)
    by (cbn; unfold INT_MAX; lia).
  assert (Hne : numThreads D2Q9.two_threads <> 0) by (cbn; lia).
  pose proof (@Simulate_start_eq D2Q9.methods D2Q9.two_threads Hne) as Hstart.
  change (@Simulate_start D2Q9.methods D2Q9.two_threads = Some D2Q9.entered)
    in Hstart.
  assert (Hruns : @runs D2Q9.methods D2Q9.idle_kernel stopped_run D2Q9.entered
                  = true)
    by (vm_compute; reflexivity).
  assert (Hctl : ctl stopped_run_end = CReturned) by (vm_compute; reflexivity).
  split.
  { split; [exact HN |]. split; [exact Hstart |].
    split; [exact Hruns | exact Hctl]. }
  destruct (@ends_only_when_stopped D2Q9.methods D2Q9.idle_kernel
              D2Q9.two_threads D2Q9.entered stopped_run_end stopped_run
              _ HN Hstart (@run_eq D2Q9.methods D2Q9.idle_kernel _ _ Hruns))
    as [Hleft _].
  rewrite Hctl in Hleft. exact Hleft.
Defined.

(** ** The warm-up interval *)

Definition is_CtlGetResults (e : Event) : bool :=
  match e with CtlGetResults => true | _ => false end.

(** The events of line 152: the test has been made, with either outcome,
    and [step] has been incremented. *)
Definition is_refresh_test (e : Event) : bool :=
  match e with CtlGetResults | CtlNoResults => true | _ => false end.

(** 1 between the swap of line 149 and the test of line 152. *)
Definition swapped_untested (s : System) : Z :=
  match ctl s with CRefresh => 1 | _ => 0 end.

Section WarmUp.
Context `{CellMethods} `{KernelMethods}.

(** One transition, seen from the loop counter and the results. *)
Lemma refresh_step (a : Actor) (s s' : System) (e : Event) :
  act a s = Some (e, s') ->
  (if is_CtlSwap e then 1 else 0) + swapped_untested s
  = (if is_refresh_test e then 1 else 0) + swapped_untested s' /\
  step s' = (if is_refresh_test e then to_uint (step s + 1) else step s) /\
  (is_CtlGetResults e = true -> 2000 < step s) /\
  (is_CtlGetResults e = false -> results (this s') = results (this s)).
Proof.
  destruct a as [| t |]; cbn [act]; intros Hstep.
  - unfold controller_step, WaitForData, refresh_due in Hstep.
    unfold swapped_untested.
    destruct (ctl s); try discriminate Hstep.
    + injection Hstep as <- <-. cbn. repeat split; discriminate.
    + destruct (processed (this s) =? to_int (numThreads (this s)));
        [| discriminate].
      injection Hstep as <- <-. cbn. repeat split; discriminate.
    + destruct (negb (simulate (this s))); injection Hstep as <- <-; cbn;
        repeat split; discriminate.
    + injection Hstep as <- <-. cbn. repeat split; discriminate.
    + destruct (2000 <? step s) eqn:Hwarm.
      * destruct (to_uint (refreshSteps (this s)) =? 0); [discriminate |].
        destruct (step s mod to_uint (refreshSteps (this s)) =? 0);
          injection Hstep as <- <-; cbn;
          (split; [reflexivity |]); (split; [reflexivity |]);
          (split; [intros _; lia |]); first [discriminate | reflexivity].
      * injection Hstep as <- <-. cbn.
        split; [reflexivity |]. split; [reflexivity |].
        split; [discriminate | reflexivity].
    + injection Hstep as <- <-. cbn. repeat split; discriminate.
    + step_cases Hstep; injection Hstep as <- <-; cbn;
        repeat split; discriminate.
  - destruct (worker_step_event _ _ _ _ Hstep) as (He & Hctl & Hst).
    unfold swapped_untested. rewrite Hctl, Hst.
    unfold worker_step, WaitForWork in Hstep.
    destruct (theThreads s !! t) as [w |]; [| discriminate].
    destruct (w_pc w); try discriminate.
    + destruct (vector_at (wakeup (this s)) (w_tid w)) as [[|] |];
        try discriminate.
      injection Hstep as <- <-. cbn. repeat split; discriminate.
    + destruct (negb (simulate (this s))); injection Hstep as <- <-; cbn;
        repeat split; discriminate.
    + injection Hstep as <- <-. cbn. repeat split; discriminate.
    + injection Hstep as <- <-. cbn. repeat split; discriminate.
  - unfold user_step in Hstep.
    destruct (simulate (this s)); [| discriminate].
    injection Hstep as <- <-. cbn. repeat split; discriminate.
Qed.

(** X15.  Warm-up.  As long as [Simulate] has swapped the grids at most
    2001 times, [GetResults()] has not been called and the results are the
    zero matrix that [Init] has set up; the loop counter [step] is the
    number of completed iterations, and the number of swaps is that number
    plus 1 between the swap and the test of line 152. *)
Theorem warm_up (L0 : Lattice) (s0 s : System) (sched : list Actor)
    (es : list Event) :
  Simulate_start L0 = Some s0 ->
  run sched s0 = Some (es, s) ->
  count is_CtlSwap es <= 2001 ->
  count is_CtlGetResults es = 0 /\
  results (this s)
  = Matrix_Zero (rows (latticeObstacles L0)) (cols (latticeObstacles L0)) /\
  step s = count is_refresh_test es /\
  count is_CtlSwap es = count is_refresh_test es + swapped_untested s.
Proof.
  intros Hstart Hrun Hwarm.
  destruct (Simulate_start_grids L0 s0 Hstart) as [_ Hres0].
  assert (Hinit : step s0 = 0 /\ ctl s0 = CWakeUp).
  { unfold Simulate_start in Hstart.
    destruct (Simulate_setup L0) as [L4 work].
    destruct (numThreads L4 =? 0); [discriminate |].
    injection Hstart as <-. split; reflexivity. }
  destruct Hinit as [Hstep0 Hctl0].
  pose (P := fun (es : list Event) (s : System) =>
    count is_CtlSwap es = count is_refresh_test es + swapped_untested s /\
    step s = to_uint (count is_refresh_test es) /\
    (count is_refresh_test es <= 2001 ->
     count is_CtlGetResults es = 0 /\ results (this s) = results (this s0))).
  assert (HP : P es s).
  { apply (run_invariant P s0) with (sched := sched); [| | exact Hrun].
    - unfold P, swapped_untested. rewrite Hctl0, Hstep0, !count_nil.
      split; [reflexivity |]. split; [reflexivity |].
      intros _. split; reflexivity.
    - intros es1 s1 a e s2 (Hsw & Hst & Hres) Hact.
      destruct (refresh_step a s1 s2 e Hact) as (Hsw' & Hst' & Hget & Hkeep).
      unfold P. rewrite !count_snoc.
      assert (Hk : 0 <= count is_refresh_test es1)
        by (unfold count; lia).
      split; [lia |]. split.
      + rewrite Hst', Hst. destruct (is_refresh_test e).
        * unfold to_uint. rewrite Zplus_mod_idemp_l. reflexivity.
        * rewrite Z.add_0_r. reflexivity.
      + intros Hle.
        assert (Hle1 : count is_refresh_test es1 <= 2001)
          by (destruct (is_refresh_test e); lia).
        destruct (Hres Hle1) as [Hnone Hsame].
        destruct (is_CtlGetResults e) eqn:Hg.
        * (* an extraction needs [step > 2000] *)
          assert (Hr : is_refresh_test e = true)
            by (destruct e; try discriminate Hg; reflexivity).
          rewrite Hr in Hle. specialize (Hget eq_refl).
          rewrite Hst, to_uint_small in Hget by (unfold UINT_MOD; lia). lia.
        * split; [lia |]. rewrite (Hkeep eq_refl). exact Hsame. }
  destruct HP as (Hsw & Hst & Hres).
  assert (Hk : 0 <= count is_refresh_test es) by (unfold count; lia).
  assert (Hu : 0 <= swapped_untested s <= 1)
    by (unfold swapped_untested; destruct (ctl s); lia).
  destruct (Hres ltac:(lia)) as [Hnone Hsame].
  split; [exact Hnone |]. split.
  - rewrite Hsame, Hres0. destruct L0; reflexivity.
  - split; [| exact Hsw].
    rewrite Hst. apply to_uint_small. unfold UINT_MOD. lia.
Qed.

End WarmUp.

(** One full iteration of two workers: wake-up, both passes, swap, test. *)
Definition one_step_run : list Actor :=
  [Controller; Work 0; Work 0; Work 0; Work 0; Work 1; Work 1; Work 1; Work 1;
   Controller; Controller; Controller; Controller].

Definition one_step_events : list Event :=
  @events_of D2Q9.methods D2Q9.idle_kernel one_step_run D2Q9.entered.

Definition one_step_end : System :=
  @state_after D2Q9.methods D2Q9.idle_kernel one_step_run D2Q9.entered.

(** [warm_up] after one full iteration of two workers. *)
Lemma warm_up_witness :
  (@Simulate_start D2Q9.methods D2Q9.two_threads = Some D2Q9.entered /\
   @runs D2Q9.methods D2Q9.idle_kernel one_step_run D2Q9.entered = true /\
   count is_CtlSwap one_step_events = 1) /\
  count is_CtlGetResults one_step_events = 0 /\
  step one_step_end = 1.
Proof.
  assert (Hne : numThreads D2Q9.two_threads <> 0) by (cbn; lia).
  pose proof (@Simulate_start_eq D2Q9.methods D2Q9.two_threads Hne) as Hstart.
  change (@Simulate_start D2Q9.methods D2Q9.two_threads = Some D2Q9.entered)
    in Hstart.
  assert (Hruns : @runs D2Q9.methods D2Q9.idle_kernel one_step_run D2Q9.entered
                  = true)
    by (vm_compute; reflexivity).
  assert (Hswap : count is_CtlSwap one_step_events = 1)
    by (vm_compute; reflexivity).
  assert (Hk : count is_refresh_test one_step_events = 1)
    by (vm_compute; reflexivity).
  assert (Hwarm : count is_CtlSwap one_step_events <= 2001)
    by (rewrite Hswap; lia).
  destruct (@warm_up D2Q9.methods D2Q9.idle_kernel D2Q9.two_threads
              D2Q9.entered one_step_end one_step_run one_step_events Hstart
              (@run_eq D2Q9.methods D2Q9.idle_kernel _ _ Hruns) Hwarm)
    as (Hnone & _ & Hstep & _).
  split.
  { split; [exact Hstart |]. split; [exact Hruns | exact Hswap]. }
  split; [exact Hnone |]. rewrite Hstep. exact Hk.
Defined.

(** ** The sizes of the column ranges *)

(** X16.  Load balance.  Among the workers that [Simulate] spawns, each but
    the last owns exactly [cols / numThreads] columns and the last owns
    [cols / numThreads + cols mod numThreads], that is, up to
    [numThreads - 1] columns more than the others; with at least as many
    columns as threads every worker owns at least one column. *)
Theorem range_sizes (L : Lattice) (t a b : Z) :
  let C := cols (lattice L) in
  let N := numThreads L in
  0 <= C <= INT_MAX ->
  1 <= N <= INT_MAX ->
  0 <= t < N ->
  assigned_range (spawn_threads L) t = Some (a, b) ->
  b - a = (if t =? N - 1 then C / N + C mod N else C / N) /\
  0 <= C mod N < N /\
  (N <= C -> a < b).
Proof.
  intros C N HC HN Ht Hrange.
  rewrite (assigned_range_spawn L t HC HN Ht) in Hrange.
  injection Hrange as <- <-. fold C N.
  unfold range_start, range_end, stride.
  pose proof (Z.div_mod C N ltac:(lia)) as Hdm.
  pose proof (Z.mod_pos_bound C N ltac:(lia)) as Hmod.
  assert (Hq : N <= C -> 1 <= C / N).
  { intros Hle. apply Z.div_le_lower_bound; lia. }
  assert (H0 : 0 <= C / N) by (apply Z.div_pos; lia).
  destruct (Z.eqb_spec t (N - 1)) as [-> | Hne].
  - split; [nia |]. split; [exact Hmod |]. intros Hle. specialize (Hq Hle). nia.
  - split; [lia |]. split; [exact Hmod |]. intros Hle. specialize (Hq Hle). lia.
Qed.

(** [range_sizes] on 10 columns shared by 3 threads: the last worker owns
    4 columns. *)
Lemma range_sizes_witness :
  (0 <= cols (lattice D2Q9.lattice_4x10) <= INT_MAX /\
   1 <= numThreads D2Q9.lattice_4x10 <= INT_MAX /\
   0 <= 2 < numThreads D2Q9.lattice_4x10 /\
   assigned_range (spawn_threads D2Q9.lattice_4x10) 2 = Some (6, 10)) /\
  10 - 6 = 3 + 1.
Proof.
  assert (HC : 0 <= cols (lattice D2Q9.lattice_4x10) <= INT_MAX)
    by (cbn; unfold INT_MAX; lia).
  assert (HN : 1 <= numThreads D2Q9.lattice_4x10 <= INT_MAX)
    by (cbn; unfold INT_MAX; lia).
  assert (Ht : 0 <= 2 < numThreads D2Q9.lattice_4x10) by (cbn; lia).
  assert (Hrange : assigned_range (spawn_threads D2Q9.lattice_4x10) 2
                   = Some (6, 10))
    by (vm_compute; reflexivity).
  split.
  { split; [exact HC |]. split; [exact HN |]. split; [exact Ht | exact Hrange]. }
  destruct (range_sizes D2Q9.lattice_4x10 2 6 10 HC HN Ht Hrange) as [Hsize _].
  exact Hsize.
Defined.
